(** * Course-catalog backend: role-scoped authorization, soft-delete
      cascades and the curriculum report layout

    A shallow embedding of the controllers of the backend
    (controllers/adminController.js, controllers/authController.js,
    controllers/cursadoController.js, middleware/authMiddleware.js).

    - Rows of the relational tables are records, tables are lists of rows.
    - Every awaited storage call may throw: a request carries an oracle
      that says, for the n-th awaited call, whether it fails and how.
    - A transaction works on a private copy of the store; [commit] makes
      it durable and [rollback] forgets it.
    - Identifiers are integers.  A path parameter that only the storage
      reads is modelled by the number it denotes; where a handler also
      compares its text, the parameter is the text together with that
      number ([PathId]).
    - An optional JSON field is an [option]: [None] is [undefined].
    - An identifier that a handler takes from a JSON body and both tests
      and stores is the raw scalar ([crudo]); what [parseInt] reads from
      it and what an integer column makes of it are parameters.
    - The report is what the document library is asked to draw, page by
      page; the library's text wrapper starts a page of its own when a
      text reaches the bottom margin.
    - Strings are compared exactly, in SQL as in JavaScript (a binary
      collation); only [ORDER BY] uses the order of the collation. *)

From Stdlib Require Import ZArith NArith List String Ascii Bool Lia.
From Stdlib Require Import QArith Qround Qminmax Lqa DecimalString Sorted.
Import ListNotations.

Local Open Scope Z_scope.
Local Open Scope string_scope.
Local Open Scope list_scope.

(* ================================================================= *)
(** ** JavaScript values *)

Module JS.

(** Truthiness of an optional string field: [undefined] and the empty
    string are falsy. *)
Definition truthy (v : option string) : bool :=
  match v with
  | Some s => negb (s =? "")
  | None => false
  end.

(** [v || d] where [v] is an optional string and [d] a string. *)
Definition or_else (v : option string) (d : string) : string :=
  match v with
  | Some s => if s =? "" then d else s
  | None => d
  end.

(** [v || null]. *)
Definition or_null (v : option string) : option string :=
  if truthy v then v else None.

(** Truthiness of an optional numeric field: [undefined] and [0] are
    falsy. *)
Definition truthy_num (v : option Z) : bool :=
  match v with
  | Some z => negb (z =? 0)%Z
  | None => false
  end.

(** [v !== undefined]. *)
Definition defined {A} (v : option A) : bool :=
  match v with
  | Some _ => true
  | None => false
  end.

(** A JavaScript string whose content matters character by character
    (a password) is its sequence of UTF-16 code units. *)
Definition str16 := list N.

(** The code units of a text written in ASCII characters, each of which
    is one code unit; it is used on such texts only. *)
Fixpoint units (s : string) : str16 :=
  match s with
  | EmptyString => []
  | String c s' => N_of_ascii c :: units s'
  end.

(** The code units matched by [\s]; [String.prototype.trim] strips the
    same set (white space and line terminators). *)
Definition is_space (c : N) : bool :=
  ((9 <=? c) && (c <=? 13) || (c =? 32) || (c =? 160) || (c =? 5760)
   || (8192 <=? c) && (c <=? 8202) || (c =? 8232) || (c =? 8233)
   || (c =? 8239) || (c =? 8287) || (c =? 12288) || (c =? 65279))%N.

(** [String(n)] on an integer. *)
Definition String (z : Z) : string := NilZero.string_of_int (Z.to_int z).

Definition is_upper (c : N) : bool := ((65 <=? c) && (c <=? 90))%N.
Definition is_lower (c : N) : bool := ((97 <=? c) && (c <=? 122))%N.
Definition is_digit (c : N) : bool := ((48 <=? c) && (c <=? 57))%N.

Fixpoint trimStart (s : str16) : str16 :=
  match s with
  | c :: s' => if is_space c then trimStart s' else s
  | [] => []
  end.

Definition trim (s : str16) : str16 :=
  rev (trimStart (rev (trimStart s))).

End JS.

(* ================================================================= *)
(** ** The relational store *)

(** Table [administrador]. *)
Record Administrador := mkAdministrador {
  id_administrador : Z;
  nombre_administrador : string;
  email : option string;
  contraseña : string;
  dni : option string;
  telefono : option string;
  rol : string;
  adm_estado : string;
  adm_fecha_eliminacion : option Z;
  adm_id_administrador_eliminacion : option Z
}.

(** Table [admin_carrera], the join rows between a coordinator and a
    career. *)
Record AdminCarrera := mkAdminCarrera {
  ac_id_administrador : Z;
  ac_id_carrera : Z
}.

(** Table [carrera]. *)
Record Carrera := mkCarrera {
  id_carrera : Z;
  nombre_carrera : string;
  duracion : string;
  car_modalidad : string;
  año_aprobacion : string;
  car_estado : string;
  car_fecha_eliminacion : option Z;
  car_id_administrador_eliminacion : option Z
}.

(** Table [materia]. *)
Record Materia := mkMateria {
  id_materia : Z;
  nombre_materia : string;
  mat_id_carrera : Z;
  año : Z;
  campo_formacion : option string;
  mat_modalidad : option string;
  formato : option string;
  horas_semanales : option Z;
  total_horas_anuales : option Z;
  acreditacion : option string;
  mat_estado : string;
  mat_fecha_eliminacion : option Z;
  mat_id_administrador_eliminacion : option Z
}.

(** Table [horario].  Times are seconds since midnight. *)
Record Horario := mkHorario {
  id_horario : Z;
  hor_id_materia : Z;
  dia_semana : string;
  hora_inicio : Z;
  hora_fin : Z;
  hor_estado : string;
  hor_fecha_eliminacion : option Z;
  hor_id_administrador_eliminacion : option Z
}.

(** A row of [horario] as [getHorarioById] selects it: the six columns
    [id_horario, id_materia, dia_semana, hora_inicio, hora_fin,
    estado]. *)
Record HorarioColumnas := mkHorarioColumnas {
  hc_id_horario : Z;
  hc_id_materia : Z;
  hc_dia_semana : string;
  hc_hora_inicio : Z;
  hc_hora_fin : Z;
  hc_estado : string
}.

(** Table [correlatividad]. *)
Record Correlatividad := mkCorrelatividad {
  id_correlatividad : Z;
  id_materia_principal : Z;
  id_materia_requisito : Z;
  tipo : string;
  estado_requisito : string;
  cor_estado : string;
  cor_fecha_eliminacion : option Z;
  cor_id_administrador_eliminacion : option Z
}.

(** The store: the six tables and the auto-increment counter of
    [administrador]. *)
Record DB := mkDB {
  administrador : list Administrador;
  admin_carrera : list AdminCarrera;
  carrera : list Carrera;
  materia : list Materia;
  horario : list Horario;
  correlatividad : list Correlatividad;
  next_id_administrador : Z
}.

Definition with_administrador (l : list Administrador) (n : Z) (db : DB) : DB :=
  mkDB l (admin_carrera db) (carrera db) (materia db) (horario db)
       (correlatividad db) n.

Definition with_admin_carrera (l : list AdminCarrera) (db : DB) : DB :=
  mkDB (administrador db) l (carrera db) (materia db) (horario db)
       (correlatividad db) (next_id_administrador db).

Definition with_carrera (l : list Carrera) (db : DB) : DB :=
  mkDB (administrador db) (admin_carrera db) l (materia db) (horario db)
       (correlatividad db) (next_id_administrador db).

Definition with_materia (l : list Materia) (db : DB) : DB :=
  mkDB (administrador db) (admin_carrera db) (carrera db) l (horario db)
       (correlatividad db) (next_id_administrador db).

Definition with_horario (l : list Horario) (db : DB) : DB :=
  mkDB (administrador db) (admin_carrera db) (carrera db) (materia db) l
       (correlatividad db) (next_id_administrador db).

Definition with_correlatividad (l : list Correlatividad) (db : DB) : DB :=
  mkDB (administrador db) (admin_carrera db) (carrera db) (materia db)
       (horario db) l (next_id_administrador db).

(** [UPDATE t SET ... WHERE p]: the rows that satisfy [p] are rewritten
    by [f]; the affected-row count is the number of rows matched (the
    driver connects with the found-rows flag). *)
Definition update_where {A} (p : A -> bool) (f : A -> A) (l : list A) : list A :=
  map (fun r => if p r then f r else r) l.

Definition count_where {A} (p : A -> bool) (l : list A) : nat :=
  List.length (filter p l).

(** [DELETE FROM t WHERE p]. *)
Definition delete_where {A} (p : A -> bool) (l : list A) : list A :=
  filter (fun r => negb (p r)) l.

(* ================================================================= *)
(** ** Requests against the store: state, failure, transactions *)

(** What a rejected storage call carries in [error.code]. *)
Inductive sqlerr :=
| ER_DUP_ENTRY
| ER_NO_REFERENCED_ROW_2
| ER_OTHER.

(** The environment of one request: which awaited storage call fails,
    the value of [NOW()], the hashing service ([bcrypt.hash] with the
    salt of this request), the token service ([jwt.sign] with the
    session secret, [jwt.verify] with the reset secret, which gives the
    [id] of the payload or throws) and the order of the store's string
    collation. *)
Record env := mkEnv {
  faults : nat -> option sqlerr;
  now : Z;
  bcrypt_hash : JS.str16 -> string;
  jwt_sign : Z -> string -> string;
  jwt_verify_reset : string -> option Z;
  collation_le : string -> string -> bool
}.

(** The state of one request: the durable store, the working copy of the
    connection's open transaction, and the number of awaited storage
    calls so far. *)
Record world := mkWorld {
  durable : DB;
  work : DB;
  intx : bool;
  tick : nat
}.

Inductive result (A : Type) :=
| Ok (a : A)
| Throw (e : sqlerr).
Arguments Ok {A} a.
Arguments Throw {A} e.

Definition M (A : Type) : Type := env -> world -> result A * world.

Definition ret {A} (a : A) : M A := fun _ w => (Ok a, w).

Definition bind {A B} (m : M A) (k : A -> M B) : M B :=
  fun e w =>
    match m e w with
    | (Ok a, w') => k a e w'
    | (Throw err, w') => (Throw err, w')
    end.

Notation "x <- m ;; k" := (bind m (fun x => k))
  (at level 61, m at next level, right associativity).
Notation "m ;;; k" := (bind m (fun _ => k))
  (at level 61, right associativity).

(** [try { body } catch (error) { handler }]. *)
Definition try_catch {A} (body : M A) (handler : sqlerr -> M A) : M A :=
  fun e w =>
    match body e w with
    | (Ok a, w') => (Ok a, w')
    | (Throw err, w') => handler err e w'
    end.

Definition next_tick (w : world) : world :=
  mkWorld (durable w) (work w) (intx w) (S (tick w)).

(** One awaited storage call: it throws when the oracle says so, leaving
    the store as it was; otherwise it runs. *)
Definition await {A} (f : world -> A * world) : M A :=
  fun e w =>
    match faults e (tick w) with
    | Some err => (Throw err, next_tick w)
    | None => let (a, w') := f w in (Ok a, next_tick w')
    end.

(** [pool.query]: a statement on a connection of its own, committed at
    once; it does not see the open transaction. *)
Definition pool_query {A} (q : DB -> A * DB) : M A :=
  await (fun w =>
    let (a, d) := q (durable w) in
    (a, mkWorld d (work w) (intx w) (tick w))).

(** [connection.query]: a statement on the connection that holds the
    transaction. *)
Definition conn_query {A} (q : DB -> A * DB) : M A :=
  await (fun w =>
    if intx w then
      let (a, d) := q (work w) in (a, mkWorld (durable w) d true (tick w))
    else
      let (a, d) := q (durable w) in (a, mkWorld d (work w) false (tick w))).

Definition getConnection : M unit := await (fun w => (tt, w)).

Definition beginTransaction : M unit :=
  await (fun w => (tt, mkWorld (durable w) (durable w) true (tick w))).

Definition commit : M unit :=
  await (fun w =>
    if intx w then (tt, mkWorld (work w) (work w) false (tick w)) else (tt, w)).

(** [connection.rollback()] is taken to succeed; outside a transaction it
    does nothing.  The handlers guard it with [if (connection)], which
    only skips it when no transaction was begun. *)
Definition rollback : M unit :=
  fun _ w => (Ok tt, mkWorld (durable w) (durable w) false (tick w)).

Definition get_now : M Z := fun e w => (Ok (now e), w).
Definition hash (p : JS.str16) : M string := fun e w => (Ok (bcrypt_hash e p), w).
Definition collation : M (string -> string -> bool) :=
  fun e w => (Ok (collation_le e), w).

(** A read is a query that leaves the store alone. *)
Definition reading {A} (q : DB -> A) : DB -> A * DB := fun db => (q db, db).
Definition writing (q : DB -> DB) : DB -> unit * DB := fun db => (tt, q db).

(** [ORDER BY]: a stable insertion sort by the comparison [le]. *)
Fixpoint insert_by {A} (le : A -> A -> bool) (x : A) (l : list A) : list A :=
  match l with
  | [] => [x]
  | y :: l' => if le x y then x :: l else y :: insert_by le x l'
  end.

Fixpoint order_by {A} (le : A -> A -> bool) (l : list A) : list A :=
  match l with
  | [] => []
  | x :: l' => insert_by le x (order_by le l')
  end.

(* ================================================================= *)
(** ** Responses *)

(** The bodies the handlers send.  A result row of a query is the table
    row (or the tuple of joined rows) it is computed from; the
    projection to the selected columns is applied where a handler says
    so. *)
Inductive json :=
| JMessage (message : string)
| JMessageError (message : string) (error : string)
| JMessageSqlError (message : string) (error : sqlerr)
| JError (error : string)
| JAdministradorCreado (id : Z) (nombre : string) (rol_ : string) (message : string)
| JAdministradorEliminado (message : string) (id_administrador_eliminado : string)
| JRegistro (id : Z) (nombre : string) (rol_ : string) (token : string)
| JCarreras (rows : list (Carrera * option string))
| JMaterias (rows : list Materia)
| JMateria (row : Materia)
| JHorarios (rows : list (Horario * Materia * Carrera))
| JHorariosPublicos (rows : list Horario)
| JHorario (row : HorarioColumnas)
| JCorrelatividades (rows : list (Correlatividad * Materia * Materia))
| JCorrelatividad (row : Correlatividad * Materia).

Record response := mkResponse {
  status : nat;
  body : json
}.

(** [res.status(n).json(b)] and [res.json(b)]. *)
Definition send (n : nat) (b : json) : M response := ret (mkResponse n b).
Definition send_json (b : json) : M response := ret (mkResponse 200 b).

(** One request served on a store: the response (none if the handler's
    promise rejects) and the store afterwards. *)
Definition serve (h : M response) (e : env) (db : DB) : option response * DB :=
  match h e (mkWorld db db false 0) with
  | (Ok r, w) => (Some r, durable w)
  | (Throw _, w) => (None, durable w)
  end.

(** The oracle of a request in which no storage call fails. *)
Definition no_faults : nat -> option sqlerr := fun _ => None.

(* ================================================================= *)
(** ** middleware/authMiddleware.js *)

(** [req.user]: the administrator row read by [protect], with the ids of
    the careers in charge ([null] for a Rector).  [user.id] is the same
    field as [user.id_administrador]. *)
Record User := mkUser {
  user_id : Z;
  user_nombre : string;
  user_rol : string;
  user_estado : string;
  carreras_a_cargo_ids : option (list Z)
}.

(** What reading and verifying the bearer token gives. *)
Inductive credential :=
| NoToken
| BadToken
| Token (id_administrador_ : Z).

Definition select_administrador (id : Z) (db : DB) : list Administrador :=
  filter (fun a => id_administrador a =? id)%Z (administrador db).

Definition select_admin_carrera_by_admin (id : Z) (db : DB) : list AdminCarrera :=
  filter (fun ac => ac_id_administrador ac =? id)%Z (admin_carrera db).

(** The body of [protect]'s [try] block, up to the call of [next]:
    either a response is sent or [req.user] is set. *)
Definition protect_lookup (idAdmin : Z) : M (response + User) :=
  administradores <- pool_query (reading (select_administrador idAdmin)) ;;
  match administradores with
  | [] => ret (inl (mkResponse 401 (JMessage "No autorizado, administrador no encontrado")))
  | user :: _ =>
      if negb (adm_estado user =? "activo") then
        ret (inl (mkResponse 403
               (JMessage ("Acceso denegado. Su cuenta se encuentra "
                          ++ adm_estado user ++ ". Contacte a un Rector."))))
      else if rol user =? "Coordinador" then
        carreras <- pool_query (reading (select_admin_carrera_by_admin idAdmin)) ;;
        ret (inr (mkUser (id_administrador user) (nombre_administrador user)
                         (rol user) (adm_estado user)
                         (Some (map ac_id_carrera carreras))))
      else
        ret (inr (mkUser (id_administrador user) (nombre_administrador user)
                         (rol user) (adm_estado user) None))
  end.

Definition protect (c : credential) (next : User -> M response) : M response :=
  match c with
  | Token idAdmin =>
      r <- try_catch (protect_lookup idAdmin)
             (fun _ => ret (inl (mkResponse 401
                        (JMessage "No autorizado, token inválido o expirado")))) ;;
      match r with
      | inl resp => ret resp
      | inr user => next user
      end
  | BadToken => send 401 (JMessage "No autorizado, token inválido o expirado")
  | NoToken => send 401 (JMessage "No autorizado, no hay token")
  end.

(** [admin]: routes open to Rector and Coordinador. *)
Definition admin (user : User) (next : M response) : M response :=
  if (user_rol user =? "Rector") || (user_rol user =? "Coordinador") then next
  else send 403 (JMessage "Acceso denegado. Se requiere un rol de administración válido (Rector o Coordinador).").

(** [rector]: routes open to the Rector only. *)
Definition rector (user : User) (next : M response) : M response :=
  if user_rol user =? "Rector" then next
  else send 403 (JMessage "Acceso denegado. Se requiere el rol de Rector.").

(* ================================================================= *)
(** ** controllers/adminController.js: utilities *)

(** [validateRequiredFields]: the response for the first field of the
    list that is falsy in the body, if any.  A field is given with its
    truthiness. *)
Fixpoint validateRequiredFields (fields : list (string * bool)) : option response :=
  match fields with
  | [] => None
  | (field, present) :: rest =>
      if negb present then
        Some (mkResponse 400
                (JMessageError
                   ("Error de validación: El campo '" ++ field ++ "' es obligatorio.")
                   ("Missing required field: " ++ field)))
      else validateRequiredFields rest
  end.

(** [checkMateriaAccess]: the count of the join of [materia],
    [admin_carrera] and [administrador] is positive. *)
Definition checkMateriaAccess_rows (idMateria idAdministrador : Z) (db : DB)
  : list (Materia * AdminCarrera * Administrador) :=
  flat_map (fun m =>
    flat_map (fun ac =>
      flat_map (fun a =>
        if ((mat_id_carrera m =? ac_id_carrera ac)%Z
            && (ac_id_administrador ac =? id_administrador a)%Z
            && (id_materia m =? idMateria)%Z
            && (ac_id_administrador ac =? idAdministrador)%Z
            && (mat_estado m =? "activo")
            && ((adm_estado a =? "activo") || (adm_estado a =? "suspendido")))
        then [(m, ac, a)] else [])
      (administrador db))
    (admin_carrera db))
  (materia db).

Definition checkMateriaAccess (idMateria idAdministrador : Z) : M bool :=
  rows <- pool_query (reading (checkMateriaAccess_rows idMateria idAdministrador)) ;;
  ret (0 <? List.length rows)%nat.

(** [validatePasswordRules]: the message of the first rule the password
    breaks, or [None] ([null]) when it is valid. *)
Definition validatePasswordRules (password : JS.str16) : option string :=
  if (List.length password <? 8)%nat then
    Some "La contraseña debe tener al menos 8 caracteres."
  else if negb (existsb JS.is_upper password) then
    Some "La contraseña debe contener al menos una letra mayúscula."
  else if negb (existsb JS.is_lower password) then
    Some "La contraseña debe contener al menos una letra minúscula."
  else if negb (existsb JS.is_digit password) then
    Some "La contraseña debe contener al menos un número."
  else if negb (existsb (fun c => negb (JS.is_lower c || JS.is_upper c
                                        || JS.is_digit c || JS.is_space c))
                        password) then
    Some "La contraseña debe contener al menos un carácter especial (ej: !@#$)."
  else None.

(* ================================================================= *)
(** ** controllers/adminController.js: administrators *)

(** Modelled from the spec: the column default of [administrador.estado]
    (the schema is not part of the sources).  An administrator is
    created at registration in the first of the lifecycle states active,
    suspended, inactive; [protect] admits only 'activo'. *)
Definition estado_inicial_administrador : string := "activo".

(** [INSERT INTO administrador (nombre_administrador, email, contraseña,
    dni, telefono, rol)]: the new row takes the next identifier; the
    result is [insertId]. *)
Definition insert_administrador
    (nombre : string) (email_ : option string) (hash_ : string)
    (dni_ telefono_ : option string) (rol_ : string) (db : DB) : Z * DB :=
  let id := next_id_administrador db in
  (id,
   with_administrador
     (administrador db ++
        [mkAdministrador id nombre email_ hash_ dni_ telefono_ rol_
                         estado_inicial_administrador None None])
     (id + 1)%Z db).

Record CreateUserBody := mkCreateUserBody {
  cu_nombre_administrador : option string;
  cu_email : option string;
  cu_contraseña : option JS.str16;
  cu_dni : option string;
  cu_telefono : option string;
  cu_rol : option string
}.

Definition nonempty16 (v : option JS.str16) : bool :=
  match v with
  | Some (_ :: _) => true
  | _ => false
  end.

Definition createUserByAdmin (b : CreateUserBody) : M response :=
  match validateRequiredFields
          [("nombre_administrador", JS.truthy (cu_nombre_administrador b));
           ("contraseña", nonempty16 (cu_contraseña b));
           ("rol", JS.truthy (cu_rol b))] with
  | Some r => ret r
  | None =>
      let nombre := JS.or_else (cu_nombre_administrador b) "" in
      let contraseña_ := match cu_contraseña b with Some p => p | None => [] end in
      let rol_ := JS.or_else (cu_rol b) "" in
      match validatePasswordRules contraseña_ with
      | Some validationError =>
          send 400 (JMessage ("Error de validación: " ++ validationError))
      | None =>
          try_catch
            (contraseña_hash <- hash contraseña_ ;;
             insertId <- pool_query
               (insert_administrador nombre (JS.or_null (cu_email b)) contraseña_hash
                  (JS.or_null (cu_dni b)) (JS.or_null (cu_telefono b)) rol_) ;;
             send 201 (JAdministradorCreado insertId nombre rol_
                         "Administrador creado exitosamente."))
            (fun error =>
               match error with
               | ER_DUP_ENTRY =>
                   send 400 (JMessage "El nombre de administrador, email o DNI ya está registrado.")
               | _ => send 500 (JMessageSqlError "Error al crear el administrador." error)
               end)
      end
  end.

(** One assignment of the [SET] list that [updateUserByAdmin] builds. *)
Inductive asignacion :=
| set_nombre_administrador (v : string)
| set_email (v : option string)
| set_dni (v : option string)
| set_telefono (v : option string)
| set_rol (v : string)
| set_estado (v : string)
| set_fecha_eliminacion (v : option Z)
| set_id_administrador_eliminacion (v : option Z)
| set_contraseña (v : string).

Definition asignar (a : Administrador) (s : asignacion) : Administrador :=
  match a with
  | mkAdministrador i n e c d t r st f ia =>
      match s with
      | set_nombre_administrador v => mkAdministrador i v e c d t r st f ia
      | set_email v => mkAdministrador i n v c d t r st f ia
      | set_dni v => mkAdministrador i n e c v t r st f ia
      | set_telefono v => mkAdministrador i n e c d v r st f ia
      | set_rol v => mkAdministrador i n e c d t v st f ia
      | set_estado v => mkAdministrador i n e c d t r v f ia
      | set_fecha_eliminacion v => mkAdministrador i n e c d t r st v ia
      | set_id_administrador_eliminacion v => mkAdministrador i n e c d t r st f v
      | set_contraseña v => mkAdministrador i n e v d t r st f ia
      end
  end.

(** The path parameter of [updateUserByAdmin] and [deleteUserByAdmin].
    [req.params.id] is a text: the handlers compare it, as a text, with
    [String(req.user.id)], and hand it to the storage, which compares
    the integer column with the number it reads from the text.  For a
    decimal numeral that number is its value, whether or not the
    numeral is the one that [String] writes: '01' and '1' are two texts
    of the number 1. *)
Record PathId := mkPathId {
  texto : string;
  numero : Z
}.

(** The parameter written as [String] writes the identifier. *)
Definition canonico (id : Z) : PathId := mkPathId (JS.String id) id.

(** [String(a) === String(id)] on an identifier and the parameter. *)
Definition mismo_texto (a : Z) (id : PathId) : bool := JS.String a =? texto id.

(** [UPDATE administrador SET <parts> WHERE id_administrador = ?]; the
    result is [affectedRows]. *)
Definition update_administrador (sqlParts : list asignacion) (id : Z) (db : DB)
  : nat * DB :=
  (count_where (fun a => id_administrador a =? id)%Z (administrador db),
   with_administrador
     (update_where (fun a => id_administrador a =? id)%Z
                   (fun a => fold_left asignar sqlParts a) (administrador db))
     (next_id_administrador db) db).

(** [DELETE FROM admin_carrera WHERE id_administrador = ?]. *)
Definition delete_admin_carrera_by_admin (id : Z) (db : DB) : nat * DB :=
  (count_where (fun ac => ac_id_administrador ac =? id)%Z (admin_carrera db),
   with_admin_carrera
     (delete_where (fun ac => ac_id_administrador ac =? id)%Z (admin_carrera db)) db).

(** [DELETE FROM admin_carrera WHERE id_carrera = ?]. *)
Definition delete_admin_carrera_by_carrera (id : Z) (db : DB) : nat * DB :=
  (count_where (fun ac => ac_id_carrera ac =? id)%Z (admin_carrera db),
   with_admin_carrera
     (delete_where (fun ac => ac_id_carrera ac =? id)%Z (admin_carrera db)) db).

(** [INSERT INTO admin_carrera (id_administrador, id_carrera)]. *)
Definition insert_admin_carrera (id_adm id_car : Z) (db : DB) : unit * DB :=
  (tt, with_admin_carrera (admin_carrera db ++ [mkAdminCarrera id_adm id_car]) db).

Record UpdateUserBody := mkUpdateUserBody {
  uu_nombre_administrador : option string;
  uu_email : option string;
  uu_newContraseña : option JS.str16;
  uu_dni : option string;
  uu_telefono : option string;
  uu_rol : option string;
  uu_estado : option string
}.

Definition opt_part {A} (v : option A) (f : A -> list asignacion) : list asignacion :=
  match v with
  | Some x => f x
  | None => []
  end.

(** Step 4 of [updateUserByAdmin]: the [SET] list before the password. *)
Definition sqlParts_of (adminLogueadoRol : string) (adminLogueadoId : Z)
    (ahora : Z) (b : UpdateUserBody) : list asignacion :=
  opt_part (uu_nombre_administrador b) (fun v => [set_nombre_administrador v])
  ++ opt_part (uu_email b) (fun v => [set_email (JS.or_null (Some v))])
  ++ opt_part (uu_dni b) (fun v => [set_dni (JS.or_null (Some v))])
  ++ opt_part (uu_telefono b) (fun v => [set_telefono (JS.or_null (Some v))])
  ++ (if adminLogueadoRol =? "Rector" then
        opt_part (uu_rol b) (fun v => [set_rol v])
        ++ opt_part (uu_estado b) (fun v =>
             set_estado v ::
             (if (v =? "suspendido") || (v =? "inactivo") then
                [set_fecha_eliminacion (Some ahora);
                 set_id_administrador_eliminacion (Some adminLogueadoId)]
              else if v =? "activo" then
                [set_fecha_eliminacion None;
                 set_id_administrador_eliminacion None]
              else []))
      else []).

(** Step 6 of [updateUserByAdmin]. *)
Definition ejecutar_update (sqlParts : list asignacion) (idAdminAEditar : Z)
  : M response :=
  match sqlParts with
  | [] =>
      rollback ;;;
      send 400 (JMessage "No se proporcionaron campos válidos para actualizar.")
  | _ =>
      affectedRows <- conn_query (update_administrador sqlParts idAdminAEditar) ;;
      if (affectedRows =? 0)%nat then
        commit ;;;
        send_json (JMessage "Administrador actualizado con éxito (no se realizaron cambios en los valores existentes).")
      else
        commit ;;;
        send_json (JMessage "Administrador actualizado con éxito.")
  end.

(** Steps 3 to 6 of [updateUserByAdmin], once the access checks have
    passed: the assignments of a Coordinador that ends suspended or
    inactive are deleted, the [SET] list is built, the new password is
    checked and hashed, and the update runs. *)
Definition aplicar_update (user : User) (idAdminAEditar : Z) (b : UpdateUserBody)
    (currentRol estadoAUsar : string) : M response :=
  let rolAUsar := JS.or_else (uu_rol b) currentRol in
  let estadoFinal := estadoAUsar in
  (if (rolAUsar =? "Coordinador")
      && ((estadoFinal =? "suspendido") || (estadoFinal =? "inactivo")) then
     conn_query (delete_admin_carrera_by_admin idAdminAEditar) ;;; ret tt
   else ret tt) ;;;
  ahora <- get_now ;;
  let sqlParts := sqlParts_of (user_rol user) (user_id user) ahora b in
  let trimmedNewContraseña :=
    match uu_newContraseña b with
    | Some p => JS.trim p
    | None => []
    end in
  if (0 <? List.length trimmedNewContraseña)%nat then
    match validatePasswordRules trimmedNewContraseña with
    | Some validationError =>
        rollback ;;;
        send 400 (JMessage ("Error de validación: " ++ validationError))
    | None =>
        hashedPassword <- hash trimmedNewContraseña ;;
        ejecutar_update (sqlParts ++ [set_contraseña hashedPassword])
                        idAdminAEditar
    end
  else ejecutar_update sqlParts idAdminAEditar.

Definition updateUserByAdmin (user : User) (id : PathId) (b : UpdateUserBody)
  : M response :=
  let adminLogueadoId := user_id user in
  let adminLogueadoRol := user_rol user in
  let idAdminAEditar := numero id in
  try_catch
    (getConnection ;;;
     beginTransaction ;;;
     currentAdminRows <- conn_query (reading (select_administrador idAdminAEditar)) ;;
     match currentAdminRows with
     | [] =>
         rollback ;;;
         send 404 (JMessage "Administrador no encontrado.")
     | currentAdmin :: _ =>
         let currentRol := rol currentAdmin in
         let currentEstado := adm_estado currentAdmin in
         if (adminLogueadoRol =? "Coordinador")
            && negb (mismo_texto adminLogueadoId id) then
           rollback ;;;
           send 403 (JMessage "Acceso denegado: Un Coordinador solo puede editar sus propios datos.")
         else if (adminLogueadoRol =? "Coordinador")
                 && (JS.defined (uu_rol b) || JS.defined (uu_estado b)) then
           rollback ;;;
           send 403 (JMessage "Acceso denegado: Un Coordinador no puede modificar su rol o estado.")
         else
           let estadoAUsar := JS.or_else (uu_estado b) currentEstado in
           if mismo_texto adminLogueadoId id
              && ((estadoAUsar =? "suspendido") || (estadoAUsar =? "inactivo"))
              && negb (estadoAUsar =? currentEstado) then
             rollback ;;;
             send 403 (JMessage "Prohibido: Un administrador no puede suspender o inactivar su propia cuenta.")
           else aplicar_update user idAdminAEditar b currentRol estadoAUsar
     end)
    (fun error =>
       rollback ;;;
       match error with
       | ER_DUP_ENTRY =>
           send 400 (JMessage "El nombre de administrador, email o DNI ya está registrado por otro usuario.")
       | _ => send 500 (JMessage "Error al actualizar el administrador.")
       end).

(** [UPDATE administrador SET estado = 'inactivo', fecha_eliminacion =
    NOW(), id_administrador_eliminacion = ? WHERE id_administrador = ?]. *)
Definition soft_delete_administrador (ahora idLogueado id : Z) (db : DB) : nat * DB :=
  update_administrador
    [set_estado "inactivo"; set_fecha_eliminacion (Some ahora);
     set_id_administrador_eliminacion (Some idLogueado)] id db.

Definition deleteUserByAdmin (user : User) (id : PathId) : M response :=
  let idAdministradorLogueado := user_id user in
  if (idAdministradorLogueado =? 0)%Z then
    send 401 (JMessage "No autorizado: Falta ID del administrador logueado.")
  else if mismo_texto idAdministradorLogueado id then
    send 403 (JMessage "Prohibido: Un administrador no puede eliminarse a sí mismo.")
  else
    try_catch
      (getConnection ;;;
       beginTransaction ;;;
       adminRows <- conn_query (reading (select_administrador (numero id))) ;;
       match adminRows with
       | [] =>
           rollback ;;;
           send 404 (JMessage "Administrador no encontrado.")
       | admin_ :: _ =>
           if adm_estado admin_ =? "inactivo" then
             rollback ;;;
             send 404 (JMessage "Administrador no encontrado o ya estaba inactivo.")
           else
             (if rol admin_ =? "Coordinador" then
                conn_query (delete_admin_carrera_by_admin (numero id)) ;;; ret tt
              else ret tt) ;;;
             ahora <- get_now ;;
             affectedRows <- conn_query
               (soft_delete_administrador ahora idAdministradorLogueado (numero id)) ;;
             if (affectedRows =? 0)%nat then
               rollback ;;;
               send 404 (JMessage "Administrador no encontrado o no se pudo marcar como inactivo.")
             else
               commit ;;;
               send_json (JAdministradorEliminado
                 "Administrador y sus asignaciones de Coordinador marcados como inactivos (eliminación lógica) con éxito."
                 (texto id))
       end)
      (fun error =>
         rollback ;;;
         send 500 (JMessageSqlError
           "Error grave al procesar la eliminación lógica del administrador. Se revirtieron los cambios."
           error)).

(* ================================================================= *)
(** ** controllers/adminController.js: careers *)

Definition option_eq_dec {A} (d : forall x y : A, {x = y} + {x <> y})
  : forall x y : option A, {x = y} + {x <> y}.
Proof. decide equality. Defined.

Definition Carrera_eq_dec : forall x y : Carrera, {x = y} + {x <> y}.
Proof.
  decide equality;
    try apply (option_eq_dec Z.eq_dec); try apply string_dec; apply Z.eq_dec.
Defined.

Definition fila_carrera_eq_dec
  : forall x y : Carrera * option string, {x = y} + {x <> y}.
Proof.
  decide equality;
    [apply (option_eq_dec string_dec) | apply Carrera_eq_dec].
Defined.

(** [l LEFT JOIN r ON on]: every row of [l] with each matching row of
    [r], or with [NULL] when none matches. *)
Definition left_join {A B} (on : A -> B -> bool) (l : list A) (r : list B)
  : list (A * option B) :=
  flat_map (fun a =>
    match filter (on a) r with
    | [] => [(a, None)]
    | bs => map (fun b => (a, Some b)) bs
    end) l.

(** The subquery [SELECT id_carrera FROM admin_carrera WHERE
    id_administrador = ?]. *)
Definition carreras_de (id_adm : Z) (db : DB) : list Z :=
  map ac_id_carrera (select_admin_carrera_by_admin id_adm db).

Definition en (x : Z) (l : list Z) : bool := existsb (Z.eqb x) l.

(** The query of [getCarreras]; [coordinador] is the id of the logged
    Coordinador, [None] for the Rector. *)
Definition select_carreras (le : string -> string -> bool)
    (coordinador : option Z) (db : DB) : list (Carrera * option string) :=
  let joined :=
    left_join
      (fun (cac : Carrera * option AdminCarrera) (a : Administrador) =>
         match snd cac with
         | Some ac => (ac_id_administrador ac =? id_administrador a)%Z
                      && (rol a =? "Coordinador")
         | None => false
         end)
      (left_join (fun c ac => (id_carrera c =? ac_id_carrera ac)%Z)
                 (carrera db) (admin_carrera db))
      (administrador db) in
  let filtered :=
    filter (fun row : Carrera * option AdminCarrera * option Administrador =>
      let c := fst (fst row) in
      match coordinador with
      | Some id_adm =>
          (car_estado c =? "activa") && en (id_carrera c) (carreras_de id_adm db)
      | None => (car_estado c =? "activa") || (car_estado c =? "cerrada")
      end) joined in
  order_by (fun x y => le (nombre_carrera (fst x)) (nombre_carrera (fst y)))
    (nodup fila_carrera_eq_dec
       (map (fun row : Carrera * option AdminCarrera * option Administrador =>
               (fst (fst row), option_map nombre_administrador (snd row)))
            filtered)).

Definition getCarreras (user : User) : M response :=
  try_catch
    (if user_rol user =? "Coordinador" then
       le <- collation ;;
       carreras <- pool_query (reading (select_carreras le (Some (user_id user)))) ;;
       send_json (JCarreras carreras)
     else if negb (user_rol user =? "Rector") then
       send 403 (JMessage "Permisos insuficientes para esta operación.")
     else
       le <- collation ;;
       carreras <- pool_query (reading (select_carreras le None)) ;;
       send_json (JCarreras carreras))
    (fun _ => send 500 (JMessage "Error interno del servidor al obtener carreras.")).

Record UpdateCarreraBody := mkUpdateCarreraBody {
  uc_nombre_carrera : option string;
  uc_duracion : option string;
  uc_modalidad : option string;
  uc_año_aprobacion : option string;
  uc_id_coordinador : option Z;
  uc_estado : option string
}.

(** [SELECT 1 FROM admin_carrera WHERE id_administrador = ? AND
    id_carrera = ?]. *)
Definition select_relaciones (id_adm id_car : Z) (db : DB) : list AdminCarrera :=
  filter (fun ac => (ac_id_administrador ac =? id_adm)%Z
                    && (ac_id_carrera ac =? id_car)%Z)
         (admin_carrera db).

(** [SELECT 1 FROM carrera WHERE id_carrera = ?]. *)
Definition select_carrera (id_car : Z) (db : DB) : list Carrera :=
  filter (fun c => id_carrera c =? id_car)%Z (carrera db).

(** The [UPDATE carrera] statement that [updateCarrera] builds: the four
    data columns, then the state and the audit columns when a state is
    given. *)
Definition update_carrera (nombre duracion_ modalidad_ año_ : string)
    (estado_ : option string) (ahora id_adm id_car : Z) (db : DB) : nat * DB :=
  (count_where (fun c => id_carrera c =? id_car)%Z (carrera db),
   with_carrera
     (update_where (fun c => id_carrera c =? id_car)%Z
        (fun c =>
           let c1 := mkCarrera (id_carrera c) nombre duracion_ modalidad_ año_
                       (car_estado c) (car_fecha_eliminacion c)
                       (car_id_administrador_eliminacion c) in
           if JS.truthy estado_ then
             let e := JS.or_else estado_ "" in
             if (e =? "cerrada") || (e =? "inactiva") then
               mkCarrera (id_carrera c) nombre duracion_ modalidad_ año_
                         e (Some ahora) (Some id_adm)
             else if e =? "activa" then
               mkCarrera (id_carrera c) nombre duracion_ modalidad_ año_
                         e None None
             else
               mkCarrera (id_carrera c) nombre duracion_ modalidad_ año_
                         e (car_fecha_eliminacion c)
                         (car_id_administrador_eliminacion c)
           else c1)
        (carrera db)) db).

(** [updateCarrera].  The message of the state validation is given
    without the quotation marks around the three state names. *)
Definition updateCarrera (user : User) (id_car : Z) (b : UpdateCarreraBody)
  : M response :=
  let id_adm := user_id user in
  let rol_ := user_rol user in
  let estado_ := JS.or_else (uc_estado b) "" in
  if negb (JS.truthy (uc_nombre_carrera b)) || negb (JS.truthy (uc_duracion b))
     || negb (JS.truthy (uc_modalidad b)) || negb (JS.truthy (uc_año_aprobacion b)) then
    send 400 (JMessage "Error de validación: Faltan campos de carrera obligatorios para la actualización.")
  else if JS.truthy (uc_estado b)
          && negb (estado_ =? "activa") && negb (estado_ =? "cerrada")
          && negb (estado_ =? "inactiva") then
    send 400 (JMessage "Error de validación: El estado de la carrera solo puede ser activa, cerrada o inactiva.")
  else if JS.truthy (uc_estado b)
          && ((estado_ =? "cerrada") || (estado_ =? "inactiva"))
          && negb (rol_ =? "Rector") then
    send 403 (JMessage "Acceso denegado: Solo el Rector puede cerrar o inactivar una carrera.")
  else
    try_catch
      (denegado <- (if rol_ =? "Coordinador" then
                      relaciones <- pool_query (reading (select_relaciones id_adm id_car)) ;;
                      ret (List.length relaciones =? 0)%nat
                    else ret false) ;;
       match denegado with
       | true =>
           send 403 (JMessage "Acceso denegado. Solo puede actualizar carreras que le han sido asignadas.")
       | false =>
           getConnection ;;;
           beginTransaction ;;;
           ahora <- get_now ;;
           affectedRows <- conn_query
             (update_carrera (JS.or_else (uc_nombre_carrera b) "")
                (JS.or_else (uc_duracion b) "") (JS.or_else (uc_modalidad b) "")
                (JS.or_else (uc_año_aprobacion b) "") (uc_estado b)
                ahora id_adm id_car) ;;
           conn_query (delete_admin_carrera_by_carrera id_car) ;;;
           (match uc_id_coordinador b with
            | Some id_coordinador =>
                if negb (id_coordinador =? 0)%Z then
                  conn_query (insert_admin_carrera id_coordinador id_car)
                else ret tt
            | None => ret tt
            end) ;;;
           commit ;;;
           if (affectedRows =? 0)%nat then
             rollback ;;;
             check <- pool_query (reading (select_carrera id_car)) ;;
             match check with
             | [] => send 404 (JMessage "Carrera no encontrada.")
             | _ :: _ =>
                 send_json (JMessage "Carrera y asignación de Coordinador actualizadas con éxito (no hubo cambios en los campos).")
             end
           else
             send_json (JMessage "Carrera y asignación de Coordinador actualizadas con éxito.")
       end)
      (fun _ =>
         rollback ;;;
         send 500 (JMessage "Error interno del servidor al actualizar carrera.")).

(** [UPDATE carrera SET estado = 'inactiva', fecha_eliminacion = NOW(),
    id_administrador_eliminacion = ? WHERE id_carrera = ? AND estado !=
    'inactiva']. *)
Definition soft_delete_carrera (ahora id_adm id_car : Z) (db : DB) : nat * DB :=
  let p := fun c => (id_carrera c =? id_car)%Z && negb (car_estado c =? "inactiva") in
  (count_where p (carrera db),
   with_carrera
     (update_where p
        (fun c => mkCarrera (id_carrera c) (nombre_carrera c) (duracion c)
                    (car_modalidad c) (año_aprobacion c)
                    "inactiva" (Some ahora) (Some id_adm))
        (carrera db)) db).

Definition deleteCarrera (user : User) (id_car : Z) : M response :=
  try_catch
    (if negb (user_rol user =? "Rector") then
       send 403 (JMessage "Acceso denegado. Solo el Rector puede eliminar carreras.")
     else
       getConnection ;;;
       beginTransaction ;;;
       ahora <- get_now ;;
       affectedRows <- conn_query (soft_delete_carrera ahora (user_id user) id_car) ;;
       if (affectedRows =? 0)%nat then
         rollback ;;;
         check <- pool_query (reading (select_carrera id_car)) ;;
         match check with
         | [] => send 404 (JMessage "Carrera no encontrada.")
         | _ :: _ => send 400 (JMessage "La carrera ya estaba marcada como inactiva.")
         end
       else
         conn_query (delete_admin_carrera_by_carrera id_car) ;;;
         commit ;;;
         send_json (JMessage "Carrera eliminada lógicamente (estado: inactiva), se registró la auditoría y se eliminó la asignación de coordinador con éxito."))
    (fun _ =>
       rollback ;;;
       send 500 (JMessage "Error interno del servidor al eliminar lógicamente la carrera.")).

(* ================================================================= *)
(** ** controllers/adminController.js: subjects *)

Definition sin_carreras (l : option (list Z)) : bool :=
  match l with
  | Some (_ :: _) => false
  | _ => true
  end.

(** The optional [id_carrera] filter of the query string. *)
Definition filtro_carrera (q : option Z) (m : Materia) : bool :=
  match q with
  | Some idc => (mat_id_carrera m =? idc)%Z
  | None => true
  end.

Definition materia_le (le : string -> string -> bool) (x y : Materia) : bool :=
  (año x <? año y)%Z
  || ((año x =? año y)%Z && le (nombre_materia x) (nombre_materia y)).

(** The query of [getMateriasAll]; [ids] are the careers of a
    Coordinador, [None] for the Rector. *)
Definition select_materias (le : string -> string -> bool)
    (ids : option (list Z)) (id_carrera_query : option Z) (db : DB) : list Materia :=
  order_by (materia_le le)
    (filter (fun m =>
       match ids with
       | Some carrerasIds => en (mat_id_carrera m) carrerasIds
       | None => true
       end
       && filtro_carrera id_carrera_query m
       && (mat_estado m =? "activa"))
     (materia db)).

Definition getMateriasAll (user : User) (id_carrera_query : option Z) : M response :=
  if user_rol user =? "Coordinador" then
    if sin_carreras (carreras_a_cargo_ids user) then send_json (JMaterias [])
    else
      try_catch
        (le <- collation ;;
         materias <- pool_query (reading
           (select_materias le (carreras_a_cargo_ids user) id_carrera_query)) ;;
         send_json (JMaterias materias))
        (fun _ => send 500 (JMessage "Error interno del servidor al obtener el listado de materias."))
  else if user_rol user =? "Rector" then
    try_catch
      (le <- collation ;;
       materias <- pool_query (reading (select_materias le None id_carrera_query)) ;;
       send_json (JMaterias materias))
      (fun _ => send 500 (JMessage "Error interno del servidor al obtener el listado de materias."))
  else send 403 (JMessage "Acceso denegado. Rol no autorizado.").

(** The query of [getMateriaById]. *)
Definition select_materia_activa (id : Z) (ids : option (list Z)) (db : DB)
  : list Materia :=
  filter (fun m =>
    (id_materia m =? id)%Z && (mat_estado m =? "activa")
    && match ids with
       | Some carrerasIds => en (mat_id_carrera m) carrerasIds
       | None => true
       end)
    (materia db).

Definition getMateriaById (user : User) (id : Z) : M response :=
  if (user_rol user =? "Coordinador") && sin_carreras (carreras_a_cargo_ids user) then
    send 403 (JMessage "Materia no encontrada o acceso denegado (Coordinador sin carreras asignadas).")
  else
    try_catch
      (materia_ <- pool_query (reading
         (select_materia_activa id
            (if user_rol user =? "Coordinador" then carreras_a_cargo_ids user
             else None))) ;;
       match materia_ with
       | [] => send 404 (JMessage "Materia no encontrada o acceso denegado.")
       | m :: _ => send_json (JMateria m)
       end)
      (fun _ => send 500 (JMessage "Error interno del servidor.")).

(** [SELECT id_carrera, estado FROM materia WHERE id_materia = ?]. *)
Definition select_materia (id : Z) (db : DB) : list Materia :=
  filter (fun m => id_materia m =? id)%Z (materia db).

(** [UPDATE materia SET estado = 'inactiva', fecha_eliminacion = NOW(),
    id_administrador_eliminacion = ? WHERE id_materia = ?]. *)
Definition soft_delete_materia (ahora id_adm id : Z) (db : DB) : nat * DB :=
  let p := fun m => (id_materia m =? id)%Z in
  (count_where p (materia db),
   with_materia
     (update_where p
        (fun m => mkMateria (id_materia m) (nombre_materia m) (mat_id_carrera m)
                    (año m) (campo_formacion m) (mat_modalidad m) (formato m)
                    (horas_semanales m) (total_horas_anuales m) (acreditacion m)
                    "inactiva" (Some ahora) (Some id_adm))
        (materia db)) db).

(** A [TypeError] raised inside a [try] block (reading a property of
    [null]) reaches the [catch] like a rejected storage call. *)
Definition throw {A} : M A := fun _ w => (Throw ER_OTHER, w).

Definition deleteMateria (user : User) (id : Z) : M response :=
  try_catch
    (materias <- pool_query (reading (select_materia id)) ;;
     match materias with
     | [] => send 404 (JMessage "Materia no encontrada.")
     | m :: _ =>
         if mat_estado m =? "inactiva" then
           send 400 (JMessage "La materia ya se encuentra inactiva.")
         else
           let borrar :=
             ahora <- get_now ;;
             affectedRows <- pool_query (soft_delete_materia ahora (user_id user) id) ;;
             if (affectedRows =? 0)%nat then
               send 404 (JMessage "Materia no encontrada para dar de baja.")
             else
               send_json (JMessage "Materia dada de baja (inactiva) con éxito. Se registró la fecha y el administrador de la eliminación.") in
           if user_rol user =? "Coordinador" then
             match carreras_a_cargo_ids user with
             | None => throw
             | Some carrerasAsignadas =>
                 if negb (en (mat_id_carrera m) carrerasAsignadas) then
                   send 403 (JMessage "Acceso denegado. Solo puede dar de baja materias de las carreras que coordina.")
                 else borrar
             end
           else if negb (user_rol user =? "Rector") then
             send 403 (JMessage "Acceso denegado. Rol no autorizado.")
           else borrar
     end)
    (fun error =>
       send 500 (JMessageSqlError "Error interno del servidor al dar de baja la materia." error)).

(* ================================================================= *)
(** ** controllers/adminController.js: schedule slots *)

(** [FIELD(x, l1, ..., ln)]: the 1-based position of [x], 0 when
    absent. *)
Fixpoint FIELD (x : string) (l : list string) : nat :=
  match l with
  | [] => 0
  | y :: l' => if x =? y then 1
               else match FIELD x l' with
                    | O => 0
                    | S n => S (S n)
                    end
  end.

Definition horario_le (dias : list string) (x y : Horario) : bool :=
  (FIELD (dia_semana x) dias <? FIELD (dia_semana y) dias)%nat
  || ((FIELD (dia_semana x) dias =? FIELD (dia_semana y) dias)%nat
      && (hora_inicio x <=? hora_inicio y)%Z).

(** The query of [getHorariosPorMateria]: [horario] joined with its
    [materia] and the [carrera] of that. *)
Definition select_horarios_por_materia (idMateria : Z) (coordinador : option Z)
    (db : DB) : list (Horario * Materia * Carrera) :=
  order_by (fun x y =>
      horario_le ["Lunes"; "Martes"; "Miércoles"; "Jueves"; "Viernes"; "Sábado"]
                 (fst (fst x)) (fst (fst y)))
    (flat_map (fun h =>
       flat_map (fun m =>
         flat_map (fun c =>
           if (hor_id_materia h =? id_materia m)%Z
              && (mat_id_carrera m =? id_carrera c)%Z
              && (hor_id_materia h =? idMateria)%Z
              && (hor_estado h =? "activa")
              && match coordinador with
                 | Some id_adm => en (id_carrera c) (carreras_de id_adm db)
                 | None => true
                 end
           then [(h, m, c)] else [])
         (carrera db))
       (materia db))
     (horario db)).

Definition getHorariosPorMateria (user : User) (idMateria : option Z) : M response :=
  match idMateria with
  | None => send 200 (JHorarios [])
  | Some idm =>
      try_catch
        (if user_rol user =? "Coordinador" then
           horarios <- pool_query (reading
             (select_horarios_por_materia idm (Some (user_id user)))) ;;
           send_json (JHorarios horarios)
         else if negb (user_rol user =? "Rector") then
           send 403 (JMessage "Permisos insuficientes para ver horarios.")
         else
           horarios <- pool_query (reading (select_horarios_por_materia idm None)) ;;
           send_json (JHorarios horarios))
        (fun _ => send 500 (JMessage "Error al filtrar horarios por materia."))
  end.

Definition select_horario_activo (id : Z) (db : DB) : list Horario :=
  filter (fun h => (id_horario h =? id)%Z && (hor_estado h =? "activa")) (horario db).

(** The columns that [getHorarioById] selects: the audit columns are
    not among them, and are absent from the answer. *)
Definition columnas_horario (h : Horario) : HorarioColumnas :=
  mkHorarioColumnas (id_horario h) (hor_id_materia h) (dia_semana h) (hora_inicio h)
                    (hora_fin h) (hor_estado h).

Definition getHorarioById (id : Z) : M response :=
  try_catch
    (horario_ <- pool_query (reading (select_horario_activo id)) ;;
     match horario_ with
     | [] => send 404 (JMessage "Horario no encontrado o inactiva.")
     | h :: _ => send_json (JHorario (columnas_horario h))
     end)
    (fun _ => send 500 (JMessage "Error interno del servidor.")).

Definition select_horario (id : Z) (db : DB) : list Horario :=
  filter (fun h => id_horario h =? id)%Z (horario db).

(** [UPDATE horario SET estado = 'inactiva', fecha_eliminacion = NOW(),
    id_administrador_eliminacion = ? WHERE id_horario = ? AND estado =
    'activa']. *)
Definition soft_delete_horario (ahora id_adm id : Z) (db : DB) : nat * DB :=
  let p := fun h => (id_horario h =? id)%Z && (hor_estado h =? "activa") in
  (count_where p (horario db),
   with_horario
     (update_where p
        (fun h => mkHorario (id_horario h) (hor_id_materia h) (dia_semana h)
                    (hora_inicio h) (hora_fin h)
                    "inactiva" (Some ahora) (Some id_adm))
        (horario db)) db).

Definition deleteHorario (user : User) (id : Z) : M response :=
  try_catch
    (horario_ <- pool_query (reading (select_horario id)) ;;
     match horario_ with
     | [] => send 404 (JMessage "Horario no encontrado.")
     | h :: _ =>
         if hor_estado h =? "inactiva" then
           send 400 (JMessage "El horario ya se encuentra inactivo.")
         else
           let borrar :=
             ahora <- get_now ;;
             affectedRows <- pool_query (soft_delete_horario ahora (user_id user) id) ;;
             if (affectedRows =? 0)%nat then
               send 404 (JMessage "Horario no encontrado para dar de baja.")
             else
               send_json (JMessage "Horario dado de baja (inactivo) con éxito. Se registraron los datos de la eliminación.") in
           if user_rol user =? "Coordinador" then
             hasAccess <- checkMateriaAccess (hor_id_materia h) (user_id user) ;;
             if negb hasAccess then
               send 403 (JMessage "Acceso denegado. No coordina la carrera de esta materia.")
             else borrar
           else if negb (user_rol user =? "Rector") then
             send 403 (JMessage "Permisos insuficientes para dar de baja horarios.")
           else borrar
     end)
    (fun _ => send 500 (JMessage "Error interno del servidor al dar de baja el horario.")).

(* ================================================================= *)
(** ** controllers/adminController.js: prerequisite edges *)

(** The query of [getCorrelatividadesPorMateria]: [correlatividad]
    joined with its principal and its required [materia]. *)
Definition select_correlatividades_por_materia (le : string -> string -> bool)
    (id_principal : Z) (coordinador : option Z) (db : DB)
  : list (Correlatividad * Materia * Materia) :=
  order_by (fun x y => le (nombre_materia (snd x)) (nombre_materia (snd y)))
    (flat_map (fun c =>
       flat_map (fun mp =>
         flat_map (fun mr =>
           if (id_materia_principal c =? id_materia mp)%Z
              && (id_materia_requisito c =? id_materia mr)%Z
              && (id_materia_principal c =? id_principal)%Z
              && (cor_estado c =? "activa")
              && match coordinador with
                 | Some id_adm => en (mat_id_carrera mp) (carreras_de id_adm db)
                 | None => true
                 end
           then [(c, mp, mr)] else [])
         (materia db))
       (materia db))
     (correlatividad db)).

(** The path parameter of the route is never empty, so the handler's
    first test (a missing id) does not apply. *)
Definition getCorrelatividadesPorMateria (user : User) (id_principal : Z)
  : M response :=
  try_catch
    (if user_rol user =? "Coordinador" then
       le <- collation ;;
       correlatividades <- pool_query (reading
         (select_correlatividades_por_materia le id_principal (Some (user_id user)))) ;;
       send_json (JCorrelatividades correlatividades)
     else if negb (user_rol user =? "Rector") then
       send 403 (JMessage "Permisos insuficientes para ver correlatividades.")
     else
       le <- collation ;;
       correlatividades <- pool_query (reading
         (select_correlatividades_por_materia le id_principal None)) ;;
       send_json (JCorrelatividades correlatividades))
    (fun _ => send 500 (JMessage "Error al filtrar correlatividades.")).

(** The query of [getCorrelatividadById]. *)
Definition select_correlatividad_activa (id : Z) (db : DB)
  : list (Correlatividad * Materia) :=
  flat_map (fun c =>
    flat_map (fun mp =>
      if (id_materia_principal c =? id_materia mp)%Z
         && (id_correlatividad c =? id)%Z
         && (cor_estado c =? "activa")
      then [(c, mp)] else [])
    (materia db))
  (correlatividad db).

Definition getCorrelatividadById (user : User) (id : Z) : M response :=
  try_catch
    (correlatividades <- pool_query (reading (select_correlatividad_activa id)) ;;
     match correlatividades with
     | [] => send 404 (JMessage "Correlatividad no encontrada o inactiva.")
     | correlatividad_ :: _ =>
         if user_rol user =? "Coordinador" then
           hasAccess <- checkMateriaAccess (id_materia (snd correlatividad_))
                                           (user_id user) ;;
           if negb hasAccess then
             send 403 (JMessage "Acceso denegado. No coordina la carrera de la materia principal.")
           else send_json (JCorrelatividad correlatividad_)
         else if negb (user_rol user =? "Rector") then
           send 403 (JMessage "Permisos insuficientes para ver esta correlatividad.")
         else send_json (JCorrelatividad correlatividad_)
     end)
    (fun _ => send 500 (JMessage "Error interno del servidor.")).

Definition select_correlatividad (id : Z) (db : DB) : list Correlatividad :=
  filter (fun c => id_correlatividad c =? id)%Z (correlatividad db).

(** [UPDATE correlatividad SET estado = 'inactiva', fecha_eliminacion =
    NOW(), id_administrador_eliminacion = ? WHERE id_correlatividad = ?]. *)
Definition soft_delete_correlatividad (ahora id_adm id : Z) (db : DB) : nat * DB :=
  let p := fun c => (id_correlatividad c =? id)%Z in
  (count_where p (correlatividad db),
   with_correlatividad
     (update_where p
        (fun c => mkCorrelatividad (id_correlatividad c) (id_materia_principal c)
                    (id_materia_requisito c) (tipo c) (estado_requisito c)
                    "inactiva" (Some ahora) (Some id_adm))
        (correlatividad db)) db).

Definition deleteCorrelatividad (user : User) (id : Z) : M response :=
  try_catch
    (correlatividad_ <- pool_query (reading (select_correlatividad id)) ;;
     match correlatividad_ with
     | [] => send 404 (JMessage "Correlatividad no encontrada.")
     | c :: _ =>
         if cor_estado c =? "inactiva" then
           send 400 (JMessage "La correlatividad ya se encuentra inactiva.")
         else
           let borrar :=
             ahora <- get_now ;;
             affectedRows <- pool_query
               (soft_delete_correlatividad ahora (user_id user) id) ;;
             if (affectedRows =? 0)%nat then
               send 404 (JMessage "Correlatividad no encontrada para dar de baja.")
             else
               send_json (JMessage "Correlatividad dada de baja (inactiva) con éxito. Se registraron los datos de la eliminación.") in
           if user_rol user =? "Coordinador" then
             hasAccess <- checkMateriaAccess (id_materia_principal c) (user_id user) ;;
             if negb hasAccess then
               send 403 (JMessage "Acceso denegado. No coordina la carrera de la materia principal.")
             else borrar
           else if negb (user_rol user =? "Rector") then
             send 403 (JMessage "Permisos insuficientes para dar de baja correlatividades.")
           else borrar
     end)
    (fun _ => send 500 (JMessage "Error interno del servidor al dar de baja la correlatividad.")).

(* ================================================================= *)
(** ** controllers/cursadoController.js: the public schedule of a subject *)

(** The query of the public [getHorariosByMateria]. *)
Definition select_horarios_publicos (id_materia_ : Z) (db : DB) : list Horario :=
  order_by (horario_le ["Lunes"; "Martes"; "Miércoles"; "Jueves"; "Viernes"])
    (filter (fun h => (hor_id_materia h =? id_materia_)%Z && (hor_estado h =? "activa"))
            (horario db)).

Definition getHorariosByMateria (id_materia_ : option Z) : M response :=
  match id_materia_ with
  | None => send 400 (JError "Falta parámetro: id_materia es requerido.")
  | Some idm =>
      try_catch
        (rows <- pool_query (reading (select_horarios_publicos idm)) ;;
         send_json (JHorariosPublicos rows))
        (fun _ => send 500 (JError "Error interno del servidor al obtener horarios."))
  end.

(* ================================================================= *)
(** ** controllers/authController.js *)

(** [generateToken]. *)
Definition generateToken (id_administrador_ : Z) (rol_ : string) : M string :=
  fun e w => (Ok (jwt_sign e id_administrador_ rol_), w).

Record RegisterBody := mkRegisterBody {
  rg_nombre_administrador : option string;
  rg_contraseña : option JS.str16;
  rg_rol : option string;
  rg_email : option string;
  rg_dni : option string;
  rg_telefono : option string
}.

Definition registerUser (b : RegisterBody) : M response :=
  if negb (JS.truthy (rg_nombre_administrador b)) || negb (nonempty16 (rg_contraseña b)) then
    send 400 (JMessage "Por favor, ingrese un nombre de administrador y contraseña.")
  else
    let nombre := JS.or_else (rg_nombre_administrador b) "" in
    let contraseña_ := match rg_contraseña b with Some p => p | None => [] end in
    try_catch
      (contraseña_hash <- hash contraseña_ ;;
       let rol_final := JS.or_else (rg_rol b) "Rector" in
       id_administrador_ <- pool_query
         (insert_administrador nombre (JS.or_null (rg_email b)) contraseña_hash
            (JS.or_null (rg_dni b)) (JS.or_null (rg_telefono b)) rol_final) ;;
       token <- generateToken id_administrador_ rol_final ;;
       send 201 (JRegistro id_administrador_ nombre rol_final token))
      (fun error =>
         match error with
         | ER_DUP_ENTRY =>
             send 400 (JMessage "El nombre de administrador o el email ya existe.")
         | _ => send 500 (JMessage "Error interno del servidor al registrar.")
         end).

Record ResetBody := mkResetBody {
  rs_token : option string;
  rs_newPassword : option JS.str16
}.

(** [jwt.verify(token, RESET_SECRET)]: the [id] of the payload, or an
    exception. *)
Definition verify_reset (token : string) : M Z :=
  fun e w =>
    match jwt_verify_reset e token with
    | Some id => (Ok id, w)
    | None => (Throw ER_OTHER, w)
    end.

Definition resetPassword (b : ResetBody) : M response :=
  if negb (JS.truthy (rs_token b)) || negb (nonempty16 (rs_newPassword b)) then
    send 400 (JMessage "Faltan datos requeridos (token o nueva contraseña).")
  else
    let token := JS.or_else (rs_token b) "" in
    let newPassword := match rs_newPassword b with Some p => p | None => [] end in
    try_catch
      (adminId <- verify_reset token ;;
       hashedPassword <- hash newPassword ;;
       affectedRows <- pool_query
         (update_administrador [set_contraseña hashedPassword] adminId) ;;
       if (affectedRows =? 0)%nat then
         send 404 (JMessage "El enlace de restablecimiento es inválido.")
       else
         send 200 (JMessage "Contraseña restablecida con éxito. Ya puedes iniciar sesión."))
      (fun _ =>
         send 401 (JMessage "El enlace de restablecimiento es inválido o ha expirado. Solicita uno nuevo.")).

(* ================================================================= *)
(** ** routes/adminRoutes.js: the list routes *)

Definition route_getCarreras (c : credential) : M response :=
  protect c (fun user => admin user (getCarreras user)).

Definition route_getMateriasAll (c : credential) (id_carrera_query : option Z)
  : M response :=
  protect c (fun user => admin user (getMateriasAll user id_carrera_query)).

Definition route_getHorariosPorMateria (c : credential) (idMateria : option Z)
  : M response :=
  protect c (fun user => admin user (getHorariosPorMateria user idMateria)).

Definition route_getCorrelatividadesPorMateria (c : credential) (id : Z)
  : M response :=
  protect c (fun user => admin user (getCorrelatividadesPorMateria user id)).

(* ================================================================= *)
(** ** controllers/cursadoController.js: the curriculum report *)

Module Layout.

Local Open Scope Q_scope.

(** What the document library is asked to put on a page: a rectangle,
    or the line [linea] of a text, with the left edge of the text box
    and the height at which the line is put. *)
Inductive prim :=
| Rect (page : nat) (x y w h : Q)
| Text (page : nat) (s : string) (linea : nat) (x y : Q).

Definition prim_page (p : prim) : nat :=
  match p with
  | Rect n _ _ _ _ => n
  | Text n _ _ _ _ => n
  end.

(** The document: the index of the current page, the text cursor
    [doc.y], the current font (bold or regular Helvetica) and size, and
    everything drawn so far. *)
Record Doc := mkDoc {
  page : nat;
  y : Q;
  bold : bool;
  fontSize : Q;
  prims : list prim
}.

(** A subject of the plan with its three prerequisite lists. *)
Record MateriaPlan := mkMateriaPlan {
  fila : Materia;
  cursarAprobada : list Z;
  cursarRegular : list Z;
  rendirAprobada : list Z
}.

Definition COL_WIDTHS : list Q := [30; 50; 160; 60; 60; 50; 60; 80; 80; 70; 90].
Definition TOTAL_TABLE_WIDTH : Q := fold_left Qplus COL_WIDTHS 0.
Definition col (i : nat) : Q := nth i COL_WIDTHS 0.

(** The height of an A4 page laid out in landscape, and the margins. *)
Definition page_height : Q := 595.28.
Definition pageBottomMargin : Q := 30.
Definition startX : Q := 30.

Definition mergedAnioHeaderHeight : Q := 20.
Definition headerHeight : Q := 30.
Definition smallSpaceHeight : Q := 2.2.
Definition totalRowHeight : Q := 25.
Definition spaceAfterBlock : Q := 15.
Definition minRowHeight : Q := 18.

Definition string_of_Z (z : Z) : string := NilZero.string_of_int (Z.to_int z).

(** [l.join(', ')] on a list of identifiers. *)
Fixpoint join (l : list Z) : string :=
  match l with
  | [] => ""
  | [z] => string_of_Z z
  | z :: l' => (string_of_Z z ++ ", " ++ join l')%string
  end.

Definition getAnioText (anio : string) : string :=
  if (anio =? "1")%string then "PRIMER AÑO"
  else if (anio =? "2")%string then "SEGUNDO AÑO"
  else if (anio =? "3")%string then "TERCER AÑO"
  else if (anio =? "4")%string then "CUARTO AÑO"
  else (anio ++ "° AÑO")%string.

Definition Qgtb (a b : Q) : bool := negb (Qle_bool a b).

Section PDFKit.

(** The metrics of the document library: the number of lines into which
    the wrapper breaks a text at a width in a font and size, and the
    height of one line. *)
Variable lineas : bool -> Q -> string -> Q -> nat.
Variable currentLineHeight : bool -> Q -> Q.

(** The empty text has no line. *)
Definition lineas_de (b : bool) (size : Q) (s : string) (width : Q) : nat :=
  if (s =? "")%string then O else lineas b size s width.

(** The way down of [n] lines of [paso] points each. *)
Fixpoint avance (n : nat) (paso : Q) : Q :=
  match n with
  | O => 0
  | S n' => paso + avance n' paso
  end.

(** [doc.heightOfString(s, {width, lineGap})]: the wrapper runs with no
    page to break, each line moving the cursor by the line height and
    the gap. *)
Definition heightOfString (b : bool) (size : Q) (s : string) (width lineGap : Q)
  : Q :=
  avance (lineas_de b size s width) (currentLineHeight b size + lineGap).

(** [doc.page.maxY()]: the height of the page less its bottom margin. *)
Definition maxY : Q := page_height - 30.

Definition set_font (b : bool) (d : Doc) : Doc :=
  mkDoc (page d) (y d) b (fontSize d) (prims d).

Definition set_fontSize (s : Q) (d : Doc) : Doc :=
  mkDoc (page d) (y d) (bold d) s (prims d).

(** [doc.rect(x, y, w, h)] filled or stroked. *)
Definition rect (x0 y0 w h : Q) (d : Doc) : Doc :=
  mkDoc (page d) (y d) (bold d) (fontSize d)
        (prims d ++ [Rect (page d) x0 y0 w h]).

(** [continueOnNewPage]: the page that the wrapper starts when a text
    reaches the bottom margin; the cursor goes to the top margin. *)
Definition continueOnNewPage (d : Doc) : Doc :=
  mkDoc (S (page d)) 30 (bold d) (fontSize d) (prims d).

(** The lines of a text from the line [k] on, [n] of them.  Each is put
    at the cursor, which then moves down by the line height and the
    gap; after a line that is not the last, the wrapper starts a page
    if one more line would pass the bottom margin. *)
Fixpoint emitir (s : string) (x0 lineGap : Q) (k n : nat) (d : Doc) : Doc :=
  match n with
  | O => d
  | S n' =>
      let lh := currentLineHeight (bold d) (fontSize d) in
      let d1 := mkDoc (page d) (y d + lh + lineGap) (bold d) (fontSize d)
                      (prims d ++ [Text (page d) s k x0 (y d)]) in
      match n' with
      | O => d1
      | S _ =>
          emitir s x0 lineGap (S k) n'
                 (if Qgtb (y d1 + lh) maxY then continueOnNewPage d1 else d1)
      end
  end.

(** [doc.text(s, x, y, {width, lineGap})]: the cursor goes to [y]; the
    wrapper starts a page if the cursor is below the bottom margin or
    one line would pass it, whatever the text; then the lines are
    put. *)
Definition text (s : string) (x0 y0 width lineGap : Q) (d : Doc) : Doc :=
  let lh := currentLineHeight (bold d) (fontSize d) in
  let d0 := mkDoc (page d) y0 (bold d) (fontSize d) (prims d) in
  let d1 := if Qgtb y0 maxY || Qgtb (y0 + lh) maxY then continueOnNewPage d0
            else d0 in
  emitir s x0 lineGap O (lineas_de (bold d) (fontSize d) s width) d1.

(** [doc.moveDown(n)]. *)
Definition moveDown (n : Q) (d : Doc) : Doc :=
  mkDoc (page d) (y d + n * currentLineHeight (bold d) (fontSize d))
        (bold d) (fontSize d) (prims d).

(** [doc.addPage({margin: 30, ...})]: a fresh page, the cursor at its
    top margin. *)
Definition addPage (d : Doc) : Doc :=
  mkDoc (S (page d)) 30 (bold d) (fontSize d) (prims d).

(** [drawMergedAnioHeader]: the new document and the returned [y]. *)
Definition drawMergedAnioHeader (d : Doc) (y0 x0 : Q) (anioText : string)
    (height : Q) : Doc * Q :=
  let cellPadding := 3 in
  let totalWidth := TOTAL_TABLE_WIDTH in
  let d1 := rect x0 y0 totalWidth height d in
  let d2 := rect x0 y0 totalWidth height d1 in
  let d3 := set_fontSize 9 (set_font true d2) in
  (text anioText (x0 + cellPadding) (y0 + cellPadding + 3)
        (totalWidth - cellPadding * 2) 1 d3,
   y0 + height).

(** One cell of [drawTableRow]. *)
Definition drawCell (y0 rowHeight : Q) (isHeader isTotalRow : bool)
    (acc : Doc * Q * nat) (s : string) : Doc * Q * nat :=
  let '(d, currentX, colIndex) := acc in
  let width := col colIndex in
  let d1 := if isTotalRow then rect currentX y0 width rowHeight d
            else if isHeader then rect currentX y0 width rowHeight d
            else d in
  let d2 := rect currentX y0 width rowHeight d1 in
  let d3 := set_fontSize 7 (set_font (isHeader || isTotalRow) d2) in
  (text s (currentX + 3) (y0 + 3) (width - 3 * 2) 1 d3,
   currentX + width, S colIndex).

(** [drawTableRow]: the new document and the returned [y]. *)
Definition drawTableRow (d : Doc) (y0 x0 heights : Q) (data : list string)
    (isHeader isTotalRow : bool) : Doc * Q :=
  let rowHeight := if isHeader then 25 else heights in
  let '(d', _, _) :=
    fold_left (drawCell y0 rowHeight isHeader isTotalRow) data (d, x0, O) in
  (d', y0 + rowHeight).

Definition headerData : list string :=
  ["N°"; "CAMPO DE FORMACIÓN"; "UNIDAD CURRICULAR"; "FORMATO"; "MODALIDAD";
   "HORAS SEMANAL"; "HORAS ANUAL"; "ACREDITACIÓN";
   "REG. CORREL. CURS.(APROBADA)"; "REG. CORREL. CURS.(REGULAR)";
   "REG. CORREL. RENDIR/PROMOC.(APROBADA)"].

(** The measured height of a subject row: the font is set to regular
    Helvetica 7 and the name and the three prerequisite cells are
    measured. *)
Definition rowHeight_of (m : MateriaPlan) : Q :=
  let textHeight :=
    heightOfString false 7 (nombre_materia (fila m)) (col 2 - 6) 1 in
  let maxCorrHeight :=
    Qmax (Qmax (Qmax 0 (heightOfString false 7 (join (cursarAprobada m)) (col 8 - 6) 1))
               (heightOfString false 7 (join (cursarRegular m)) (col 9 - 6) 1))
         (heightOfString false 7 (join (rendirAprobada m)) (col 10 - 6) 1) in
  Qmax (Qmax minRowHeight (textHeight + 6)) (maxCorrHeight + 6).

Definition measure (d : Doc) : Doc := set_fontSize 7 (set_font false d).

(** The first [forEach] of the loop body: the sum of the row heights. *)
Definition materiasTotalHeight_of (materias : list MateriaPlan) : Q :=
  fold_left (fun acc m => acc + rowHeight_of m) materias 0.

Definition totalSpaceNeeded_of (materias : list MateriaPlan) : Q :=
  let blockHeight := mergedAnioHeaderHeight + headerHeight
                     + materiasTotalHeight_of materias + totalRowHeight in
  smallSpaceHeight + blockHeight + spaceAfterBlock.

Definition or_ND (v : option string) : string := JS.or_else v "N/D".
Definition num_or_ND (v : option Z) : string :=
  match v with
  | Some z => if (z =? 0)%Z then "N/D" else string_of_Z z
  | None => "N/D"
  end.

Definition rowData (m : MateriaPlan) : list string :=
  [string_of_Z (id_materia (fila m)); or_ND (campo_formacion (fila m));
   nombre_materia (fila m); or_ND (formato (fila m));
   or_ND (mat_modalidad (fila m)); num_or_ND (horas_semanales (fila m));
   num_or_ND (total_horas_anuales (fila m)); or_ND (acreditacion (fila m));
   join (cursarAprobada m); join (cursarRegular m); join (rendirAprobada m)].

(** Step 5: one subject row. *)
Definition drawMateria (acc : Doc * Q) (m : MateriaPlan) : Doc * Q :=
  let '(d, currentY) := acc in
  drawTableRow (measure d) currentY startX (rowHeight_of m) (rowData m) false false.

(** One of the five cells to the right of the merged totals cell. *)
Definition drawTotalCell (totalRowY h : Q) (acc : Doc * Q * nat) (s : string)
  : Doc * Q * nat :=
  let '(d, currentX, i) := acc in
  let width := col (6 + i) in
  let d1 := rect currentX totalRowY width h d in
  let d2 := rect currentX totalRowY width h d1 in
  let d3 := set_fontSize 7 (set_font true d2) in
  (text s (currentX + 3) (totalRowY + 9) (width - 6) 1 d3, currentX + width, S i).

(** Step 6: the totals row of a year.  The label is written with no
    line gap. *)
Definition drawTotales (d : Doc) (totalRowY : Q) (label total : string) (h : Q)
  : Doc :=
  let totalMergedWidth := col 0 + col 1 + col 2 + col 3 + col 4 + col 5 in
  let d1 := rect startX totalRowY totalMergedWidth h d in
  let d2 := rect startX totalRowY totalMergedWidth h d1 in
  let d3 := set_fontSize 8 (set_font true d2) in
  let d4 := text label (startX + 3) (totalRowY + 7) (totalMergedWidth - 6) 0 d3 in
  let '(d5, _, _) :=
    fold_left (drawTotalCell totalRowY h) [total; ""; ""; ""; ""]
              (d4, startX + totalMergedWidth, O) in
  d5.

(** Whether the block of a year does not fit below [currentY]. *)
Definition salto (currentY : Q) (materias : list MateriaPlan) : bool :=
  Qgtb (currentY + totalSpaceNeeded_of materias) (page_height - pageBottomMargin).

(** The body of the loop over the years: the document and [currentY]
    before and after the block of the year [anio]. *)
Definition bloque_anio (acc : Doc * Q) (grupo : string * list MateriaPlan * Z)
  : Doc * Q :=
  let '(d, currentY) := acc in
  let '(anio, materias, totalHorasAnuales) := grupo in
  let anioText := getAnioText anio in
  let d0 := match materias with [] => d | _ :: _ => measure d end in
  let d1 := if salto currentY materias then addPage d0 else d0 in
  let d2 := moveDown 0.2 d1 in
  let currentY := y d2 in
  let '(d3, currentY) :=
    drawMergedAnioHeader d2 currentY startX anioText mergedAnioHeaderHeight in
  let '(d4, currentY) :=
    drawTableRow d3 currentY startX headerHeight headerData true false in
  let '(d5, currentY) := fold_left drawMateria materias (d4, currentY) in
  let d6 := drawTotales d5 currentY ("TOTAL HORAS " ++ anioText)%string
                        (string_of_Z totalHorasAnuales) totalRowHeight in
  let d7 := moveDown 1 d6 in
  (d7, y d7).

(** The loop over the years. *)
Definition bloques (grupos : list (string * list MateriaPlan * Z)) (acc : Doc * Q)
  : Doc * Q :=
  fold_left bloque_anio grupos acc.

(** What has been drawn on [d'] since [d]. *)
Definition dibujado (d d' : Doc) : list prim :=
  skipn (List.length (prims d)) (prims d').

(** A drawn thing is on page [p] and, in height, between [lo] and [hi]:
    a rectangle with all its height, a line of text with its top. *)
Definition dentro (p : nat) (lo hi : Q) (pr : prim) : Prop :=
  prim_page pr = p
  /\ match pr with
     | Rect _ _ y0 _ h => lo <= y0 /\ y0 + h <= hi
     | Text _ _ _ _ y0 => lo <= y0 /\ y0 <= hi
     end.

(** [d'] is [d] with more drawn, all of it on the page that is current
    in both, between [lo] and [hi]. *)
Definition extiende (lo hi : Q) (d d' : Doc) : Prop :=
  page d' = page d
  /\ exists n, prims d' = prims d ++ n
               /\ forall pr, In pr n -> dentro (page d) lo hi pr.

(** [d'] is [d] with more drawn, none of it before the page of [d], and
    its page is not before the page of [d]. *)
Definition sigue (d d' : Doc) : Prop :=
  (page d <= page d')%nat
  /\ exists n, prims d' = prims d ++ n
               /\ forall pr, In pr n -> (page d <= prim_page pr)%nat.

(** The document on which the block of a year is drawn: [d] after the
    measuring pass and the page break, if any. *)
Definition inicio (d : Doc) (currentY : Q) (materias : list MateriaPlan) : Doc :=
  let d0 := match materias with [] => d | _ :: _ => measure d end in
  if salto currentY materias then addPage d0 else d0.

(** The sum of the measured heights of the rows. *)
Fixpoint suma_alturas (materias : list MateriaPlan) : Q :=
  match materias with
  | [] => 0
  | m :: ms => rowHeight_of m + suma_alturas ms
  end.

(** The height of the block of a year: the small space before it, the
    year header, the column header, the sum of the measured heights of
    the rows, the totals row and the trailing space. *)
Definition alto_del_bloque (materias : list MateriaPlan) : Q :=
  smallSpaceHeight
  + (mergedAnioHeaderHeight + headerHeight + suma_alturas materias + totalRowHeight)
  + spaceAfterBlock.

(** A text written [off] points below the top of a cell [h] points high
    ends within the cell, and so does one line of its font (the line
    that the wrapper looks for before it puts the text). *)
Definition cabe (b : bool) (size lineGap : Q) (s : string) (width off h : Q) : bool :=
  Qle_bool 0 (currentLineHeight b size)
  && Qle_bool (off + Qmax (heightOfString b size s width lineGap)
                          (currentLineHeight b size + lineGap)) h.

(** The texts of a row, from the column [i] on, end within their cells;
    [ancho] is the width of the text box of a column. *)
Fixpoint celdas_caben (ancho : nat -> Q) (b : bool) (off h : Q) (i : nat)
    (data : list string) : bool :=
  match data with
  | [] => true
  | s :: data' =>
      cabe b 7 1 s (ancho i) off h && celdas_caben ancho b off h (S i) data'
  end.

(** Every text of the block of a year ends within its cell: the name of
    the year, the column headers, the cells of the subjects and the
    totals. *)
Definition textos_en_sus_celdas (anio : string) (materias : list MateriaPlan)
    (total : Z) : bool :=
  cabe true 9 1 (getAnioText anio) (TOTAL_TABLE_WIDTH - 3 * 2) 6 mergedAnioHeaderHeight
  && celdas_caben (fun i => col i - 3 * 2) true 3 25 O headerData
  && forallb (fun m => celdas_caben (fun i => col i - 3 * 2) false 3 (rowHeight_of m)
                                    O (rowData m))
             materias
  && cabe true 8 0 ("TOTAL HORAS " ++ getAnioText anio)%string
          (col 0 + col 1 + col 2 + col 3 + col 4 + col 5 - 6) 7 totalRowHeight
  && celdas_caben (fun i => col (6 + i) - 6) true 9 totalRowHeight O
                  [string_of_Z total; ""; ""; ""; ""]%string.

End PDFKit.

End Layout.

(* ================================================================= *)
(** ** The other handlers: bodies and responses *)

(** A scalar of a JSON body that names an identifier: a number, which
    is the double that its literal denotes (a rational), or a text. *)
Inductive crudo :=
| Numero (q : Q)
| Texto (s : string).

(** [a === b]. *)
Definition identico (a b : crudo) : bool :=
  match a, b with
  | Numero p, Numero q => Qeq_bool p q
  | Texto s, Texto t => s =? t
  | _, _ => false
  end.

(** The truthiness of a raw value: [0] and the empty text are falsy. *)
Definition verdadero (a : crudo) : bool :=
  match a with
  | Numero q => negb (Qeq_bool q 0)
  | Texto s => negb (s =? "")
  end.

(** An identifier of the store, as the number that JavaScript holds. *)
Definition de_Z (z : Z) : crudo := Numero (inject_Z z).

(** [l.includes(x)] on results of [parseInt], where [None] is [NaN]
    (which [includes] finds). *)
Definition includes (l : list (option Z)) (x : option Z) : bool :=
  existsb (fun y => match y, x with
                    | Some a, Some b => (a =? b)%Z
                    | None, None => true
                    | _, _ => false
                    end) l.

(** The body of a subject form.  The career is the raw value of the
    body; the other columns are given as the storage reads them, the
    two that take no [NULL] (name and year) among them. *)
Record MateriaBody := mkMateriaBody {
  mb_nombre_materia : string;
  mb_id_carrera : crudo;
  mb_año : Z;
  mb_campo_formacion : option string;
  mb_modalidad : option string;
  mb_formato : option string;
  mb_horas_semanales : option Z;
  mb_total_horas_anuales : option Z;
  mb_acreditacion : option string
}.

(** The body of a schedule form.  A time is given by the seconds since
    midnight that its text denotes; [None] is a missing or empty
    field. *)
Record HorarioBody := mkHorarioBody {
  hb_id_materia : option Z;
  hb_dia_semana : option string;
  hb_hora_inicio : option Z;
  hb_hora_fin : option Z
}.

(** The body of a prerequisite form; the four columns are given, the
    two subjects as the raw values of the body. *)
Record CorrelatividadBody := mkCorrelatividadBody {
  cb_id_materia_principal : crudo;
  cb_id_materia_requisito : crudo;
  cb_tipo : string;
  cb_estado_requisito : string
}.

(** The columns that [listUsers] and [getUserById] select: neither the
    password hash nor the audit columns.  ([fecha_creacion], which they
    also select, is not a column of the model.) *)
Record Usuario := mkUsuario {
  usu_id_administrador : Z;
  usu_nombre_administrador : string;
  usu_email : option string;
  usu_dni : option string;
  usu_telefono : option string;
  usu_rol : string;
  usu_estado : string
}.

Definition columnas_usuario (a : Administrador) : Usuario :=
  mkUsuario (id_administrador a) (nombre_administrador a) (email a) (dni a)
            (telefono a) (rol a) (adm_estado a).

(** The columns that [listCoordinadores] selects; [usuario_display] is
    [CONCAT(COALESCE(nombre_administrador, 'ID: '), id_administrador)]. *)
Record CoordinadorListado := mkCoordinadorListado {
  cl_id_administrador : Z;
  cl_nombre_administrador : string;
  cl_usuario_display : string
}.

Definition columnas_coordinador (a : Administrador) : CoordinadorListado :=
  mkCoordinadorListado (id_administrador a) (nombre_administrador a)
                       (nombre_administrador a ++ JS.String (id_administrador a)).

(** The bodies that the handlers below send: those of [json], and the
    rows and echoes that only they send.  The rows of the lists of
    administrators and the row of [getUserById] are the selected
    columns; otherwise, as before, a result row is the table row or the
    tuple of joined rows. *)
Inductive cuerpo :=
| Json (b : json)
| JUsuarios (rows : list Usuario)
| JCoordinadores (rows : list CoordinadorListado)
| JUsuario (row : Usuario)
| JSesion (usuario : Administrador) (token : string)
| JCarreraCoordinador (row : Carrera * option AdminCarrera * option Administrador)
| JCarreraCreada (id : Z) (b : UpdateCarreraBody) (estado_ : string) (message : string)
| JMateriaCreada (id : Z) (b : MateriaBody) (message : string)
| JHorarioCreado (id : Z) (b : HorarioBody) (message : string)
| JCorrelatividadCreada (id : Z) (b : CorrelatividadBody) (message : string)
| JCarrerasPublicas (rows : list Carrera)
| JAnios (años : list Z)
| JCarreraDetalle (c : Carrera) (coordinador : option (Administrador * AdminCarrera)).

Record respuesta := mkRespuesta {
  codigo : nat;
  contenido : cuerpo
}.

Definition responder (n : nat) (b : cuerpo) : M respuesta := ret (mkRespuesta n b).
Definition mensaje (n : nat) (m : string) : M respuesta :=
  ret (mkRespuesta n (Json (JMessage m))).

(** One request served on a store, whatever the handler answers with. *)
Definition atender {A} (h : M A) (e : env) (db : DB) : option A * DB :=
  match h e (mkWorld db db false 0) with
  | (Ok r, w) => (Some r, durable w)
  | (Throw _, w) => (None, durable w)
  end.

(* ================================================================= *)
(** ** controllers/adminController.js: the lists of administrators *)

Definition por_nombre (le : string -> string -> bool) (x y : Administrador) : bool :=
  le (nombre_administrador x) (nombre_administrador y).

(** The query of [listCoordinadores]. *)
Definition select_coordinadores (le : string -> string -> bool) (db : DB)
  : list Administrador :=
  order_by (por_nombre le)
    (filter (fun a => (rol a =? "Coordinador") && (adm_estado a =? "activo"))
            (administrador db)).

Definition listCoordinadores : M respuesta :=
  try_catch
    (le <- collation ;;
     coordinadores <- pool_query (reading (select_coordinadores le)) ;;
     responder 200 (JCoordinadores (map columnas_coordinador coordinadores)))
    (fun _ => mensaje 500 "Error interno del servidor al obtener coordinadores.").

(** The query of [listUsers]. *)
Definition select_users (le : string -> string -> bool) (db : DB)
  : list Administrador :=
  order_by (por_nombre le)
    (filter (fun a => (adm_estado a =? "activo") || (adm_estado a =? "suspendido"))
            (administrador db)).

Definition listUsers : M respuesta :=
  try_catch
    (le <- collation ;;
     users <- pool_query (reading (select_users le)) ;;
     responder 200 (JUsuarios (map columnas_usuario users)))
    (fun _ => mensaje 500 "Error interno del servidor.").

Definition getUserById (id : Z) : M respuesta :=
  try_catch
    (users <- pool_query (reading (select_administrador id)) ;;
     match users with
     | [] => mensaje 404 "Administrador no encontrado."
     | user :: _ => responder 200 (JUsuario (columnas_usuario user))
     end)
    (fun _ => mensaje 500 "Error interno del servidor.").

(* ================================================================= *)
(** ** controllers/authController.js: login *)

Record LoginBody := mkLoginBody {
  lg_identificador : option string;
  lg_contraseña : option JS.str16
}.

(** [SELECT * FROM administrador WHERE nombre_administrador = ? OR
    email = ?]. *)
Definition select_usuarios (identificador : string) (db : DB) : list Administrador :=
  filter (fun a => (nombre_administrador a =? identificador)
                   || match email a with
                      | Some m => m =? identificador
                      | None => false
                      end)
         (administrador db).

Section Login.

(** [bcrypt.compare]: whether a password matches a stored hash. *)
Variable bcrypt_compare : JS.str16 -> string -> bool.

Definition loginUser (b : LoginBody) : M respuesta :=
  if negb (JS.truthy (lg_identificador b)) || negb (nonempty16 (lg_contraseña b)) then
    mensaje 400 "Por favor, ingrese usuario/email y contraseña."
  else
    let identificador := JS.or_else (lg_identificador b) "" in
    let contraseña_ := match lg_contraseña b with Some p => p | None => [] end in
    try_catch
      (usuarios <- pool_query (reading (select_usuarios identificador)) ;;
       match usuarios with
       | usuario :: _ =>
           if bcrypt_compare contraseña_ (contraseña usuario) then
             if negb (adm_estado usuario =? "activo") then
               mensaje 401 "Credenciales inválidas o cuenta no activa. Contacte al administrador."
             else
               token <- generateToken (id_administrador usuario) (rol usuario) ;;
               responder 200 (JSesion usuario token)
           else mensaje 401 "Credenciales inválidas."
       | [] => mensaje 401 "Credenciales inválidas."
       end)
      (fun _ => mensaje 500 "Error interno del servidor al iniciar sesión.").

End Login.

(* ================================================================= *)
(** ** controllers/adminController.js: one career, a new career *)

(** The query of [getCarreraById]: the career with its assignment rows
    and, for each, the administrator when a Coordinador. *)
Definition select_carrera_coordinador (id_car : Z) (db : DB)
  : list (Carrera * option AdminCarrera * option Administrador) :=
  filter (fun row : Carrera * option AdminCarrera * option Administrador =>
            (id_carrera (fst (fst row)) =? id_car)%Z)
    (left_join
       (fun (cac : Carrera * option AdminCarrera) (a : Administrador) =>
          match snd cac with
          | Some ac => (ac_id_administrador ac =? id_administrador a)%Z
                       && (rol a =? "Coordinador")
          | None => false
          end)
       (left_join (fun c ac => (id_carrera c =? ac_id_carrera ac)%Z)
                  (carrera db) (admin_carrera db))
       (administrador db)).

Definition getCarreraById (user : User) (id_car : Z) : M respuesta :=
  try_catch
    (carreras <- pool_query (reading (select_carrera_coordinador id_car)) ;;
     match carreras with
     | [] => mensaje 404 "Carrera no encontrada."
     | carrera_ :: _ =>
         if user_rol user =? "Coordinador" then
           relaciones <- pool_query
             (reading (select_relaciones (user_id user) id_car)) ;;
           if (List.length relaciones =? 0)%nat then
             mensaje 403 "Acceso denegado. No tiene permisos sobre esta carrera."
           else responder 200 (JCarreraCoordinador carrera_)
         else responder 200 (JCarreraCoordinador carrera_)
     end)
    (fun _ => mensaje 500 "Error interno del servidor.").

(** [INSERT INTO carrera (nombre_carrera, duracion, modalidad,
    año_aprobacion, estado)].  The identifier of the new row is the
    value of the table's [AUTO_INCREMENT] counter, which the store
    assigns: it is a parameter of the statement.  The result is
    [insertId]. *)
Definition insert_carrera (insertId : Z)
    (nombre duracion_ modalidad_ año_ estado_ : string) (db : DB) : Z * DB :=
  (insertId,
   with_carrera
     (carrera db ++
        [mkCarrera insertId nombre duracion_ modalidad_ año_ estado_ None None])
     db).

Definition createCarrera (insertId : Z) (user : User) (b : UpdateCarreraBody)
  : M respuesta :=
  if negb (user_rol user =? "Rector") then
    mensaje 403 "Acceso denegado. Solo el Rector puede crear nuevas carreras."
  else if negb (JS.truthy (uc_nombre_carrera b)) || negb (JS.truthy (uc_duracion b))
          || negb (JS.truthy (uc_modalidad b))
          || negb (JS.truthy (uc_año_aprobacion b))
          || negb (JS.truthy_num (uc_id_coordinador b)) then
    mensaje 400 "Error de validación: Faltan campos obligatorios, incluyendo la asignación del Coordinador."
  else
    let id_coordinador := match uc_id_coordinador b with Some c => c | None => 0 end in
    try_catch
      (getConnection ;;;
       beginTransaction ;;;
       newCarreraId <- conn_query
         (insert_carrera insertId (JS.or_else (uc_nombre_carrera b) "")
            (JS.or_else (uc_duracion b) "") (JS.or_else (uc_modalidad b) "")
            (JS.or_else (uc_año_aprobacion b) "") "activa") ;;
       conn_query (insert_admin_carrera id_coordinador newCarreraId) ;;;
       commit ;;;
       responder 201 (JCarreraCreada newCarreraId b "activa"
                        "Carrera creada y Coordinador asignado con éxito."))
      (fun _ =>
         rollback ;;;
         mensaje 500 "Error interno del servidor al crear carrera y asignar coordinador.").

(* ================================================================= *)
(** ** controllers/adminController.js: a new subject, an edited subject *)

Section Materias.

(** What the language and the storage make of a raw value: [parseInt]
    ([None] is [NaN]), and the integer that an integer column holds
    after the value is written to it.  For a whole number written in
    digits both are that number; for 10.9 the first is 10 and the
    second 11. *)
Variable parseInt : crudo -> option Z.
Variable escrito : crudo -> Z.

(** [INSERT INTO materia (nombre_materia, id_carrera, año, ...)].  The
    statement does not name [estado]: the new row takes the default of
    the column, [estado_inicial], which like [insertId] is the store's
    to give. *)
Definition insert_materia (insertId : Z) (estado_inicial : string)
    (b : MateriaBody) (db : DB) : Z * DB :=
  (insertId,
   with_materia
     (materia db ++
        [mkMateria insertId (mb_nombre_materia b) (escrito (mb_id_carrera b))
                   (mb_año b) (mb_campo_formacion b) (mb_modalidad b) (mb_formato b)
                   (mb_horas_semanales b) (mb_total_horas_anuales b)
                   (mb_acreditacion b) estado_inicial None None])
     db).

(** [carrerasIds.map(id => parseInt(id))]. *)
Definition carrerasAsignadas_de (ids : list Z) : list (option Z) :=
  map (fun id => parseInt (de_Z id)) ids.

Definition createMateria (insertId : Z) (estado_inicial : string)
    (user : User) (b : MateriaBody) : M respuesta :=
  let crear :=
    try_catch
      (insertId_ <- pool_query (insert_materia insertId estado_inicial b) ;;
       responder 201 (JMateriaCreada insertId_ b "Materia creada con éxito."))
      (fun error =>
         match error with
         | ER_NO_REFERENCED_ROW_2 =>
             responder 400 (Json (JMessageSqlError
               "Error al crear materia: La carrera seleccionada no existe." error))
         | _ => mensaje 500 "Error interno del servidor al crear materia."
         end) in
  if user_rol user =? "Coordinador" then
    let carreraIdToCreate := parseInt (mb_id_carrera b) in
    match carreras_a_cargo_ids user with
    | None => throw
    | Some ids =>
        if negb (includes (carrerasAsignadas_de ids) carreraIdToCreate) then
          mensaje 403 "Acceso denegado. Solo puede crear materias para las carreras que coordina."
        else crear
    end
  else if negb (user_rol user =? "Rector") then
    mensaje 403 "Acceso denegado. Rol no autorizado."
  else crear.

(** The [UPDATE materia] statement of [updateMateria]: the nine data
    columns of the rows with the identifier that are in state 'activa'
    and, for a Coordinador, whose career is one of the parameters
    [carrerasIds.map(id => parseInt(id))] (a [NaN] among them equals no
    career). *)
Definition update_materia (b : MateriaBody) (id : Z) (ids : option (list (option Z)))
    (db : DB) : nat * DB :=
  let p := fun m =>
    (id_materia m =? id)%Z
    && match ids with
       | Some carrerasIds => includes carrerasIds (Some (mat_id_carrera m))
       | None => true
       end
    && (mat_estado m =? "activa") in
  (count_where p (materia db),
   with_materia
     (update_where p
        (fun m => mkMateria (id_materia m) (mb_nombre_materia b)
                    (escrito (mb_id_carrera b))
                    (mb_año b) (mb_campo_formacion b) (mb_modalidad b)
                    (mb_formato b) (mb_horas_semanales b)
                    (mb_total_horas_anuales b) (mb_acreditacion b)
                    (mat_estado m) (mat_fecha_eliminacion m)
                    (mat_id_administrador_eliminacion m))
        (materia db)) db).

Definition updateMateria (user : User) (id : Z) (b : MateriaBody) : M response :=
  let actualizar (ids : option (list (option Z))) :=
    try_catch
      (affectedRows <- pool_query (update_materia b id ids) ;;
       if (affectedRows =? 0)%nat then
         send 404 (JMessage "Materia no encontrada, acceso denegado o ya está inactiva.")
       else send_json (JMessage "Materia actualizada con éxito."))
      (fun error =>
         match error with
         | ER_NO_REFERENCED_ROW_2 =>
             send 400 (JMessageSqlError
               "Error al actualizar materia: La carrera seleccionada no existe (Verifique el id_carrera)."
               error)
         | _ => send 500 (JMessage "Error interno del servidor al actualizar materia.")
         end) in
  if user_rol user =? "Coordinador" then
    match carreras_a_cargo_ids user with
    | None | Some [] => send 403 (JMessage "Acceso denegado. No tiene carreras asignadas.")
    | Some carrerasIds =>
        let idCarreraBody := parseInt (mb_id_carrera b) in
        if verdadero (mb_id_carrera b)
           && negb (includes (carrerasAsignadas_de carrerasIds) idCarreraBody) then
          send 403 (JMessage "Acceso denegado. No puede reasignar la materia a una carrera que no coordina.")
        else actualizar (Some (carrerasAsignadas_de carrerasIds))
    end
  else if negb (user_rol user =? "Rector") then
    send 403 (JMessage "Acceso denegado. Rol no autorizado.")
  else actualizar None.

End Materias.

(* ================================================================= *)
(** ** controllers/adminController.js: a new slot, an edited slot *)

Definition campos_horario (b : HorarioBody) : list (string * bool) :=
  [("id_materia", JS.truthy_num (hb_id_materia b));
   ("dia_semana", JS.truthy (hb_dia_semana b));
   ("hora_inicio", JS.defined (hb_hora_inicio b));
   ("hora_fin", JS.defined (hb_hora_fin b))].

Definition or_zero (v : option Z) : Z :=
  match v with
  | Some z => z
  | None => 0
  end.

(** [INSERT INTO horario (id_materia, dia_semana, hora_inicio, hora_fin,
    estado)]. *)
Definition insert_horario (insertId id_materia_ : Z) (dia : string)
    (inicio fin : Z) (estado_ : string) (db : DB) : Z * DB :=
  (insertId,
   with_horario
     (horario db ++ [mkHorario insertId id_materia_ dia inicio fin estado_ None None])
     db).

Definition createHorario (insertId : Z) (user : User) (b : HorarioBody)
  : M respuesta :=
  match validateRequiredFields (campos_horario b) with
  | Some r => responder (status r) (Json (body r))
  | None =>
      let id_materia_ := or_zero (hb_id_materia b) in
      let crear :=
        try_catch
          (insertId_ <- pool_query
             (insert_horario insertId id_materia_ (JS.or_else (hb_dia_semana b) "")
                (or_zero (hb_hora_inicio b)) (or_zero (hb_hora_fin b)) "activa") ;;
           responder 201 (JHorarioCreado insertId_ b "Horario creado con éxito."))
          (fun _ => mensaje 500 "Error interno del servidor al crear horario.") in
      if user_rol user =? "Coordinador" then
        hasAccess <- checkMateriaAccess id_materia_ (user_id user) ;;
        if negb hasAccess then
          mensaje 403 "Acceso denegado. No coordina la carrera de esta materia."
        else crear
      else if negb (user_rol user =? "Rector") then
        mensaje 403 "Permisos insuficientes para crear horarios."
      else crear
  end.

(** [UPDATE horario SET id_materia = ?, dia_semana = ?, hora_inicio = ?,
    hora_fin = ? WHERE id_horario = ? AND estado = 'activa']. *)
Definition update_horario (id_materia_ : Z) (dia : string) (inicio fin id : Z)
    (db : DB) : nat * DB :=
  let p := fun h => (id_horario h =? id)%Z && (hor_estado h =? "activa") in
  (count_where p (horario db),
   with_horario
     (update_where p
        (fun h => mkHorario (id_horario h) id_materia_ dia inicio fin
                    (hor_estado h) (hor_fecha_eliminacion h)
                    (hor_id_administrador_eliminacion h))
        (horario db)) db).

Definition updateHorario (user : User) (id : Z) (b : HorarioBody) : M response :=
  match validateRequiredFields (campos_horario b) with
  | Some r => ret r
  | None =>
      let id_materia_ := or_zero (hb_id_materia b) in
      let actualizar :=
        try_catch
          (affectedRows <- pool_query
             (update_horario id_materia_ (JS.or_else (hb_dia_semana b) "")
                (or_zero (hb_hora_inicio b)) (or_zero (hb_hora_fin b)) id) ;;
           if (affectedRows =? 0)%nat then
             send 404 (JMessage "Horario no encontrado o ya está inactivo.")
           else send_json (JMessage "Horario actualizado con éxito."))
          (fun _ => send 500 (JMessage "Error interno del servidor al actualizar horario.")) in
      if user_rol user =? "Coordinador" then
        hasAccess <- checkMateriaAccess id_materia_ (user_id user) ;;
        if negb hasAccess then
          send 403 (JMessage "Acceso denegado. No coordina la carrera de esta materia.")
        else actualizar
      else if negb (user_rol user =? "Rector") then
        send 403 (JMessage "Permisos insuficientes para actualizar horarios.")
      else actualizar
  end.

(* ================================================================= *)
(** ** controllers/adminController.js: a new edge, an edited edge *)

Section Correlatividades.

(** What the storage makes of a raw value: the integer that an integer
    column holds after the value is written to it, and the integer
    that equals the value in a comparison with an integer column, if
    there is one.  For a whole number written in digits both are that
    number; 5.2 is written as 5 and equals no integer. *)
Variable escrito : crudo -> Z.
Variable comparado : crudo -> option Z.

(** [checkMateriaAccess] on a raw value: the query runs; no subject has
    an identifier that no integer equals. *)
Definition checkMateriaAccess_crudo (idMateria : crudo) (idAdministrador : Z)
  : M bool :=
  match comparado idMateria with
  | Some id => checkMateriaAccess id idAdministrador
  | None => pool_query (reading (fun _ => tt)) ;;; ret false
  end.

(** [INSERT INTO correlatividad (id_materia_principal,
    id_materia_requisito, tipo, estado_requisito, estado)]. *)
Definition insert_correlatividad (insertId : Z) (b : CorrelatividadBody)
    (estado_ : string) (db : DB) : Z * DB :=
  (insertId,
   with_correlatividad
     (correlatividad db ++
        [mkCorrelatividad insertId (escrito (cb_id_materia_principal b))
           (escrito (cb_id_materia_requisito b)) (cb_tipo b) (cb_estado_requisito b)
           estado_ None None])
     db).

(** The answers of the [catch] blocks of [createCorrelatividad] and
    [updateCorrelatividad]. *)
Definition error_correlatividad (verbo interno : string) (error : sqlerr)
  : M respuesta :=
  match error with
  | ER_NO_REFERENCED_ROW_2 =>
      responder 400 (Json (JMessageSqlError
        ("Error al " ++ verbo ++ " correlatividad: Una o ambas materias no existen.")
        error))
  | ER_DUP_ENTRY =>
      responder 400 (Json (JMessageSqlError "Error: Esta correlatividad ya existe." error))
  | _ => mensaje 500 interno
  end.

Definition createCorrelatividad (insertId : Z) (user : User)
    (b : CorrelatividadBody) : M respuesta :=
  if identico (cb_id_materia_principal b) (cb_id_materia_requisito b) then
    mensaje 400 "Error: Una materia no puede ser correlativa de sí misma."
  else
    let crear :=
      try_catch
        (insertId_ <- pool_query (insert_correlatividad insertId b "activa") ;;
         responder 201 (JCorrelatividadCreada insertId_ b
                          "Correlatividad creada con éxito."))
        (error_correlatividad "crear"
           "Error interno del servidor al crear correlatividad.") in
    if user_rol user =? "Coordinador" then
      hasAccess <- checkMateriaAccess_crudo (cb_id_materia_principal b)
                                            (user_id user) ;;
      if negb hasAccess then
        mensaje 403 "Acceso denegado. No coordina la carrera de la materia principal."
      else crear
    else if negb (user_rol user =? "Rector") then
      mensaje 403 "Permisos insuficientes para crear correlatividades."
    else crear.

(** [UPDATE correlatividad SET id_materia_principal = ?,
    id_materia_requisito = ?, tipo = ?, estado_requisito = ? WHERE
    id_correlatividad = ? AND estado = 'activa']. *)
Definition update_correlatividad (b : CorrelatividadBody) (id : Z) (db : DB)
  : nat * DB :=
  let p := fun c => (id_correlatividad c =? id)%Z && (cor_estado c =? "activa") in
  (count_where p (correlatividad db),
   with_correlatividad
     (update_where p
        (fun c => mkCorrelatividad (id_correlatividad c)
                    (escrito (cb_id_materia_principal b))
                    (escrito (cb_id_materia_requisito b)) (cb_tipo b)
                    (cb_estado_requisito b)
                    (cor_estado c) (cor_fecha_eliminacion c)
                    (cor_id_administrador_eliminacion c))
        (correlatividad db)) db).

Definition updateCorrelatividad (user : User) (id : Z) (b : CorrelatividadBody)
  : M respuesta :=
  if identico (cb_id_materia_principal b) (cb_id_materia_requisito b) then
    mensaje 400 "Error: Una materia no puede ser correlativa de sí misma."
  else
    let actualizar :=
      try_catch
        (affectedRows <- pool_query (update_correlatividad b id) ;;
         if (affectedRows =? 0)%nat then
           mensaje 404 "Correlatividad no encontrada o ya está inactiva."
         else mensaje 200 "Correlatividad actualizada con éxito.")
        (error_correlatividad "actualizar"
           "Error interno del servidor al actualizar correlatividad.") in
    if user_rol user =? "Coordinador" then
      hasAccess <- checkMateriaAccess_crudo (cb_id_materia_principal b)
                                            (user_id user) ;;
      if negb hasAccess then
        mensaje 403 "Acceso denegado. No coordina la carrera de la materia principal a actualizar."
      else actualizar
    else if negb (user_rol user =? "Rector") then
      mensaje 403 "Permisos insuficientes para actualizar correlatividades."
    else actualizar.

End Correlatividades.

(* ================================================================= *)
(** ** controllers/cursadoController.js: the public catalogue *)

Module Cursado.

(** The query of [getCarreras]. *)
Definition select_carreras (le : string -> string -> bool) (db : DB) : list Carrera :=
  order_by (fun x y => le (nombre_carrera x) (nombre_carrera y))
    (filter (fun c => car_estado c =? "activa") (carrera db)).

Definition getCarreras : M respuesta :=
  try_catch
    (le <- collation ;;
     rows <- pool_query (reading (select_carreras le)) ;;
     responder 200 (JCarrerasPublicas rows))
    (fun _ => responder 500 (Json (JError "Error interno del servidor al obtener carreras"))).

(** The query of [getAniosByCarrera]: [SELECT DISTINCT año ... ORDER BY
    año]. *)
Definition select_anios (id_carrera_ : Z) (db : DB) : list Z :=
  order_by Z.leb
    (nodup Z.eq_dec
       (map año
          (filter (fun m => (mat_id_carrera m =? id_carrera_)%Z
                            && (mat_estado m =? "activa"))
                  (materia db)))).

(** A parameter of the query string is [None] when missing or empty. *)
Definition getAniosByCarrera (id_carrera_ : option Z) : M respuesta :=
  match id_carrera_ with
  | None => responder 400 (Json (JError "Falta parámetro: id_carrera es requerido."))
  | Some idc =>
      try_catch
        (rows <- pool_query (reading (select_anios idc)) ;;
         responder 200 (JAnios rows))
        (fun _ => responder 500 (Json (JError "Error interno del servidor al obtener años.")))
  end.

(** The query of [getMaterias]. *)
Definition select_materias (le : string -> string -> bool) (id_carrera_ año_ : Z)
    (db : DB) : list Materia :=
  order_by (fun x y => le (nombre_materia x) (nombre_materia y))
    (filter (fun m => (mat_id_carrera m =? id_carrera_)%Z && (año m =? año_)%Z
                      && (mat_estado m =? "activa"))
            (materia db)).

Definition getMaterias (id_carrera_ año_ : option Z) : M response :=
  match id_carrera_, año_ with
  | Some idc, Some a =>
      try_catch
        (le <- collation ;;
         rows <- pool_query (reading (select_materias le idc a)) ;;
         send_json (JMaterias rows))
        (fun _ => send 500 (JError "Error interno del servidor al obtener materias."))
  | _, _ => send 400 (JError "Faltan parámetros: id_carrera y año son requeridos.")
  end.

(** The first query of [getCarreraDetalleById]. *)
Definition select_carrera_activa (id : Z) (db : DB) : list Carrera :=
  filter (fun c => (id_carrera c =? id)%Z && (car_estado c =? "activa")) (carrera db).

(** Its second query: the active Coordinadores assigned to the
    career. *)
Definition select_coordinador (id : Z) (db : DB) : list (Administrador * AdminCarrera) :=
  flat_map (fun a =>
    flat_map (fun ac =>
      if (id_administrador a =? ac_id_administrador ac)%Z
         && (ac_id_carrera ac =? id)%Z
         && (rol a =? "Coordinador")
         && (adm_estado a =? "activo")
      then [(a, ac)] else [])
    (admin_carrera db))
  (administrador db).

Definition getCarreraDetalleById (id : Z) : M respuesta :=
  try_catch
    (carreraRows <- pool_query (reading (select_carrera_activa id)) ;;
     match carreraRows with
     | [] => responder 404 (Json (JError "Carrera no encontrada."))
     | carrera_ :: _ =>
         coordinadorRows <- pool_query (reading (select_coordinador id)) ;;
         responder 200 (JCarreraDetalle carrera_ (hd_error coordinadorRows))
     end)
    (fun _ => responder 500 (Json (JError "Error interno del servidor al obtener el detalle de la carrera."))).

(** The query of [getMateriasByAnioIncompleto]. *)
Definition select_materias_por_anio (anio : Z) (db : DB) : list Materia :=
  filter (fun m => (año m =? anio)%Z && (mat_estado m =? "activa")) (materia db).

Definition getMateriasByAnioIncompleto (anio : Z) : M response :=
  try_catch
    (rows <- pool_query (reading (select_materias_por_anio anio)) ;;
     send_json (JMaterias rows))
    (fun _ => send 500 (JError "Error interno del servidor.")).

End Cursado.

(* ================================================================= *)
(** ** controllers/cursadoController.js: the data of the curriculum report *)

Module Plan.

Import Layout.

(** A JavaScript object used as a map from property names: the pairs in
    the order in which the names were first set.  (The order in which
    the language lists integer-like names is another; the report sorts
    the names before it uses them.) *)
Definition objeto (A : Type) : Type := list (string * A).

Fixpoint obj_get {A} (k : string) (o : objeto A) : option A :=
  match o with
  | [] => None
  | (k', v) :: o' => if k' =? k then Some v else obj_get k o'
  end.

Fixpoint obj_set {A} (k : string) (v : A) (o : objeto A) : objeto A :=
  match o with
  | [] => [(k, v)]
  | (k', v') :: o' => if k' =? k then (k', v) :: o' else (k', v') :: obj_set k v o'
  end.

(** What [fetchPlanData] returns. *)
Record PlanData := mkPlanData {
  carrera_ : Carrera;
  materiasPorAnio : objeto (list MateriaPlan);
  totalHorasAnuales : objeto Z;
  totalHorasCarrera : Z
}.

(** Its second query: the active subjects of the career, [ORDER BY año,
    id_materia]. *)
Definition select_materias (idCarrera : Z) (db : DB) : list Materia :=
  order_by (fun x y => (año x <? año y)%Z
                       || ((año x =? año y)%Z && (id_materia x <=? id_materia y)%Z))
    (filter (fun m => (mat_id_carrera m =? idCarrera)%Z && (mat_estado m =? "activa"))
            (materia db)).

(** Its third query: the active edges whose principal is one of the
    subjects. *)
Definition select_correlatividades (idMaterias : list Z) (db : DB)
  : list Correlatividad :=
  filter (fun c => en (id_materia_principal c) idMaterias && (cor_estado c =? "activa"))
         (correlatividad db).

(** One step of the [reduce] that sorts the edges of a subject into the
    three lists. *)
Definition clasificar (acc : MateriaPlan) (c : Correlatividad) : MateriaPlan :=
  if tipo c =? "Cursar" then
    if estado_requisito c =? "Aprobada" then
      mkMateriaPlan (fila acc) (cursarAprobada acc ++ [id_materia_requisito c])
                    (cursarRegular acc) (rendirAprobada acc)
    else if estado_requisito c =? "Regular" then
      mkMateriaPlan (fila acc) (cursarAprobada acc)
                    (cursarRegular acc ++ [id_materia_requisito c]) (rendirAprobada acc)
    else acc
  else if (tipo c =? "Promoción/Rendir") && (estado_requisito c =? "Aprobada") then
    mkMateriaPlan (fila acc) (cursarAprobada acc) (cursarRegular acc)
                  (rendirAprobada acc ++ [id_materia_requisito c])
  else acc.

Definition correlativas (correlatividadRows : list Correlatividad) (materia_ : Materia)
  : MateriaPlan :=
  fold_left clasificar
    (filter (fun c => (id_materia_principal c =? id_materia materia_)%Z)
            correlatividadRows)
    (mkMateriaPlan materia_ [] [] []).

(** [parseInt(materia.total_horas_anuales || 0, 10) || 0] on a column of
    integers. *)
Definition horasAnualesNum (materia_ : Materia) : Z :=
  or_zero (total_horas_anuales materia_).

(** The body of the [forEach] over the subjects. *)
Definition agregar (correlatividadRows : list Correlatividad)
    (acc : objeto (list MateriaPlan) * objeto Z * Z) (materia_ : Materia)
  : objeto (list MateriaPlan) * objeto Z * Z :=
  let '(mpa, tha, thc) := acc in
  let anio := string_of_Z (año materia_) in
  let '(mpa1, tha1) :=
    match obj_get anio mpa with
    | None => (obj_set anio [] mpa, obj_set anio 0 tha)
    | Some _ => (mpa, tha)
    end in
  let tha2 := obj_set anio (or_zero (obj_get anio tha1) + horasAnualesNum materia_) tha1 in
  let thc2 := thc + horasAnualesNum materia_ in
  let mpa2 :=
    obj_set anio
      (match obj_get anio mpa1 with Some l => l | None => [] end
       ++ [correlativas correlatividadRows materia_])
      mpa1 in
  (mpa2, tha2, thc2).

(** [fetchPlanData]: [None] is [null]. *)
Definition fetchPlanData (idCarrera : Z) : M (option PlanData) :=
  carreraRows <- pool_query (reading (Cursado.select_carrera_activa idCarrera)) ;;
  match carreraRows with
  | [] => ret None
  | c :: _ =>
      materiasRows <- pool_query (reading (select_materias idCarrera)) ;;
      match materiasRows with
      | [] => ret (Some (mkPlanData c [] [] 0))
      | _ :: _ =>
          correlatividadRows <- pool_query
            (reading (select_correlatividades (map id_materia materiasRows))) ;;
          let '(mpa, tha, thc) :=
            fold_left (agregar correlatividadRows) materiasRows ([], [], 0) in
          ret (Some (mkPlanData c mpa tha thc))
      end
  end.

(** [Object.keys(materiasPorAnio).sort()]: the names in the order of
    their code units. *)
Definition anios (p : PlanData) : list string :=
  order_by String.leb (map fst (materiasPorAnio p)).

(** What the loop over the years of [descargarPlanEstudioPDF] reads for
    each year: the name, the subjects and the total of the year. *)
Definition grupos (p : PlanData) : list (string * list MateriaPlan * Z) :=
  map (fun anio =>
         (anio,
          match obj_get anio (materiasPorAnio p) with Some l => l | None => [] end,
          or_zero (obj_get anio (totalHorasAnuales p))))
      (anios p).

(** The file name of the download:
    [nombre_carrera.replace(/\s/g, '_').replace(/[^a-zA-Z0-9_]/g, '')]
    between a prefix and a suffix, on the code units of the name. *)
Definition guion_bajo : N := 95%N.

Definition es_palabra (c : N) : bool :=
  JS.is_lower c || JS.is_upper c || JS.is_digit c || (c =? guion_bajo)%N.

Definition limpiar (nombre : JS.str16) : JS.str16 :=
  filter es_palabra (map (fun c => if JS.is_space c then guion_bajo else c) nombre).

Definition nombreArchivo (nombre_carrera_ : JS.str16) : JS.str16 :=
  JS.units "Plan_Estudio_" ++ limpiar nombre_carrera_ ++ JS.units "_IES6.pdf".

End Plan.

(* ================================================================= *)
(** ** routes/adminRoutes.js: the routes of the Rector *)

(** Three routes guarded by [rector], those whose handlers answer with
    a [response]: [POST /usuarios], [DELETE /usuarios/:id] and
    [DELETE /carreras/:id]. *)
Inductive ruta_de_rector :=
| PostUsuarios (b : CreateUserBody)
| DeleteUsuario (id : PathId)
| DeleteCarrera (id : Z).

Definition ruta (r : ruta_de_rector) (c : credential) : M response :=
  protect c (fun user =>
    rector user
      match r with
      | PostUsuarios b => createUserByAdmin b
      | DeleteUsuario id => deleteUserByAdmin user id
      | DeleteCarrera id => deleteCarrera user id
      end).

(** [req.user] as [protect] builds it from the row of an administrator
    and the store. *)
Definition usuario_de (a : Administrador) (db : DB) : User :=
  mkUser (id_administrador a) (nombre_administrador a) (rol a) (adm_estado a)
         (if rol a =? "Coordinador"
          then Some (carreras_de (id_administrador a) db) else None).

(* ================================================================= *)
(** ** Vocabulary of the statements *)

(** The state in which a request leaves the storage: the durable store
    and the connection of its transaction. *)
Definition al_terminar {A} (h : M A) (e : env) (db : DB) : world :=
  snd (h e (mkWorld db db false 0)).

(** No transaction is open, and the connection holds no change that the
    durable store does not have. *)
Definition sin_pendientes (w : world) : Prop :=
  intx w = false /\ work w = durable w.

(** The store after the two writes of [deleteUserByAdmin]. *)
Definition baja_administrador (e : env) (user : User) (id : Z) (db : DB) : DB :=
  snd (soft_delete_administrador (now e) (user_id user) id
         (snd (delete_admin_carrera_by_admin id db))).

(** The two 403 answers of [updateUserByAdmin] that the statements
    tell apart. *)
Definition rol_o_estado_denegado : response :=
  mkResponse 403 (JMessage "Acceso denegado: Un Coordinador no puede modificar su rol o estado.").

Definition auto_proteccion : response :=
  mkResponse 403 (JMessage "Prohibido: Un administrador no puede suspender o inactivar su propia cuenta.").

(** The requested personal fields are those of the administrator [id]
    in the store [db']. *)
Definition campos_personales_aplicados (b : UpdateUserBody) (id : Z) (db' : DB)
  : Prop :=
  forall a, In a (select_administrador id db') ->
    (forall v, uu_nombre_administrador b = Some v -> nombre_administrador a = v)
    /\ (forall v, uu_email b = Some v -> email a = JS.or_null (Some v))
    /\ (forall v, uu_dni b = Some v -> dni a = JS.or_null (Some v))
    /\ (forall v, uu_telefono b = Some v -> telefono a = JS.or_null (Some v)).

(** The password policy: at least eight code units, with an uppercase
    letter, a lowercase letter, a digit and a character that is neither
    a letter nor a digit. *)
Definition cumple_politica (p : JS.str16) : Prop :=
  (8 <= List.length p)%nat
  /\ (exists c, In c p /\ JS.is_upper c = true)
  /\ (exists c, In c p /\ JS.is_lower c = true)
  /\ (exists c, In c p /\ JS.is_digit c = true)
  /\ (exists c, In c p /\ (JS.is_upper c || JS.is_lower c || JS.is_digit c) = false).

(** The assignment rows of a career. *)
Definition asignaciones_de (id_car : Z) (db : DB) : list AdminCarrera :=
  filter (fun ac => ac_id_carrera ac =? id_car)%Z (admin_carrera db).

(** The assignment that [updateCarrera] inserts: one row when the body
    carries a truthy [id_coordinador], none otherwise. *)
Definition nueva_asignacion (id_car : Z) (b : UpdateCarreraBody) : list AdminCarrera :=
  match uc_id_coordinador b with
  | Some c => if JS.truthy_num (Some c) then [mkAdminCarrera c id_car] else []
  | None => []
  end.

(** The table [admin_carrera] after the replacement of the assignments
    of a career: the rows of the other careers, then the new row. *)
Definition reemplazo (id_car : Z) (b : UpdateCarreraBody) (db : DB)
  : list AdminCarrera :=
  delete_where (fun ac => ac_id_carrera ac =? id_car)%Z (admin_carrera db)
  ++ nueva_asignacion id_car b.

(** The five entity types and their soft-delete operations. *)
Inductive entidad :=
| EAdministrador
| ECarrera
| EMateria
| EHorario
| ECorrelatividad.

Definition soft_delete (k : entidad) (user : User) (id : PathId) : M response :=
  match k with
  | EAdministrador => deleteUserByAdmin user id
  | ECarrera => deleteCarrera user (numero id)
  | EMateria => deleteMateria user (numero id)
  | EHorario => deleteHorario user (numero id)
  | ECorrelatividad => deleteCorrelatividad user (numero id)
  end.

(** What each operation answers when the entity is already inactive,
    and when there is no such entity. *)
Definition ya_inactiva (k : entidad) : response :=
  match k with
  | EAdministrador =>
      mkResponse 404 (JMessage "Administrador no encontrado o ya estaba inactivo.")
  | ECarrera => mkResponse 400 (JMessage "La carrera ya estaba marcada como inactiva.")
  | EMateria => mkResponse 400 (JMessage "La materia ya se encuentra inactiva.")
  | EHorario => mkResponse 400 (JMessage "El horario ya se encuentra inactivo.")
  | ECorrelatividad =>
      mkResponse 400 (JMessage "La correlatividad ya se encuentra inactiva.")
  end.

Definition no_encontrada (k : entidad) : response :=
  match k with
  | EAdministrador => mkResponse 404 (JMessage "Administrador no encontrado.")
  | ECarrera => mkResponse 404 (JMessage "Carrera no encontrada.")
  | EMateria => mkResponse 404 (JMessage "Materia no encontrada.")
  | EHorario => mkResponse 404 (JMessage "Horario no encontrado.")
  | ECorrelatividad => mkResponse 404 (JMessage "Correlatividad no encontrada.")
  end.

(** The states of the rows that carry the identifier [id]. *)
Definition estados (k : entidad) (id : Z) (db : DB) : list string :=
  match k with
  | EAdministrador => map adm_estado (select_administrador id db)
  | ECarrera => map car_estado (select_carrera id db)
  | EMateria => map mat_estado (select_materia id db)
  | EHorario => map hor_estado (select_horario id db)
  | ECorrelatividad => map cor_estado (select_correlatividad id db)
  end.

(** The identifier is a primary key: at most one row carries it. *)
Definition clave_primaria (k : entidad) (id : Z) (db : DB) : Prop :=
  (List.length (estados k id db) <= 1)%nat.

Definition etiqueta_activa (k : entidad) : string :=
  match k with
  | EAdministrador => "activo"
  | _ => "activa"
  end.

(** There is exactly one row with the identifier and it is active. *)
Definition vigente (k : entidad) (id : Z) (db : DB) : Prop :=
  estados k id db = [etiqueta_activa k].

(** The read operations on subjects, schedule slots and prerequisite
    edges: the list and by-id reads of the administration, and the
    public schedule of a subject. *)
Inductive lectura :=
| LMateriasAll (id_carrera_query : option Z)
| LMateriaById (id : Z)
| LHorariosPorMateria (idMateria : option Z)
| LHorarioById (id : Z)
| LCorrelatividadesPorMateria (id : Z)
| LCorrelatividadById (id : Z)
| LHorariosByMateria (id_materia_ : option Z).

Definition leer (l : lectura) (user : User) : M response :=
  match l with
  | LMateriasAll q => getMateriasAll user q
  | LMateriaById id => getMateriaById user id
  | LHorariosPorMateria q => getHorariosPorMateria user q
  | LHorarioById id => getHorarioById id
  | LCorrelatividadesPorMateria id => getCorrelatividadesPorMateria user id
  | LCorrelatividadById id => getCorrelatividadById user id
  | LHorariosByMateria q => getHorariosByMateria q
  end.

(** Every row of a body is in state 'activa' itself. *)
Definition filas_activas (b : json) : Prop :=
  match b with
  | JMaterias rows => forall m, In m rows -> mat_estado m = "activa"
  | JMateria m => mat_estado m = "activa"
  | JHorarios rows => forall x, In x rows -> hor_estado (fst (fst x)) = "activa"
  | JHorariosPublicos rows => forall h, In h rows -> hor_estado h = "activa"
  | JHorario h => hc_estado h = "activa"
  | JCorrelatividades rows => forall x, In x rows -> cor_estado (fst (fst x)) = "activa"
  | JCorrelatividad x => cor_estado (fst x) = "activa"
  | _ => True
  end.

(** The career that owns a subject is in state 'activa'. *)
Definition carrera_activa (m : Materia) (db : DB) : Prop :=
  exists c, In c (select_carrera (mat_id_carrera m) db) /\ car_estado c = "activa".

(** Every row of a body belongs, through its subject, to an active
    career. *)
Definition filas_de_carrera_activa (db : DB) (b : json) : Prop :=
  match b with
  | JMaterias rows => forall m, In m rows -> carrera_activa m db
  | JMateria m => carrera_activa m db
  | JHorarios rows => forall x, In x rows -> carrera_activa (snd (fst x)) db
  | JHorariosPublicos rows =>
      forall h m, In h rows -> In m (select_materia (hor_id_materia h) db) ->
                  carrera_activa m db
  | JHorario h =>
      forall m, In m (select_materia (hc_id_materia h) db) -> carrera_activa m db
  | JCorrelatividades rows => forall x, In x rows -> carrera_activa (snd (fst x)) db
  | JCorrelatividad x => carrera_activa (snd x) db
  | _ => True
  end.

(** A career with its state replaced. *)
Definition con_estado (f : Carrera -> string) (c : Carrera) : Carrera :=
  mkCarrera (id_carrera c) (nombre_carrera c) (duracion c) (car_modalidad c)
            (año_aprobacion c) (f c) (car_fecha_eliminacion c)
            (car_id_administrador_eliminacion c).

(** The store with the states of its careers replaced. *)
Definition con_estados (f : Carrera -> string) (db : DB) : DB :=
  with_carrera (map (con_estado f) (carrera db)) db.

(** A response about a store, read as a response about the store with
    the states of the careers replaced: the rows are the same, the
    career joined to a schedule slot carries its new state. *)
Definition reetiquetar (f : Carrera -> string) (r : response) : response :=
  match body r with
  | JHorarios rows =>
      mkResponse (status r)
        (JHorarios (map (fun x : Horario * Materia * Carrera =>
                           (fst (fst x), snd (fst x), con_estado f (snd x))) rows))
  | _ => r
  end.

(** A handler that answers with a [response], read as one that answers
    with a [respuesta]. *)
Definition elevar (h : M response) : M respuesta :=
  r <- h ;; responder (status r) (Json (body r)).

(** The writes on schedule slots and prerequisite edges. *)
Inductive escritura :=
| CrearHorario (insertId : Z) (b : HorarioBody)
| EditarHorario (id : Z) (b : HorarioBody)
| BorrarHorario (id : Z)
| CrearCorrelatividad (insertId : Z) (b : CorrelatividadBody)
| EditarCorrelatividad (id : Z) (b : CorrelatividadBody)
| BorrarCorrelatividad (id : Z).

Definition escribir (escrito : crudo -> Z) (comparado : crudo -> option Z)
    (w : escritura) (user : User) : M respuesta :=
  match w with
  | CrearHorario insertId b => createHorario insertId user b
  | EditarHorario id b => elevar (updateHorario user id b)
  | BorrarHorario id => elevar (deleteHorario user id)
  | CrearCorrelatividad insertId b =>
      createCorrelatividad escrito comparado insertId user b
  | EditarCorrelatividad id b => updateCorrelatividad escrito comparado user id b
  | BorrarCorrelatividad id => elevar (deleteCorrelatividad user id)
  end.

(** No subject of the store is in the state that [checkMateriaAccess]
    asks for.  (The reads, the edit and the soft-delete of subjects
    use the states 'activa' and 'inactiva'.) *)
Definition sin_materia_en_activo (db : DB) : Prop :=
  forall m, In m (materia db) -> mat_estado m <> "activo".

(** The answer of [validateRequiredFields] for a missing field. *)
Definition campo_obligatorio (field : string) : response :=
  mkResponse 400
    (JMessageError ("Error de validación: El campo '" ++ field ++ "' es obligatorio.")
                   ("Missing required field: " ++ field)).

(** Two stores differ at most in the table [administrador]. *)
Definition mismas_tablas_salvo_administrador (db db' : DB) : Prop :=
  admin_carrera db' = admin_carrera db
  /\ carrera db' = carrera db
  /\ materia db' = materia db
  /\ horario db' = horario db
  /\ correlatividad db' = correlatividad db.

(** The row [a'] is the row [a] with, at most, another password hash. *)
Definition salvo_contraseña (a a' : Administrador) : Prop :=
  a' = asignar a (set_contraseña (contraseña a')).

(** Whether [updateUserByAdmin] deletes the assignments of the
    administrator it edits: the role that results is 'Coordinador' and
    the state that results is 'suspendido' or 'inactivo'. *)
Definition desasigna (b : UpdateUserBody) (cur : Administrador) : bool :=
  (JS.or_else (uu_rol b) (rol cur) =? "Coordinador")
  && ((JS.or_else (uu_estado b) (adm_estado cur) =? "suspendido")
      || (JS.or_else (uu_estado b) (adm_estado cur) =? "inactivo")).

(** The [SET] list of the password, if one is set. *)
Definition parte_contraseña (e : env) (b : UpdateUserBody) : list asignacion :=
  match uu_newContraseña b with
  | Some p =>
      if (0 <? List.length (JS.trim p))%nat
      then [set_contraseña (bcrypt_hash e (JS.trim p))] else []
  | None => []
  end.

(** The store after an update of the administrator [id] that went
    through. *)
Definition actualizado (e : env) (user : User) (id : Z) (b : UpdateUserBody)
    (cur : Administrador) (db : DB) : DB :=
  snd (update_administrador
         (sqlParts_of (user_rol user) (user_id user) (now e) b ++ parte_contraseña e b)
         id
         (if desasigna b cur then snd (delete_admin_carrera_by_admin id db) else db)).

(** The row [a'] is the row [a] with, at most, other personal data
    (name, address, document, telephone) and another password hash: the
    identifier, the role, the state and the audit columns are those of
    [a]. *)
Definition salvo_datos_personales (a a' : Administrador) : Prop :=
  id_administrador a' = id_administrador a
  /\ rol a' = rol a
  /\ adm_estado a' = adm_estado a
  /\ adm_fecha_eliminacion a' = adm_fecha_eliminacion a
  /\ adm_id_administrador_eliminacion a' = adm_id_administrador_eliminacion a.

(** The assignments of personal data and of the password. *)
Definition personal (s : asignacion) : bool :=
  match s with
  | set_nombre_administrador _ | set_email _ | set_dni _ | set_telefono _
  | set_contraseña _ => true
  | _ => false
  end.

(** The tables of careers, subjects, schedule slots and prerequisite
    edges are the same in two stores. *)
Definition mismo_catalogo (db db' : DB) : Prop :=
  carrera db' = carrera db
  /\ materia db' = materia db
  /\ horario db' = horario db
  /\ correlatividad db' = correlatividad db.

(** Every row of a list of careers, subjects, schedule slots or
    prerequisite edges belongs, through its subject, to one of the
    careers [ids]. *)
Definition en_alcance (ids : list Z) (b : json) : Prop :=
  match b with
  | JCarreras rows => forall x, In x rows -> en (id_carrera (fst x)) ids = true
  | JMaterias rows => forall m, In m rows -> en (mat_id_carrera m) ids = true
  | JHorarios rows =>
      forall x, In x rows -> en (mat_id_carrera (snd (fst x))) ids = true
  | JCorrelatividades rows =>
      forall x, In x rows -> en (mat_id_carrera (snd (fst x))) ids = true
  | _ => True
  end.

(** The four list routes of the administration. *)
Inductive lista :=
| ListaCarreras
| ListaMaterias (id_carrera_query : option Z)
| ListaHorarios (idMateria : option Z)
| ListaCorrelatividades (id : Z).

Definition ruta_lista (l : lista) (c : credential) : M response :=
  match l with
  | ListaCarreras => route_getCarreras c
  | ListaMaterias q => route_getMateriasAll c q
  | ListaHorarios q => route_getHorariosPorMateria c q
  | ListaCorrelatividades id => route_getCorrelatividadesPorMateria c id
  end.

(** A career, as [parseInt] gives it, is within reach of the
    administrator: any for a Rector; for a Coordinador one that
    [includes] finds among the careers in charge, read by [parseInt]
    as the handlers read them. *)
Definition a_su_alcance (parseInt : crudo -> option Z) (user : User)
    (idc : option Z) : Prop :=
  user_rol user = "Rector"
  \/ (user_rol user = "Coordinador"
      /\ exists ids, carreras_a_cargo_ids user = Some ids
                     /\ includes (carrerasAsignadas_de parseInt ids) idc = true).

(** Two stores differ at most in the table [materia]. *)
Definition mismas_tablas_salvo_materia (db db' : DB) : Prop :=
  administrador db' = administrador db
  /\ admin_carrera db' = admin_carrera db
  /\ carrera db' = carrera db
  /\ horario db' = horario db
  /\ correlatividad db' = correlatividad db.

(** The sum of a list of hours. *)
Definition suma (l : list Z) : Z := fold_right Z.add 0 l.

(** The subject is filed under the year of the name [anio]. *)
Definition del_año (anio : string) (m : Materia) : bool :=
  Layout.string_of_Z (año m) =? anio.

(** What the loop of [fetchPlanData] over the subjects keeps true,
    [vistas] being the subjects it has gone through: the two objects
    have the same names, each once; under a name are the subjects of
    that year, in their order, and the sum of their hours; the total of
    the career is the sum of the totals of the years. *)
Definition invariante (rows : list Correlatividad) (vistas : list Materia)
    (acc : Plan.objeto (list Layout.MateriaPlan) * Plan.objeto Z * Z) : Prop :=
  let '(mpa, tha, thc) := acc in
  map fst tha = map fst mpa
  /\ NoDup (map fst mpa)
  /\ (forall k, Plan.obj_get k mpa
                = match filter (del_año k) vistas with
                  | [] => None
                  | ms => Some (map (Plan.correlativas rows) ms)
                  end)
  /\ (forall k, Plan.obj_get k tha
                = match filter (del_año k) vistas with
                  | [] => None
                  | ms => Some (suma (map Plan.horasAnualesNum ms))
                  end)
  /\ thc = suma (map snd tha).

(** The requisites of the edges of [rows] whose principal is the subject
    and that have the type and the required state, in their order. *)
Definition requisitos (rows : list Correlatividad) (m : Materia)
    (tipo_ estado_ : string) : list Z :=
  map id_materia_requisito
    (filter (fun c => (id_materia_principal c =? id_materia m)%Z
                      && (tipo c =? tipo_) && (estado_requisito c =? estado_))
            rows).

(** The code unit of the full stop. *)
Definition punto : N := 46%N.

(** The coordinator that the detail of a career shows is an
    administrator of the store with role Coordinador and state 'activo'
    that an assignment of the store ties to the career. *)
Definition coordina (id : Z) (db : DB) (x : Administrador * AdminCarrera) : Prop :=
  In (fst x) (administrador db) /\ In (snd x) (admin_carrera db)
  /\ id_administrador (fst x) = ac_id_administrador (snd x)
  /\ ac_id_carrera (snd x) = id
  /\ rol (fst x) = "Coordinador" /\ adm_estado (fst x) = "activo".

(* ================================================================= *)
(** ** A small store for examples *)

Module Ejemplo.

(** A hashing service that keeps its argument readable. *)
Definition bcrypt (p : JS.str16) : string :=
  "$2b$10$" ++ string_of_list_ascii (map ascii_of_N p).

Definition sign (id : Z) (r : string) : string := "jwt:" ++ r.

Definition verify_reset_token (t : string) : option Z :=
  if t =? "reset-2" then Some 2%Z else None.

Definition entorno : env :=
  mkEnv no_faults 1700000000 bcrypt sign verify_reset_token String.leb.

(** The same environment with the storage call number [k] failing. *)
Definition entorno_falla (k : nat) : env :=
  mkEnv (fun n => if (n =? k)%nat then Some ER_OTHER else None)
        1700000000 bcrypt sign verify_reset_token String.leb.

Definition rectora : Administrador :=
  mkAdministrador 1 "rectora" None "$2b$10$x" None None "Rector" "activo" None None.
Definition coordinador : Administrador :=
  mkAdministrador 2 "coordinador" (Some "coord@ies6.edu") "$2b$10$y" None None
                  "Coordinador" "activo" None None.
Definition sin_asignar : Administrador :=
  mkAdministrador 3 "nuevo" None "$2b$10$z" None None "Coordinador" "activo" None None.

Definition sistemas : Carrera :=
  mkCarrera 10 "Sistemas" "3" "Presencial" "2015" "activa" None None.
Definition historia : Carrera :=
  mkCarrera 11 "Historia" "4" "Presencial" "2010" "inactiva" (Some 1600000000) (Some 1).

Definition algebra : Materia :=
  mkMateria 100 "Algebra" 10 1 None None None (Some 4) (Some 128) None "activa" None None.
Definition programacion : Materia :=
  mkMateria 102 "Programacion" 10 2 None None None (Some 6) (Some 192) None "activa" None None.
Definition prehistoria : Materia :=
  mkMateria 101 "Prehistoria" 11 1 None None None (Some 3) (Some 96) None "activa" None None.
Definition arqueologia : Materia :=
  mkMateria 103 "Arqueologia" 11 2 None None None (Some 3) (Some 96) None "activa" None None.

Definition lunes_prehistoria : Horario :=
  mkHorario 1000 101 "Lunes" 28800 36000 "activa" None None.
Definition martes_algebra : Horario :=
  mkHorario 1001 100 "Martes" 28800 36000 "activa" None None.

Definition arqueologia_requiere_prehistoria : Correlatividad :=
  mkCorrelatividad 5000 103 101 "Cursar" "Regular" "activa" None None.
Definition programacion_requiere_algebra : Correlatividad :=
  mkCorrelatividad 5001 102 100 "Cursar" "Aprobada" "activa" None None.

(** Career 10 is active and coordinated by administrator 2; career 11
    was soft-deleted by the Rector, its subjects, their schedule and
    their prerequisite edge were not. *)
Definition db : DB :=
  mkDB [rectora; coordinador; sin_asignar]
       [mkAdminCarrera 2 10]
       [sistemas; historia]
       [algebra; prehistoria; programacion; arqueologia]
       [lunes_prehistoria; martes_algebra]
       [arqueologia_requiere_prehistoria; programacion_requiere_algebra]
       4.

Definition user_rectora : User := mkUser 1 "rectora" "Rector" "activo" None.
Definition user_coordinador : User :=
  mkUser 2 "coordinador" "Coordinador" "activo" (Some [10%Z]).

(** The Coordinador 2 asks for a new name and for the role of Rector. *)
Definition cambio_de_rol : UpdateUserBody :=
  mkUpdateUserBody (Some "Coordinadora General") None None None None
                   (Some "Rector") None.

(** The path [/usuarios/01]: another text of the identifier 1. *)
Definition uno_con_cero : PathId := mkPathId "01" 1.

(** The Rector asks to suspend the own account. *)
Definition auto_suspension : UpdateUserBody :=
  mkUpdateUserBody None None None None None None (Some "suspendido").

(** A password of three letters. *)
Definition clave_debil : JS.str16 := JS.units "abc".

Definition reset_debil : ResetBody :=
  mkResetBody (Some "reset-2") (Some clave_debil).

Definition registro_debil : RegisterBody :=
  mkRegisterBody (Some "intruso") (Some clave_debil) None None None None.

(** A registration that names no role. *)
Definition registro_sin_rol : RegisterBody :=
  mkRegisterBody (Some "primera") (Some (JS.units "Secreta#2024")) None None None None.

(** The token service of the examples signs 'jwt:' followed by the
    role; this verifier reads the token of the fourth administrator. *)
Definition verify (t : string) : option (Z * string) :=
  if t =? "jwt:Rector" then Some (4%Z, "Rector") else None.

(** The Rector hands career 10 over to the administrator 3. *)
Definition cambio_de_coordinador : UpdateCarreraBody :=
  mkUpdateCarreraBody (Some "Sistemas") (Some "3") (Some "Presencial") (Some "2015")
                      (Some 3%Z) None.

(** A metric in which every text takes one line and a line is 1.15
    times the font size. *)
Definition una_linea (b : bool) (size : Q) (s : string) (width : Q) : nat := 1%nat.
Definition alto_de_linea (b : bool) (size : Q) : Q := (size * 1.15)%Q.

(** The first year of career 10, and a document whose cursor is near
    the bottom of its first page. *)
Definition primer_año : string * list Layout.MateriaPlan * Z :=
  ("1", [Layout.mkMateriaPlan algebra [] [] []], 128%Z).
Definition casi_llena : Layout.Doc := Layout.mkDoc 0 540%Q false 10%Q [].

(** A first year of thirty subjects. *)
Definition año_largo : string * list Layout.MateriaPlan * Z :=
  ("1", repeat (Layout.mkMateriaPlan algebra [] [] []) 30, 3840%Z).

(** One read of each kind that reaches the children of career 11. *)
Definition lecturas_carrera_11 : list lectura :=
  [LMateriasAll None; LMateriaById 101; LHorariosPorMateria (Some 101%Z);
   LHorarioById 1000; LCorrelatividadesPorMateria 103; LCorrelatividadById 5000;
   LHorariosByMateria (Some 101%Z)].

(** The comparison that goes with the hashing service of the
    examples. *)
Definition compara (p : JS.str16) (h : string) : bool := h =? bcrypt p.

(** A password that meets the policy, and the reset of the password of
    the administrator 2 to it. *)
Definition clave_fuerte : JS.str16 := JS.units "Secreta#2024".

Definition reset_fuerte : ResetBody :=
  mkResetBody (Some "reset-2") (Some clave_fuerte).

(** The Rector suspends an administrator; the row of the Coordinador 2
    after that. *)
Definition suspension : UpdateUserBody :=
  mkUpdateUserBody None None None None None None (Some "suspendido").

Definition coordinador_suspendido : Administrador :=
  mkAdministrador 2 "coordinador" (Some "coord@ies6.edu") "$2b$10$y" None None
                  "Coordinador" "suspendido" (Some 1700000000) (Some 1).

(** A new career, to be coordinated by the administrator 3. *)
Definition letras : UpdateCarreraBody :=
  mkUpdateCarreraBody (Some "Letras") (Some "4") (Some "Presencial") (Some "2020")
                      (Some 3%Z) None.

(** Readings of raw values for the examples, which give whole numbers:
    the number itself. *)
Definition entero (v : crudo) : option Z :=
  match v with
  | Numero q => if Qeq_bool q (inject_Z (Qfloor q)) then Some (Qfloor q) else None
  | Texto _ => None
  end.

Definition escrito (v : crudo) : Z :=
  match entero v with
  | Some z => z
  | None => 0
  end.

(** A subject for the first year of career 10. *)
Definition analisis : MateriaBody :=
  mkMateriaBody "Analisis" (de_Z 10) 1 None None None (Some 4%Z) (Some 128%Z) None.

(** A slot on Wednesday morning for the subject 100. *)
Definition miercoles : HorarioBody :=
  mkHorarioBody (Some 100%Z) (Some "Miércoles") (Some 28800%Z) (Some 36000%Z).

(** The plan of career 10: one subject in each of two years. *)
Definition plan_sistemas : Plan.PlanData :=
  Plan.mkPlanData sistemas
    [("1", [Layout.mkMateriaPlan algebra [] [] []]);
     ("2", [Layout.mkMateriaPlan programacion [100] [] []])]
    [("1", 128); ("2", 192)]
    320.

End Ejemplo.

(* ================================================================= *)
(** * Properties *)

(* ----------------------------------------------------------------- *)
(** *** Tactics *)

(** Unfolds the plumbing of a request. *)
Ltac run :=
  cbv beta iota zeta delta
    [serve try_catch bind ret send send_json await pool_query conn_query
     getConnection beginTransaction commit rollback get_now hash collation
     reading writing next_tick throw generateToken verify_reset];
  cbn [durable work intx tick fst snd].

(** Case split on whether the storage call number [k] fails. *)
Ltac fault k :=
  let F := fresh "F" in
  destruct (faults _ k) eqn:F; cbn.

(** Repeatedly splits on the innermost scrutinee of the goal. *)
Ltac destr_goal :=
  match goal with
  | |- context [match ?x with _ => _ end] =>
      lazymatch x with
      | context [match _ with _ => _ end] => fail
      | _ => destruct x eqn:?
      end
  end.

(** Follows every path of a request that answered; [Hst] is what is
    known of the status. *)
Ltac paths H Hst :=
  revert H; run; repeat (destr_goal; cbn); intros H; inversion H; subst;
  cbn in Hst; try discriminate.

(** Follows every path of a request that answered. *)
Ltac pathsq H :=
  revert H; run; repeat (destr_goal; cbn); intros H; inversion H; subst; cbn.

(* ----------------------------------------------------------------- *)
(** *** Lists, filters and joins *)

Lemma count_select_administrador : forall id db,
  count_where (fun a => id_administrador a =? id)%Z (administrador db)
  = List.length (select_administrador id db).
Proof. reflexivity. Qed.

Lemma filter_delete_where : forall {A} (p : A -> bool) l,
  filter p (delete_where p l) = [].
Proof.
  intros A p l. unfold delete_where. induction l as [|x l IH]; simpl; auto.
  destruct (p x) eqn:E; simpl; auto. rewrite E. exact IH.
Qed.

Lemma In_order_by : forall {A} (le : A -> A -> bool) (l : list A) x,
  In x (order_by le l) <-> In x l.
Proof.
  intros A le l x.
  assert (Hins : forall y l', In x (insert_by le y l') <-> x = y \/ In x l').
  { intros y l'. induction l' as [|z l' IH]; simpl.
    - intuition.
    - destruct (le y z); simpl; rewrite ?IH; intuition. }
  induction l as [|y l IH]; simpl.
  - tauto.
  - rewrite Hins, IH. intuition.
Qed.

Lemma filter_update_where : forall {A} (p q : A -> bool) (f : A -> A) l,
  (forall x, q (f x) = q x) ->
  filter q (update_where p f l) = update_where p f (filter q l).
Proof.
  intros A p q f l Hq. unfold update_where.
  induction l as [|x l IH]; cbn; auto.
  destruct (p x) eqn:Hp.
  - rewrite Hq. destruct (q x); cbn; rewrite ?Hp, IH; reflexivity.
  - destruct (q x); cbn; rewrite ?Hp, IH; reflexivity.
Qed.

Lemma fold_update_where : forall {A} (p : A -> bool) (f : A -> A) l,
  map (fun r => if p r then f r else r) l = update_where p f l.
Proof. reflexivity. Qed.

Lemma filter_update_where_nil : forall {A} (p : A -> bool) (f : A -> A) l,
  (forall x, p x = true -> p (f x) = false) ->
  filter p (update_where p f l) = [].
Proof.
  intros A p f l Hp. unfold update_where.
  induction l as [|x l IH]; cbn; auto.
  destruct (p x) eqn:E; [rewrite (Hp _ E)|rewrite E]; exact IH.
Qed.

Lemma filter_head_true : forall {A} (p : A -> bool) l x rest,
  filter p l = x :: rest -> p x = true.
Proof.
  intros A p l x rest H.
  assert (Hin : In x (filter p l)) by (rewrite H; left; reflexivity).
  apply filter_In in Hin. apply Hin.
Qed.

Lemma filter_none : forall {A} (p : A -> bool) l,
  (forall x, p x = false) -> filter p l = [].
Proof.
  intros A p l H. induction l as [|x l IH]; cbn; auto. rewrite H. exact IH.
Qed.

Lemma flat_map_none : forall {A B} (f : A -> list B) l,
  (forall x, f x = []) -> flat_map f l = [].
Proof.
  intros A B f l H. induction l as [|x l IH]; cbn; auto. rewrite H. exact IH.
Qed.

Lemma In_flat_map_if3 : forall {A B C} (la : list A) (lb : list B) (lc : list C)
    (p : A -> B -> C -> bool) x,
  In x (flat_map (fun a => flat_map (fun b => flat_map (fun c =>
          if p a b c then [(a, b, c)] else []) lc) lb) la) ->
  p (fst (fst x)) (snd (fst x)) (snd x) = true.
Proof.
  intros A B C la lb lc p x H.
  apply in_flat_map in H. destruct H as [a [_ H]].
  apply in_flat_map in H. destruct H as [b [_ H]].
  apply in_flat_map in H. destruct H as [c [_ H]].
  destruct (p a b c) eqn:E; [|contradiction].
  destruct H as [H|[]]. subst x. exact E.
Qed.

Lemma In_flat_map_if2 : forall {A B} (la : list A) (lb : list B)
    (p : A -> B -> bool) x,
  In x (flat_map (fun a => flat_map (fun b =>
          if p a b then [(a, b)] else []) lb) la) ->
  p (fst x) (snd x) = true.
Proof.
  intros A B la lb p x H.
  apply in_flat_map in H. destruct H as [a [_ H]].
  apply in_flat_map in H. destruct H as [b [_ H]].
  destruct (p a b) eqn:E; [|contradiction].
  destruct H as [H|[]]. subst x. exact E.
Qed.

(* ----------------------------------------------------------------- *)
(** *** C1: the reads filter on the row's own state only *)

(** In the example store only career 10 is active. *)
Lemma carrera_activa_ejemplo : forall m,
  carrera_activa m Ejemplo.db -> mat_id_carrera m = 10.
Proof.
  intros m [c [Hc He]]. unfold select_carrera in Hc. apply filter_In in Hc.
  destruct Hc as [Hc Hid]. apply Z.eqb_eq in Hid. rewrite <- Hid.
  cbn in Hc. destruct Hc as [Hc|[Hc|[]]]; subst c; [reflexivity|discriminate He].
Qed.

(** C1 as stated fails.  Career 11 of the example store is inactive; its
    subjects 101 and 103, the schedule slot 1000 of subject 101 and the
    prerequisite edge 5000 of subject 103 are active.  Each of the seven
    reads, asked by the Rector, answers 200 with a row whose owning
    career is not active. *)
Lemma lectura_de_carrera_inactiva_counterexample :
  Forall (fun l =>
    exists r, serve (leer l Ejemplo.user_rectora) Ejemplo.entorno Ejemplo.db
              = (Some r, Ejemplo.db)
              /\ status r = 200%nat
              /\ ~ filas_de_carrera_activa Ejemplo.db (body r))
    Ejemplo.lecturas_carrera_11.
Proof.
  unfold Ejemplo.lecturas_carrera_11.
  repeat constructor;
    (eexists; split; [vm_compute; reflexivity|]; split; [reflexivity|]);
    cbn [body filas_de_carrera_activa]; intros H.
  - specialize (H Ejemplo.prehistoria). cbn in H.
    assert (Hc : carrera_activa Ejemplo.prehistoria Ejemplo.db) by (apply H; auto).
    apply carrera_activa_ejemplo in Hc. discriminate Hc.
  - apply carrera_activa_ejemplo in H. discriminate H.
  - match type of H with
    | forall x, In x [?row] -> _ => specialize (H row (or_introl eq_refl))
    end.
    apply carrera_activa_ejemplo in H. discriminate H.
  - specialize (H Ejemplo.prehistoria). cbn in H.
    assert (Hc : carrera_activa Ejemplo.prehistoria Ejemplo.db) by (apply H; auto).
    apply carrera_activa_ejemplo in Hc. discriminate Hc.
  - match type of H with
    | forall x, In x [?row] -> _ => specialize (H row (or_introl eq_refl))
    end.
    apply carrera_activa_ejemplo in H. discriminate H.
  - apply carrera_activa_ejemplo in H. discriminate H.
  - specialize (H Ejemplo.lunes_prehistoria Ejemplo.prehistoria). cbn in H.
    assert (Hc : carrera_activa Ejemplo.prehistoria Ejemplo.db) by (apply H; auto).
    apply carrera_activa_ejemplo in Hc. discriminate Hc.
Qed.

Lemma select_materias_activas : forall le ids q db m,
  In m (select_materias le ids q db) -> mat_estado m = "activa".
Proof.
  intros le ids q db m H. unfold select_materias in H.
  apply In_order_by in H. apply filter_In in H. destruct H as [_ H].
  apply andb_true_iff in H. apply String.eqb_eq, H.
Qed.

Lemma select_materia_activa_activas : forall id ids db m,
  In m (select_materia_activa id ids db) -> mat_estado m = "activa".
Proof.
  intros id ids db m H. unfold select_materia_activa in H.
  apply filter_In in H. destruct H as [_ H].
  apply andb_true_iff in H. destruct H as [H _].
  apply andb_true_iff in H. apply String.eqb_eq, H.
Qed.

Lemma select_horarios_por_materia_activas : forall idm co db x,
  In x (select_horarios_por_materia idm co db) -> hor_estado (fst (fst x)) = "activa".
Proof.
  intros idm co db x H. unfold select_horarios_por_materia in H.
  apply In_order_by in H.
  apply (In_flat_map_if3 _ _ _ (fun h m c =>
           (hor_id_materia h =? id_materia m)%Z
           && (mat_id_carrera m =? id_carrera c)%Z
           && (hor_id_materia h =? idm)%Z
           && (hor_estado h =? "activa")
           && match co with
              | Some id_adm => en (id_carrera c) (carreras_de id_adm db)
              | None => true
              end)) in H.
  cbn in H. apply andb_true_iff in H. destruct H as [H _].
  apply andb_true_iff in H. apply String.eqb_eq, H.
Qed.

Lemma select_correlatividades_activas : forall le idp co db x,
  In x (select_correlatividades_por_materia le idp co db) ->
  cor_estado (fst (fst x)) = "activa".
Proof.
  intros le idp co db x H. unfold select_correlatividades_por_materia in H.
  apply In_order_by in H.
  apply (In_flat_map_if3 _ _ _ (fun c mp mr =>
           (id_materia_principal c =? id_materia mp)%Z
           && (id_materia_requisito c =? id_materia mr)%Z
           && (id_materia_principal c =? idp)%Z
           && (cor_estado c =? "activa")
           && match co with
              | Some id_adm => en (mat_id_carrera mp) (carreras_de id_adm db)
              | None => true
              end)) in H.
  cbn in H. apply andb_true_iff in H. destruct H as [H _].
  apply andb_true_iff in H. apply String.eqb_eq, H.
Qed.

Lemma select_correlatividad_activa_activas : forall id db x,
  In x (select_correlatividad_activa id db) -> cor_estado (fst x) = "activa".
Proof.
  intros id db x H. unfold select_correlatividad_activa in H.
  apply (In_flat_map_if2 _ _ (fun c mp =>
           (id_materia_principal c =? id_materia mp)%Z
           && (id_correlatividad c =? id)%Z
           && (cor_estado c =? "activa"))) in H.
  cbn in H. apply andb_true_iff in H. apply String.eqb_eq, H.
Qed.

Lemma select_horario_activo_activas : forall id db h,
  In h (select_horario_activo id db) -> hor_estado h = "activa".
Proof.
  intros id db h H. unfold select_horario_activo in H.
  apply filter_In in H. destruct H as [_ H].
  apply andb_true_iff in H. apply String.eqb_eq, H.
Qed.

Lemma select_horarios_publicos_activas : forall id db h,
  In h (select_horarios_publicos id db) -> hor_estado h = "activa".
Proof.
  intros id db h H. unfold select_horarios_publicos in H.
  apply In_order_by in H. apply filter_In in H. destruct H as [_ H].
  apply andb_true_iff in H. apply String.eqb_eq, H.
Qed.

Lemma insert_by_map : forall {A B} (g : A -> B) (le : A -> A -> bool)
    (le' : B -> B -> bool) x l,
  (forall x y, le' (g x) (g y) = le x y) ->
  insert_by le' (g x) (map g l) = map g (insert_by le x l).
Proof.
  intros A B g le le' x l H. induction l as [|y l IH]; cbn; auto.
  rewrite H. destruct (le x y); cbn; [reflexivity|]. rewrite IH. reflexivity.
Qed.

Lemma order_by_map : forall {A B} (g : A -> B) (le : A -> A -> bool)
    (le' : B -> B -> bool) l,
  (forall x y, le' (g x) (g y) = le x y) ->
  order_by le' (map g l) = map g (order_by le l).
Proof.
  intros A B g le le' l H. induction l as [|x l IH]; cbn; auto.
  rewrite IH. apply insert_by_map. exact H.
Qed.

Lemma flat_map_map_if : forall {A C} (gc : A -> A) (g : C -> C)
    (p : A -> bool) (k : A -> C) l,
  (forall c, p (gc c) = p c) ->
  (forall c, k (gc c) = g (k c)) ->
  flat_map (fun c => if p c then [k c] else []) (map gc l)
  = map g (flat_map (fun c => if p c then [k c] else []) l).
Proof.
  intros A C gc g p k l Hp Hk. induction l as [|c l IH]; cbn; auto.
  rewrite Hp, IH. destruct (p c); cbn; [rewrite Hk|]; reflexivity.
Qed.

Lemma map_flat_map : forall {A B C} (g : B -> C) (k : A -> list B) l,
  map g (flat_map k l) = flat_map (fun x => map g (k x)) l.
Proof.
  intros A B C g k l. induction l as [|x l IH]; cbn; auto.
  rewrite map_app, IH. reflexivity.
Qed.

Lemma select_horarios_con_estados : forall f idm co db,
  select_horarios_por_materia idm co (con_estados f db)
  = map (fun x : Horario * Materia * Carrera =>
           (fst (fst x), snd (fst x), con_estado f (snd x)))
        (select_horarios_por_materia idm co db).
Proof.
  intros f idm co db. unfold select_horarios_por_materia.
  rewrite <- order_by_map
    with (le' := fun x y =>
      horario_le ["Lunes"; "Martes"; "Miércoles"; "Jueves"; "Viernes"; "Sábado"]
                 (fst (fst x)) (fst (fst y))) by reflexivity.
  f_equal. cbn [horario materia carrera con_estados with_carrera].
  rewrite map_flat_map. apply flat_map_ext. intros h.
  rewrite map_flat_map. apply flat_map_ext. intros m.
  apply (flat_map_map_if (con_estado f)
           (fun x : Horario * Materia * Carrera =>
              (fst (fst x), snd (fst x), con_estado f (snd x)))
           (fun c => (hor_id_materia h =? id_materia m)%Z
                     && (mat_id_carrera m =? id_carrera c)%Z
                     && (hor_id_materia h =? idm)%Z
                     && (hor_estado h =? "activa")
                     && match co with
                        | Some id_adm => en (id_carrera c) (carreras_de id_adm db)
                        | None => true
                        end)
           (fun c => (h, m, c))); reflexivity.
Qed.

(** The reads do not consult the states of the careers: on the store
    with those states replaced at will, each read gives the same
    answer. *)
Lemma lecturas_no_consultan_carrera : forall l e user db f,
  serve (leer l user) e (con_estados f db)
  = (option_map (reetiquetar f) (fst (serve (leer l user) e db)), con_estados f db).
Proof.
  intros l e user db f. destruct l; cbn [leer].
  - unfold getMateriasAll, select_materias. run.
    repeat (destr_goal; cbn); reflexivity.
  - unfold getMateriaById, select_materia_activa. run.
    repeat (destr_goal; cbn); reflexivity.
  - unfold getHorariosPorMateria. destruct idMateria as [idm|]; [|reflexivity].
    run.
    repeat (destr_goal; cbn [durable work intx tick fst snd option_map]);
      rewrite ?select_horarios_con_estados; reflexivity.
  - unfold getHorarioById, select_horario_activo. run.
    repeat (destr_goal; cbn); reflexivity.
  - unfold getCorrelatividadesPorMateria, select_correlatividades_por_materia. run.
    repeat (destr_goal; cbn); reflexivity.
  - unfold getCorrelatividadById, checkMateriaAccess. run.
    destruct (faults e 0%nat); cbn [durable work intx tick fst snd option_map];
      [reflexivity|].
    change (select_correlatividad_activa id (con_estados f db))
      with (select_correlatividad_activa id db).
    destruct (select_correlatividad_activa id db) as [|x xs];
      cbn [durable work intx tick fst snd option_map]; [reflexivity|].
    destruct (user_rol user =? "Coordinador");
      cbn [durable work intx tick fst snd option_map].
    + destruct (faults e 1%nat); cbn [durable work intx tick fst snd option_map];
        [reflexivity|].
      change (checkMateriaAccess_rows (id_materia (snd x)) (user_id user)
                (con_estados f db))
        with (checkMateriaAccess_rows (id_materia (snd x)) (user_id user) db).
      destruct (checkMateriaAccess_rows (id_materia (snd x)) (user_id user) db);
        reflexivity.
    + destruct (negb (user_rol user =? "Rector")); reflexivity.
  - unfold getHorariosByMateria, select_horarios_publicos. run.
    repeat (destr_goal; cbn); reflexivity.
Qed.

(** C1 amended.  Each of the seven read operations leaves the store as
    it is; every subject, schedule slot or prerequisite edge in its
    answer is itself in state 'activa'; and the answer does not depend
    on the state of any career: on the store with the states of the
    careers replaced at will, the same request gets the same rows. *)
Theorem lecturas_filtran_estado_propio : forall l e user db r db',
  serve (leer l user) e db = (Some r, db') ->
  db' = db
  /\ filas_activas (body r)
  /\ forall f, serve (leer l user) e (con_estados f db)
               = (Some (reetiquetar f r), con_estados f db).
Proof.
  intros l e user db r db' H. split; [|split].
  - destruct l; cbn [leer] in H.
    + unfold getMateriasAll in H. pathsq H; reflexivity.
    + unfold getMateriaById in H. pathsq H; reflexivity.
    + unfold getHorariosPorMateria in H. pathsq H; reflexivity.
    + unfold getHorarioById in H. pathsq H; reflexivity.
    + unfold getCorrelatividadesPorMateria in H. pathsq H; reflexivity.
    + unfold getCorrelatividadById, checkMateriaAccess in H. pathsq H; reflexivity.
    + unfold getHorariosByMateria in H. pathsq H; reflexivity.
  - destruct l; cbn [leer] in H.
    + unfold getMateriasAll in H. pathsq H; auto;
        try (intros m Hm; eapply select_materias_activas; eassumption);
        try (intros m []).
    + unfold getMateriaById in H. pathsq H; auto.
      all: eapply select_materia_activa_activas;
        match goal with Hs : _ = ?m :: _ |- _ => rewrite Hs; left; reflexivity end.
    + unfold getHorariosPorMateria in H. pathsq H; auto;
        try (intros x Hx; eapply select_horarios_por_materia_activas; eassumption);
        try (intros x []).
    + unfold getHorarioById in H. pathsq H; auto.
      eapply select_horario_activo_activas;
        match goal with Hs : _ = ?m :: _ |- _ => rewrite Hs; left; reflexivity end.
    + unfold getCorrelatividadesPorMateria in H. pathsq H; auto;
        try (intros x Hx; eapply select_correlatividades_activas; eassumption).
    + unfold getCorrelatividadById, checkMateriaAccess in H. pathsq H; auto.
      all: eapply select_correlatividad_activa_activas;
        match goal with Hs : _ = ?m :: _ |- _ => rewrite Hs; left; reflexivity end.
    + unfold getHorariosByMateria in H. pathsq H; auto;
        try (intros x Hx; eapply select_horarios_publicos_activas; eassumption).
  - intros f. rewrite lecturas_no_consultan_carrera, H. reflexivity.
Qed.

(** The Rector lists the subjects of the example store. *)
Lemma lecturas_filtran_estado_propio_witness :
  filas_activas
    (JMaterias [Ejemplo.algebra; Ejemplo.prehistoria; Ejemplo.arqueologia;
                Ejemplo.programacion]).
Proof.
  refine (proj1 (proj2 (lecturas_filtran_estado_propio (LMateriasAll None)
                   Ejemplo.entorno Ejemplo.user_rectora Ejemplo.db
                   (mkResponse 200
                      (JMaterias [Ejemplo.algebra; Ejemplo.prehistoria;
                                  Ejemplo.arqueologia; Ejemplo.programacion]))
                   Ejemplo.db _))).
  vm_compute. reflexivity.
Defined.

(* ----------------------------------------------------------------- *)
(** *** C2: a Coordinador that names role or state is denied as a whole *)

(** C2 as stated fails: the Coordinador 2 asks for a new name together
    with the role of Rector; the request is answered 403, the store is
    what it was, and the requested name is not the name of the row. *)
Lemma coordinador_campos_aplicados_counterexample :
  serve (updateUserByAdmin Ejemplo.user_coordinador (canonico 2) Ejemplo.cambio_de_rol)
        Ejemplo.entorno Ejemplo.db
  = (Some rol_o_estado_denegado, Ejemplo.db)
  /\ ~ campos_personales_aplicados Ejemplo.cambio_de_rol 2
        (snd (serve (updateUserByAdmin Ejemplo.user_coordinador (canonico 2)
                       Ejemplo.cambio_de_rol)
                    Ejemplo.entorno Ejemplo.db)).
Proof.
  assert (H : serve (updateUserByAdmin Ejemplo.user_coordinador (canonico 2)
                       Ejemplo.cambio_de_rol)
                    Ejemplo.entorno Ejemplo.db
              = (Some rol_o_estado_denegado, Ejemplo.db))
    by (vm_compute; reflexivity).
  split; [exact H|].
  rewrite H. cbn [snd]. intros Hc.
  destruct (Hc Ejemplo.coordinador) as [Hn _].
  - cbn. auto.
  - specialize (Hn _ eq_refl). discriminate Hn.
Qed.

(** C2 amended.  When a Coordinador sends an update whose body names
    [rol] or [estado], no field of any row is changed, whatever else the
    body asks for and whichever storage call fails; when the target row
    exists and the storage answers, the response is a 403, and when the
    path names the Coordinador's own identifier as [String] writes it,
    it is the 403 that says a Coordinador may not change role or
    state. *)
Theorem coordinador_rol_o_estado_denegado : forall e user id b db,
  user_rol user = "Coordinador" ->
  (uu_rol b <> None \/ uu_estado b <> None) ->
  snd (serve (updateUserByAdmin user id b) e db) = db
  /\ (forall cur rest,
        select_administrador (numero id) db = cur :: rest ->
        (forall k, (k < 3)%nat -> faults e k = None) ->
        exists m,
          fst (serve (updateUserByAdmin user id b) e db)
          = Some (mkResponse 403 (JMessage m))
          /\ (texto id = JS.String (user_id user) ->
              mkResponse 403 (JMessage m) = rol_o_estado_denegado)).
Proof.
  intros e user id b db Hr Hb.
  assert (Hdef : (JS.defined (uu_rol b) || JS.defined (uu_estado b)) = true).
  { destruct (uu_rol b), (uu_estado b); cbn; try reflexivity.
    destruct Hb as [Hb|Hb]; exfalso; apply Hb; reflexivity. }
  split.
  - unfold updateUserByAdmin. rewrite Hr, Hdef. run.
    fault 0%nat. { destruct s; reflexivity. }
    fault 1%nat. { destruct s; reflexivity. }
    fault 2%nat. { destruct s; reflexivity. }
    destruct (select_administrador (numero id) db) as [|cur rest]; cbn;
      [reflexivity|].
    destruct (negb (mismo_texto (user_id user) id)); reflexivity.
  - intros cur rest Hsel Hok.
    unfold updateUserByAdmin. rewrite Hr, Hdef. run.
    rewrite (Hok 0%nat) by lia. cbn.
    rewrite (Hok 1%nat) by lia. cbn.
    rewrite (Hok 2%nat) by lia. cbn.
    rewrite Hsel. cbn.
    destruct (mismo_texto (user_id user) id) eqn:E; cbn.
    + eexists. split; reflexivity.
    + eexists. split; [reflexivity|].
      intros Hid. unfold mismo_texto in E. rewrite Hid, String.eqb_refl in E.
      discriminate E.
Qed.

Lemma coordinador_rol_o_estado_denegado_witness :
  snd (serve (updateUserByAdmin Ejemplo.user_coordinador (canonico 2) Ejemplo.cambio_de_rol)
             Ejemplo.entorno Ejemplo.db) = Ejemplo.db.
Proof.
  refine (proj1 (coordinador_rol_o_estado_denegado Ejemplo.entorno
                   Ejemplo.user_coordinador (canonico 2) Ejemplo.cambio_de_rol
                   Ejemplo.db
                   _ _)).
  - reflexivity.
  - left. discriminate.
Defined.

(* ----------------------------------------------------------------- *)
(** *** C3: the own account is protected under one spelling of its identifier *)

Lemma ejecutar_update_status : forall parts id e w r w',
  ejecutar_update parts id e w = (Ok r, w') -> status r <> 403%nat.
Proof.
  intros parts id e w r w'. unfold ejecutar_update.
  destruct parts as [|p parts]; run;
    repeat (destr_goal; cbn);
    intros H; inversion H; subst; cbn; discriminate.
Qed.

Lemma aplicar_update_status : forall user id b cr ea e w r w',
  aplicar_update user id b cr ea e w = (Ok r, w') -> status r <> 403%nat.
Proof.
  intros user id b cr ea e w r w'. unfold aplicar_update. run.
  repeat (destr_goal; cbn);
    try (intros H; inversion H; subst; cbn; discriminate);
    try (intros H; apply ejecutar_update_status in H; exact H).
Qed.

(** The self-protection answer is sent only from the self-protection
    test. *)
Lemma updateUserByAdmin_auto_proteccion_only : forall e user id b db db',
  serve (updateUserByAdmin user id b) e db = (Some auto_proteccion, db') ->
  exists cur rest,
    select_administrador (numero id) db = cur :: rest
    /\ texto id = JS.String (user_id user)
    /\ (JS.or_else (uu_estado b) (adm_estado cur) = "suspendido"
        \/ JS.or_else (uu_estado b) (adm_estado cur) = "inactivo")
    /\ JS.or_else (uu_estado b) (adm_estado cur) <> adm_estado cur.
Proof.
  intros e user id b db db'. unfold updateUserByAdmin, auto_proteccion. run.
  fault 0%nat. { destruct s; discriminate. }
  fault 1%nat. { destruct s; discriminate. }
  fault 2%nat. { destruct s; discriminate. }
  destruct (select_administrador (numero id) db) as [|cur rest] eqn:Hsel; cbn.
  { discriminate. }
  destruct ((user_rol user =? "Coordinador")
            && negb (mismo_texto (user_id user) id)) eqn:HA; cbn.
  { discriminate. }
  destruct ((user_rol user =? "Coordinador")
            && (JS.defined (uu_rol b) || JS.defined (uu_estado b))) eqn:HB; cbn.
  { discriminate. }
  destruct (mismo_texto (user_id user) id
            && ((JS.or_else (uu_estado b) (adm_estado cur) =? "suspendido")
                || (JS.or_else (uu_estado b) (adm_estado cur) =? "inactivo"))
            && negb (JS.or_else (uu_estado b) (adm_estado cur) =? adm_estado cur)) eqn:HC; cbn.
  { intros _. exists cur, rest.
    apply andb_true_iff in HC. destruct HC as [HC1 HC3].
    apply andb_true_iff in HC1. destruct HC1 as [HC1 HC2].
    apply String.eqb_eq in HC1. symmetry in HC1. apply orb_true_iff in HC2.
    apply negb_true_iff in HC3. apply String.eqb_neq in HC3.
    rewrite !String.eqb_eq in HC2. auto. }
  match goal with |- context [aplicar_update ?u ?i ?bb ?c ?ea ?ee ?ww] =>
    destruct (aplicar_update u i bb c ea ee ww) as [[r|err] w1] eqn:Hap end.
  - intros H. inversion H; subst. apply aplicar_update_status in Hap.
    exfalso. apply Hap. reflexivity.
  - destruct err; discriminate.
Qed.

(** The self-protection as far as it goes.  An administrator updates
    the own, existing row through the path that names the own
    identifier as [String] writes it, and the body names the state [s].
    If [s] is 'suspendido' or 'inactivo' and is not the current state,
    and the storage answers the first three calls, the response is a
    403 and the store is what it was, whatever the role.  If [s] is the
    current state, the response is never the self-protection denial,
    whatever the role and whichever storage call fails. *)
Lemma updateUserByAdmin_self_protection : forall e user id b db cur rest s,
  texto id = JS.String (user_id user) ->
  select_administrador (numero id) db = cur :: rest ->
  uu_estado b = Some s ->
  ((s = "suspendido" \/ s = "inactivo") -> s <> adm_estado cur ->
   (forall k, (k < 3)%nat -> faults e k = None) ->
   exists m, serve (updateUserByAdmin user id b) e db
             = (Some (mkResponse 403 (JMessage m)), db))
  /\ (s = adm_estado cur ->
      fst (serve (updateUserByAdmin user id b) e db) <> Some auto_proteccion).
Proof.
  intros e user id b db cur rest s Htx Hsel Hs.
  assert (Hmt : mismo_texto (user_id user) id = true).
  { unfold mismo_texto. rewrite Htx. apply String.eqb_refl. }
  split.
  - intros Hsi Hne Hok.
    assert (Hor : JS.or_else (uu_estado b) (adm_estado cur) = s).
    { rewrite Hs. cbn. destruct Hsi; subst s; reflexivity. }
    unfold updateUserByAdmin. run.
    rewrite (Hok 0%nat) by lia. cbn.
    rewrite (Hok 1%nat) by lia. cbn.
    rewrite (Hok 2%nat) by lia. cbn.
    rewrite Hsel. cbn.
    rewrite Hor, Hmt, andb_false_r. cbn [negb andb].
    rewrite Hs. cbn [JS.defined]. rewrite orb_true_r, andb_true_r.
    assert (Hsi' : ((s =? "suspendido") || (s =? "inactivo")) = true).
    { destruct Hsi; subst s; reflexivity. }
    apply String.eqb_neq in Hne. rewrite Hsi', Hne.
    destruct (user_rol user =? "Coordinador") eqn:Hr; cbn; eexists; reflexivity.
  - intros Heq Hres.
    destruct (serve (updateUserByAdmin user id b) e db) as [r db'] eqn:H.
    cbn in Hres. subst r.
    apply updateUserByAdmin_auto_proteccion_only in H.
    destruct H as [cur' [rest' [Hsel' [_ [_ Hne]]]]].
    rewrite Hsel in Hsel'. inversion Hsel'; subst cur' rest'.
    apply Hne. rewrite Hs, Heq. cbn. destruct (adm_estado cur); reflexivity.
Qed.

(** The Rector asks, under the text that [String] writes, to suspend
    the own account. *)
Lemma updateUserByAdmin_self_protection_witness :
  exists m, serve (updateUserByAdmin Ejemplo.user_rectora (canonico 1)
                     Ejemplo.auto_suspension)
                  Ejemplo.entorno Ejemplo.db
            = (Some (mkResponse 403 (JMessage m)), Ejemplo.db).
Proof.
  refine (proj1 (updateUserByAdmin_self_protection Ejemplo.entorno
                   Ejemplo.user_rectora (canonico 1) Ejemplo.auto_suspension
                   Ejemplo.db Ejemplo.rectora [] "suspendido" _ _ _) _ _ _).
  - reflexivity.
  - reflexivity.
  - reflexivity.
  - left. reflexivity.
  - discriminate.
  - intros k _. reflexivity.
Defined.

(** C3 at the failing input.  The administrator 1, a Rector in state
    'activo', asks to suspend the own account.  Through the path
    [/usuarios/1] the request is denied with the 403 of the
    self-protection and the store is what it was.  Through the path
    [/usuarios/01], another text of the same identifier, the test
    [String(adminLogueadoId) === String(idAdminAEditar)] compares '1'
    with '01' and fails, the update runs, the response is a 200 and
    the own row is in state 'suspendido', with the time of the request
    and the own identifier in its audit columns. *)
Theorem updateUserByAdmin_self_suspension_by_spelling :
  serve (updateUserByAdmin Ejemplo.user_rectora (canonico 1) Ejemplo.auto_suspension)
        Ejemplo.entorno Ejemplo.db
  = (Some auto_proteccion, Ejemplo.db)
  /\ numero Ejemplo.uno_con_cero = user_id Ejemplo.user_rectora
  /\ exists db',
       serve (updateUserByAdmin Ejemplo.user_rectora Ejemplo.uno_con_cero
                Ejemplo.auto_suspension)
             Ejemplo.entorno Ejemplo.db
       = (Some (mkResponse 200 (JMessage "Administrador actualizado con éxito.")),
          db')
       /\ select_administrador 1 db'
          = [mkAdministrador 1 "rectora" None "$2b$10$x" None None "Rector"
               "suspendido" (Some (now Ejemplo.entorno)) (Some 1)].
Proof.
  split; [vm_compute; reflexivity|].
  split; [reflexivity|].
  eexists. split; vm_compute; reflexivity.
Qed.

(* ----------------------------------------------------------------- *)
(** *** C4: the soft-delete of a Coordinador is atomic *)



(** The same holds when a Coordinador is suspended or deactivated
    through [updateUserByAdmin], whose delete of the assignments and
    update run in one transaction: an answer other than 200 leaves the
    store as it was. *)
Lemma ejecutar_update_rollback : forall parts id e db wk t r w',
  ejecutar_update parts id e (mkWorld db wk true t) = (r, w') ->
  match r with
  | Ok resp => status resp = 200%nat \/ durable w' = db
  | Throw _ => durable w' = db
  end.
Proof.
  intros parts id e db wk t r w'. unfold ejecutar_update.
  destruct parts as [|p parts]; run;
    repeat (destr_goal; cbn);
    intros H; inversion H; subst; cbn; auto.
Qed.

Lemma aplicar_update_rollback : forall user id b cr ea e db wk t r w',
  aplicar_update user id b cr ea e (mkWorld db wk true t) = (r, w') ->
  match r with
  | Ok resp => status resp = 200%nat \/ durable w' = db
  | Throw _ => durable w' = db
  end.
Proof.
  intros user id b cr ea e db wk t r w'. unfold aplicar_update. run.
  repeat (destr_goal; cbn);
    try (intros H; inversion H; subst; cbn; auto; fail);
    try (intros H; apply ejecutar_update_rollback in H; exact H).
Qed.

Lemma updateUserByAdmin_all_or_nothing : forall e user id b db r db',
  serve (updateUserByAdmin user id b) e db = (Some r, db') ->
  status r <> 200%nat -> db' = db.
Proof.
  intros e user id b db r db'. unfold updateUserByAdmin. run.
  fault 0%nat. { destruct s; intros H; inversion H; reflexivity. }
  fault 1%nat. { destruct s; intros H; inversion H; reflexivity. }
  fault 2%nat. { destruct s; intros H; inversion H; reflexivity. }
  destruct (select_administrador (numero id) db) as [|cur rest] eqn:Hsel; cbn.
  { intros H; inversion H; reflexivity. }
  repeat (destr_goal; cbn); try (intros H; inversion H; reflexivity).
  all: match goal with
       | Hap : aplicar_update _ _ _ _ _ _ _ = _ |- _ =>
           apply aplicar_update_rollback in Hap; cbn in Hap
       end.
  all: intros H; inversion H; subst; cbn in *; intros Hst; try tauto; auto.
  all: destruct Hap; [contradiction|assumption].
Qed.

(* ----------------------------------------------------------------- *)
(** *** C5: updating a career replaces its assignments *)

Lemma asignaciones_reemplazo : forall id_car b db db',
  admin_carrera db' = reemplazo id_car b db ->
  asignaciones_de id_car db' = nueva_asignacion id_car b.
Proof.
  intros id_car b db db' H. unfold asignaciones_de. rewrite H. unfold reemplazo.
  rewrite filter_app, filter_delete_where. cbn [app]. unfold nueva_asignacion.
  destruct (uc_id_coordinador b) as [c|]; [|reflexivity].
  destruct (JS.truthy_num (Some c)); [|reflexivity].
  cbn. rewrite Z.eqb_refl. reflexivity.
Qed.

(** C5.  Whatever [updateCarrera] answers and whichever storage call
    fails, the store afterwards is either the store before or one in
    which the assignments of the career have been replaced: the rows of
    the career are deleted and the one row for the coordinator of the
    body is added when the body carries one.  An answer 200 comes only
    with the second case; then the career has exactly that row when a
    coordinator was supplied, none when not, and so at most one. *)
Theorem updateCarrera_replace : forall e user id_car b db r db',
  serve (updateCarrera user id_car b) e db = (Some r, db') ->
  (db' = db \/ admin_carrera db' = reemplazo id_car b db)
  /\ (status r = 200%nat ->
      admin_carrera db' = reemplazo id_car b db
      /\ asignaciones_de id_car db' = nueva_asignacion id_car b
      /\ (JS.truthy_num (uc_id_coordinador b) = false ->
          asignaciones_de id_car db' = [])
      /\ (List.length (asignaciones_de id_car db') <= 1)%nat).
Proof.
  intros e user id_car b db r db'.
  assert (Hgoal : forall r db',
    ((db' = db /\ status r <> 200%nat)
     \/ admin_carrera db' = reemplazo id_car b db) ->
    (db' = db \/ admin_carrera db' = reemplazo id_car b db)
    /\ (status r = 200%nat ->
        admin_carrera db' = reemplazo id_car b db
        /\ asignaciones_de id_car db' = nueva_asignacion id_car b
        /\ (JS.truthy_num (uc_id_coordinador b) = false ->
            asignaciones_de id_car db' = [])
        /\ (List.length (asignaciones_de id_car db') <= 1)%nat)).
  { clear. intros r db' [[H1 H2]|H].
    - split; [left; exact H1|]. intros; contradiction.
    - split; [right; exact H|]. intros _. split; [exact H|].
      pose proof (asignaciones_reemplazo _ _ _ _ H) as Ha. split; [exact Ha|].
      rewrite Ha. unfold nueva_asignacion.
      destruct (uc_id_coordinador b) as [c|]; [|cbn; split; [reflexivity|lia]].
      destruct (JS.truthy_num (Some c)); cbn; split; try lia; congruence. }
  intros H. apply Hgoal. revert H. clear Hgoal.
  unfold updateCarrera, reemplazo, nueva_asignacion.
  repeat (destr_goal; cbn); run;
  repeat (destr_goal; cbn);
  intros H; inversion H; subst; cbn;
  try (left; split; [reflexivity|discriminate]);
  try (right; reflexivity).
  all: try (right; rewrite app_nil_r; reflexivity).
Qed.

(** The Rector hands career 10 over to the administrator 3. *)
Lemma updateCarrera_replace_witness :
  asignaciones_de 10
    (snd (serve (updateCarrera Ejemplo.user_rectora 10 Ejemplo.cambio_de_coordinador)
                Ejemplo.entorno Ejemplo.db))
  = [mkAdminCarrera 3 10].
Proof.
  refine (proj1 (proj2 (proj2 (updateCarrera_replace Ejemplo.entorno
            Ejemplo.user_rectora 10 Ejemplo.cambio_de_coordinador Ejemplo.db
            (mkResponse 200 (JMessage "Carrera y asignación de Coordinador actualizadas con éxito."))
            _ _) _))).
  - vm_compute. reflexivity.
  - reflexivity.
Defined.

(* ----------------------------------------------------------------- *)
(** *** C6: a Coordinador without careers gets empty lists *)

Lemma protect_coordinador_sin_carreras : forall e id db a rest next,
  select_administrador id db = a :: rest ->
  rol a = "Coordinador" ->
  adm_estado a = "activo" ->
  select_admin_carrera_by_admin id db = [] ->
  (forall n, faults e n = None) ->
  protect (Token id) next e (mkWorld db db false 0)
  = next (mkUser id (nombre_administrador a) "Coordinador" "activo" (Some []))
         e (mkWorld db db false 2).
Proof.
  intros e id db a rest next Hsel Hrol Hest Hac Hok.
  pose proof (filter_head_true _ _ _ _ Hsel) as Hid. cbn in Hid.
  apply Z.eqb_eq in Hid.
  unfold protect, protect_lookup. run. rewrite !Hok.
  cbn [durable work intx tick fst snd]. rewrite Hsel, Hest. cbn [String.eqb negb Ascii.eqb Bool.eqb].
  rewrite Hrol. cbn [String.eqb negb Ascii.eqb Bool.eqb].
  rewrite !Hok. cbn [durable work intx tick fst snd]. rewrite Hac, Hid. reflexivity.
Qed.

(** C6.  The credential is that of an active Coordinador with no row
    in [admin_carrera], and the storage answers.  Then the four list
    routes (careers, subjects, schedule slots of a subject, prerequisite
    edges of a subject) answer 200 with the empty list, whatever the
    query, and leave the store as it is. *)
Theorem coordinador_sin_carreras_listas_vacias : forall e id db a rest,
  select_administrador id db = a :: rest ->
  rol a = "Coordinador" ->
  adm_estado a = "activo" ->
  select_admin_carrera_by_admin id db = [] ->
  (forall n, faults e n = None) ->
  serve (route_getCarreras (Token id)) e db
    = (Some (mkResponse 200 (JCarreras [])), db)
  /\ (forall q, serve (route_getMateriasAll (Token id) q) e db
                = (Some (mkResponse 200 (JMaterias [])), db))
  /\ (forall q, serve (route_getHorariosPorMateria (Token id) q) e db
                = (Some (mkResponse 200 (JHorarios [])), db))
  /\ (forall idm, serve (route_getCorrelatividadesPorMateria (Token id) idm) e db
                  = (Some (mkResponse 200 (JCorrelatividades [])), db)).
Proof.
  intros e id db a rest Hsel Hrol Hest Hac Hok.
  assert (Hcar : carreras_de id db = []).
  { unfold carreras_de. rewrite Hac. reflexivity. }
  repeat split.
  - unfold route_getCarreras, serve.
    rewrite (protect_coordinador_sin_carreras e id db a rest _ Hsel Hrol Hest Hac Hok).
    unfold admin, getCarreras. cbn [user_rol user_id String.eqb Ascii.eqb Bool.eqb orb].
    run. rewrite !Hok. cbn [durable work intx tick fst snd].
    unfold select_carreras. rewrite Hcar. cbn [en existsb].
    rewrite filter_none; [reflexivity|].
    intros x. apply andb_false_r.
  - intros q. unfold route_getMateriasAll, serve.
    rewrite (protect_coordinador_sin_carreras e id db a rest _ Hsel Hrol Hest Hac Hok).
    reflexivity.
  - intros q. unfold route_getHorariosPorMateria, serve.
    rewrite (protect_coordinador_sin_carreras e id db a rest _ Hsel Hrol Hest Hac Hok).
    unfold admin, getHorariosPorMateria.
    cbn [user_rol user_id String.eqb Ascii.eqb Bool.eqb orb].
    destruct q as [idm|]; [|reflexivity].
    run. rewrite !Hok. cbn [durable work intx tick fst snd].
    unfold select_horarios_por_materia. rewrite Hcar. cbn [en existsb].
    rewrite flat_map_none; [reflexivity|].
    intros h. apply flat_map_none. intros m. apply flat_map_none. intros c.
    rewrite andb_false_r. reflexivity.
  - intros idm. unfold route_getCorrelatividadesPorMateria, serve.
    rewrite (protect_coordinador_sin_carreras e id db a rest _ Hsel Hrol Hest Hac Hok).
    unfold admin, getCorrelatividadesPorMateria.
    cbn [user_rol user_id String.eqb Ascii.eqb Bool.eqb orb].
    run. rewrite !Hok. cbn [durable work intx tick fst snd].
    unfold select_correlatividades_por_materia. rewrite Hcar. cbn [en existsb].
    rewrite flat_map_none; [reflexivity|].
    intros h. apply flat_map_none. intros m. apply flat_map_none. intros c.
    rewrite andb_false_r. reflexivity.
Qed.

(** The Coordinador 3 of the example store has no career. *)
Lemma coordinador_sin_carreras_listas_vacias_witness :
  serve (route_getCarreras (Token 3)) Ejemplo.entorno Ejemplo.db
  = (Some (mkResponse 200 (JCarreras [])), Ejemplo.db).
Proof.
  refine (proj1 (coordinador_sin_carreras_listas_vacias Ejemplo.entorno 3 Ejemplo.db
                   Ejemplo.sin_asignar [] _ _ _ _ _)).
  - reflexivity.
  - reflexivity.
  - reflexivity.
  - reflexivity.
  - intros n. reflexivity.
Defined.

(* ----------------------------------------------------------------- *)
(** *** C7: a second soft-delete is reported and changes nothing *)

Lemma deleteMateria_twice : forall e1 e2 user id db r1 db1,
  serve (deleteMateria user id) e1 db = (Some r1, db1) ->
  status r1 = 200%nat ->
  (forall n, faults e2 n = None) ->
  serve (deleteMateria user id) e2 db1 = (Some (ya_inactiva EMateria), db1).
Proof.
  intros e1 e2 user id db r1 db1 H1 Hst Hok.
  assert (Hdb1 : exists m rest, select_materia id db = m :: rest
                  /\ db1 = snd (soft_delete_materia (now e1) (user_id user) id db)).
  { unfold deleteMateria in H1. paths H1 Hst; eauto. }
  destruct Hdb1 as [m [rest [Hsel Hdb1]]].
  pose proof (filter_head_true _ _ _ _ Hsel) as Hm. cbn in Hm.
  unfold deleteMateria. run. rewrite Hok. cbn.
  subst db1. unfold select_materia. cbn.
  rewrite filter_update_where by reflexivity.
  fold (select_materia id db). rewrite Hsel. cbn. rewrite Hm. reflexivity.
Qed.

Lemma deleteCorrelatividad_twice : forall e1 e2 user id db r1 db1,
  serve (deleteCorrelatividad user id) e1 db = (Some r1, db1) ->
  status r1 = 200%nat ->
  (forall n, faults e2 n = None) ->
  serve (deleteCorrelatividad user id) e2 db1
  = (Some (ya_inactiva ECorrelatividad), db1).
Proof.
  intros e1 e2 user id db r1 db1 H1 Hst Hok.
  assert (Hdb1 : exists m rest, select_correlatividad id db = m :: rest
                  /\ db1 = snd (soft_delete_correlatividad (now e1) (user_id user) id db)).
  { unfold deleteCorrelatividad, checkMateriaAccess in H1. paths H1 Hst; eauto. }
  destruct Hdb1 as [m [rest [Hsel Hdb1]]].
  pose proof (filter_head_true _ _ _ _ Hsel) as Hm. cbn in Hm.
  unfold deleteCorrelatividad. run. rewrite Hok. cbn.
  subst db1. unfold select_correlatividad. cbn.
  rewrite filter_update_where by reflexivity.
  fold (select_correlatividad id db). rewrite Hsel. cbn. rewrite Hm. reflexivity.
Qed.

Lemma deleteHorario_twice : forall e1 e2 user id db r1 db1,
  clave_primaria EHorario id db ->
  serve (deleteHorario user id) e1 db = (Some r1, db1) ->
  status r1 = 200%nat ->
  (forall n, faults e2 n = None) ->
  serve (deleteHorario user id) e2 db1 = (Some (ya_inactiva EHorario), db1).
Proof.
  intros e1 e2 user id db r1 db1 Hpk H1 Hst Hok.
  assert (Hdb1 : exists m rest, select_horario id db = m :: rest
                  /\ Nat.eqb (count_where (fun h => (id_horario h =? id)%Z
                                                    && (hor_estado h =? "activa"))
                                          (horario db)) 0 = false
                  /\ db1 = snd (soft_delete_horario (now e1) (user_id user) id db)).
  { unfold deleteHorario, checkMateriaAccess in H1. paths H1 Hst; eauto 6. }
  destruct Hdb1 as [m [rest [Hsel [Hcnt Hdb1]]]].
  pose proof (filter_head_true _ _ _ _ Hsel) as Hm. cbn in Hm.
  unfold clave_primaria, estados in Hpk. rewrite Hsel in Hpk. cbn in Hpk.
  destruct rest; [|cbn in Hpk; lia].
  assert (Hact : (hor_estado m =? "activa") = true).
  { unfold count_where in Hcnt.
    assert (Hf : filter (fun h => (id_horario h =? id)%Z && (hor_estado h =? "activa"))
                        (horario db)
                 = filter (fun h => hor_estado h =? "activa") (select_horario id db)).
    { unfold select_horario. clear. induction (horario db) as [|x l IH]; cbn; auto.
      destruct (id_horario x =? id)%Z; cbn; [destruct (hor_estado x =? "activa")|];
        rewrite IH; reflexivity. }
    rewrite Hf, Hsel in Hcnt. cbn in Hcnt.
    destruct (hor_estado m =? "activa"); [reflexivity|discriminate]. }
  unfold deleteHorario. run. rewrite Hok. cbn.
  subst db1. unfold select_horario. cbn.
  rewrite filter_update_where by reflexivity.
  fold (select_horario id db). rewrite Hsel. cbn. rewrite Hm, Hact. reflexivity.
Qed.

Lemma deleteUserByAdmin_twice : forall e1 e2 user id db r1 db1,
  serve (deleteUserByAdmin user id) e1 db = (Some r1, db1) ->
  status r1 = 200%nat ->
  (forall n, faults e2 n = None) ->
  serve (deleteUserByAdmin user id) e2 db1 = (Some (ya_inactiva EAdministrador), db1).
Proof.
  intros e1 e2 user id db r1 db1 H1 Hst Hok.
  unfold deleteUserByAdmin in *.
  destruct (user_id user =? 0)%Z; [inversion H1; subst; discriminate|].
  destruct (mismo_texto (user_id user) id); [inversion H1; subst; discriminate|].
  assert (Hdb1 : exists m rest, select_administrador (numero id) db = m :: rest
                  /\ (db1 = snd (soft_delete_administrador (now e1) (user_id user)
                                   (numero id) db)
                      \/ db1 = snd (soft_delete_administrador (now e1) (user_id user)
                                      (numero id)
                                      (snd (delete_admin_carrera_by_admin (numero id)
                                              db))))).
  { paths H1 Hst; do 2 eexists; (split; [reflexivity|]);
      first [left; reflexivity | right; reflexivity]. }
  destruct Hdb1 as [m [rest [Hsel Hdb1]]].
  pose proof (filter_head_true _ _ _ _ Hsel) as Hm. cbn in Hm.
  run. rewrite !Hok. cbn.
  destruct Hdb1; subst db1;
    unfold select_administrador, soft_delete_administrador, update_administrador,
      delete_admin_carrera_by_admin; cbn;
    rewrite ?fold_update_where;
    (rewrite filter_update_where; [|intros x; destruct x; reflexivity]);
    fold (select_administrador (numero id) db); rewrite Hsel; cbn; rewrite Hm;
    destruct m; cbn; reflexivity.
Qed.

Lemma deleteCarrera_twice : forall e1 e2 user id db r1 db1,
  serve (deleteCarrera user id) e1 db = (Some r1, db1) ->
  status r1 = 200%nat ->
  (forall n, faults e2 n = None) ->
  serve (deleteCarrera user id) e2 db1 = (Some (ya_inactiva ECarrera), db1).
Proof.
  intros e1 e2 user id db r1 db1 H1 Hst Hok.
  unfold deleteCarrera in *.
  destruct (negb (user_rol user =? "Rector")); [inversion H1; subst; discriminate|].
  assert (Hdb1 : Nat.eqb (count_where (fun c => (id_carrera c =? id)%Z
                                                && negb (car_estado c =? "inactiva"))
                                      (carrera db)) 0 = false
                 /\ db1 = snd (delete_admin_carrera_by_carrera id
                            (snd (soft_delete_carrera (now e1) (user_id user) id db)))).
  { paths H1 Hst. split; reflexivity. }
  destruct Hdb1 as [Hcnt Hdb1].
  run. rewrite !Hok. cbn.
  subst db1. cbn.
  rewrite filter_update_where_nil.
  2:{ intros x Hx. apply andb_true_iff in Hx. cbn. rewrite (proj1 Hx). reflexivity. }
  cbn. rewrite !Hok. cbn.
  unfold select_carrera. cbn.
  rewrite filter_update_where by reflexivity.
  destruct (filter (fun c => (id_carrera c =? id)%Z) (carrera db)) as [|c l] eqn:Hf.
  - exfalso. unfold count_where in Hcnt.
    assert (Hnil : filter (fun c => (id_carrera c =? id)%Z
                                   && negb (car_estado c =? "inactiva")) (carrera db) = []).
    { revert Hf. clear. induction (carrera db) as [|x l IH]; cbn; auto.
      destruct (id_carrera x =? id)%Z; cbn; [discriminate|]. exact IH. }
    rewrite Hnil in Hcnt. discriminate.
  - cbn. reflexivity.
Qed.

(** C7.  For each of the five entity types, on a store in which the
    identifier is a primary key: if a soft-delete answers 200, the same
    request repeated on the resulting store, with the storage answering,
    is answered with the 'already inactive' error of that type and
    leaves the store untouched, so the audit fields keep the values of
    the first call; that answer is a 4xx and is not what the operation
    answers when no row has the identifier, which is the 'not found'
    answer of the type; and the first call does answer 200 when the
    Rector deletes an active entity (an administrator other than the
    one who asks). *)
Theorem soft_delete_twice : forall k user id db e1 e2,
  clave_primaria k (numero id) db ->
  (forall n, faults e2 n = None) ->
  (forall r1 db1,
      serve (soft_delete k user id) e1 db = (Some r1, db1) ->
      status r1 = 200%nat ->
      serve (soft_delete k user id) e2 db1 = (Some (ya_inactiva k), db1))
  /\ (user_rol user = "Rector" -> user_id user <> 0 ->
      (k = EAdministrador -> texto id <> JS.String (user_id user)) ->
      estados k (numero id) db = [] ->
      serve (soft_delete k user id) e2 db = (Some (no_encontrada k), db))
  /\ ya_inactiva k <> no_encontrada k
  /\ (400 <= status (ya_inactiva k) < 500)%nat
  /\ (user_rol user = "Rector" -> user_id user <> 0 ->
      (k = EAdministrador -> texto id <> JS.String (user_id user)) ->
      vigente k (numero id) db -> (forall n, faults e1 n = None) ->
      exists r1 db1, serve (soft_delete k user id) e1 db = (Some r1, db1)
                     /\ status r1 = 200%nat).
Proof.
  intros k user id db e1 e2 Hpk Hok. split; [|split; [|split; [|split]]].
  - intros r1 db1 H1 Hst. destruct k; cbn [soft_delete] in *.
    + eapply deleteUserByAdmin_twice; eauto.
    + eapply deleteCarrera_twice; eauto.
    + eapply deleteMateria_twice; eauto.
    + eapply deleteHorario_twice; eauto.
    + eapply deleteCorrelatividad_twice; eauto.
  - intros Hr Hu Hid Hno. apply Z.eqb_neq in Hu.
    destruct k; cbn [soft_delete estados no_encontrada] in *.
    + specialize (Hid eq_refl).
      assert (Hmt : mismo_texto (user_id user) id = false).
      { unfold mismo_texto. apply String.eqb_neq. congruence. }
      apply map_eq_nil in Hno.
      unfold deleteUserByAdmin. rewrite Hu, Hmt. run. rewrite !Hok. cbn.
      rewrite Hno. reflexivity.
    + apply map_eq_nil in Hno.
      assert (Hnil : filter (fun c => (id_carrera c =? numero id)%Z
                                     && negb (car_estado c =? "inactiva"))
                            (carrera db) = []).
      { unfold select_carrera in Hno. revert Hno. clear.
        induction (carrera db) as [|x l IH]; cbn; auto.
        destruct (id_carrera x =? numero id)%Z; cbn; [discriminate|]. exact IH. }
      unfold deleteCarrera. rewrite Hr. cbn [String.eqb Ascii.eqb Bool.eqb negb].
      run. rewrite !Hok.
      cbn [durable work intx tick fst snd soft_delete_carrera].
      unfold count_where. rewrite Hnil. cbn. rewrite !Hok. cbn.
      rewrite Hno. reflexivity.
    + apply map_eq_nil in Hno.
      unfold deleteMateria. run. rewrite !Hok. cbn.
      rewrite Hno. reflexivity.
    + apply map_eq_nil in Hno.
      unfold deleteHorario. run. rewrite !Hok. cbn.
      rewrite Hno. reflexivity.
    + apply map_eq_nil in Hno.
      unfold deleteCorrelatividad. run. rewrite !Hok. cbn.
      rewrite Hno. reflexivity.
  - destruct k; discriminate.
  - destruct k; cbn; lia.
  - intros Hr Hu Hid Hv Hok1. apply Z.eqb_neq in Hu.
    unfold vigente in Hv.
    destruct k; cbn [soft_delete estados etiqueta_activa] in *.
    + specialize (Hid eq_refl).
      assert (Hmt : mismo_texto (user_id user) id = false).
      { unfold mismo_texto. apply String.eqb_neq. congruence. }
      unfold deleteUserByAdmin. rewrite Hu, Hmt.
      destruct (select_administrador (numero id) db) as [|a [|a' l]] eqn:Hsel;
        try discriminate.
      inversion Hv as [Ha].
      assert (Hcnt : Nat.eqb (List.length (filter (fun a0 => id_administrador a0 =? numero id)%Z
                                     (administrador db))) 0 = false).
      { fold (select_administrador (numero id) db). rewrite Hsel. reflexivity. }
      run. rewrite !Hok1. cbn. rewrite Hsel, Ha. cbn.
      repeat (destr_goal; cbn; rewrite ?Hok1 in *); eauto;
        try discriminate;
        unfold count_where in *; cbn in *; congruence.
    + unfold deleteCarrera. rewrite Hr.
      destruct (select_carrera (numero id) db) as [|a [|a' l]] eqn:Hsel; try discriminate.
      inversion Hv as [Ha].
      assert (Hcnt : Nat.eqb (count_where (fun c => (id_carrera c =? numero id)%Z
                                           && negb (car_estado c =? "inactiva"))
                                          (carrera db)) 0 = false).
      { unfold count_where.
        assert (Hf : filter (fun c => (id_carrera c =? numero id)%Z
                                   && negb (car_estado c =? "inactiva")) (carrera db)
                   = filter (fun c => negb (car_estado c =? "inactiva")) (select_carrera (numero id) db)).
        { unfold select_carrera. clear. induction (carrera db) as [|x l IH]; cbn; auto.
          destruct (id_carrera x =? numero id)%Z; cbn;
            [destruct (negb (car_estado x =? "inactiva"))|]; rewrite IH; reflexivity. }
        rewrite Hf, Hsel. cbn. rewrite Ha. reflexivity. }
      run. cbn. rewrite !Hok1. cbn.
      repeat (destr_goal; cbn; rewrite ?Hok1 in *); eauto;
        try discriminate;
        unfold count_where in *; cbn in *; congruence.
    + unfold deleteMateria. rewrite Hr.
      destruct (select_materia (numero id) db) as [|a [|a' l]] eqn:Hsel; try discriminate.
      inversion Hv as [Ha].
      assert (Hcnt : Nat.eqb (count_where (fun m => (id_materia m =? numero id)%Z)
                                          (materia db)) 0 = false).
      { unfold count_where. fold (select_materia (numero id) db). rewrite Hsel. reflexivity. }
      run. rewrite !Hok1. cbn. rewrite Hsel, Ha. cbn.
      repeat (destr_goal; cbn; rewrite ?Hok1 in *); eauto;
        try discriminate;
        unfold count_where in *; cbn in *; congruence.
    + unfold deleteHorario. rewrite Hr.
      destruct (select_horario (numero id) db) as [|a [|a' l]] eqn:Hsel; try discriminate.
      inversion Hv as [Ha].
      assert (Hcnt : Nat.eqb (count_where (fun h => (id_horario h =? numero id)%Z
                                                    && (hor_estado h =? "activa"))
                                          (horario db)) 0 = false).
      { unfold count_where.
        assert (Hf : filter (fun h => (id_horario h =? numero id)%Z && (hor_estado h =? "activa"))
                        (horario db)
                 = filter (fun h => hor_estado h =? "activa") (select_horario (numero id) db)).
        { unfold select_horario. clear. induction (horario db) as [|x l IH]; cbn; auto.
          destruct (id_horario x =? numero id)%Z; cbn; [destruct (hor_estado x =? "activa")|];
            rewrite IH; reflexivity. }
        rewrite Hf, Hsel. cbn. rewrite Ha. reflexivity. }
      run. rewrite !Hok1. cbn. rewrite Hsel, Ha. cbn.
      repeat (destr_goal; cbn; rewrite ?Hok1 in *); eauto;
        try discriminate;
        unfold count_where in *; cbn in *; congruence.
    + unfold deleteCorrelatividad. rewrite Hr.
      destruct (select_correlatividad (numero id) db) as [|a [|a' l]] eqn:Hsel; try discriminate.
      inversion Hv as [Ha].
      assert (Hcnt : Nat.eqb (count_where (fun c => (id_correlatividad c =? numero id)%Z)
                                          (correlatividad db)) 0 = false).
      { unfold count_where. fold (select_correlatividad (numero id) db). rewrite Hsel. reflexivity. }
      run. rewrite !Hok1. cbn. rewrite Hsel, Ha. cbn.
      repeat (destr_goal; cbn; rewrite ?Hok1 in *); eauto;
        try discriminate;
        unfold count_where in *; cbn in *; congruence.
Qed.

(** The Rector gives the subject 100 a second soft-delete. *)
Lemma soft_delete_twice_witness :
  serve (soft_delete EMateria Ejemplo.user_rectora (canonico 100)) Ejemplo.entorno
        (snd (serve (soft_delete EMateria Ejemplo.user_rectora (canonico 100))
                    Ejemplo.entorno Ejemplo.db))
  = (Some (ya_inactiva EMateria),
     snd (serve (soft_delete EMateria Ejemplo.user_rectora (canonico 100))
                Ejemplo.entorno Ejemplo.db)).
Proof.
  refine (proj1 (soft_delete_twice EMateria Ejemplo.user_rectora (canonico 100)
                   Ejemplo.db
                   Ejemplo.entorno Ejemplo.entorno _ _)
                (mkResponse 200 (JMessage "Materia dada de baja (inactiva) con éxito. Se registró la fecha y el administrador de la eliminación."))
                _ _ _).
  - unfold clave_primaria. cbn. lia.
  - intros n. reflexivity.
  - vm_compute. reflexivity.
  - reflexivity.
Defined.

(* ----------------------------------------------------------------- *)
(** *** C8: the block of a year and the pages *)

Module LayoutProofs.
Import Layout.
Local Open Scope Q_scope.

Section Proofs.

Variable ln : bool -> Q -> string -> Q -> nat.
Variable lh : bool -> Q -> Q.

Lemma skipn_app_length : forall {A} (l n : list A),
  skipn (List.length l) (l ++ n) = n.
Proof. intros A l n. induction l as [|x l IH]; cbn; auto. Qed.

Lemma Qgtb_false : forall a b, a <= b -> Qgtb a b = false.
Proof.
  intros a b H. unfold Qgtb. apply negb_false_iff. apply Qle_bool_iff. exact H.
Qed.

Lemma Qgtb_true_iff : forall a b, Qgtb a b = true <-> b < a.
Proof.
  intros a b. unfold Qgtb. rewrite negb_true_iff. split.
  - intros H. apply Qnot_le_lt. intros Hle. apply Qle_bool_iff in Hle. congruence.
  - intros H. destruct (Qle_bool a b) eqn:E; [|reflexivity].
    apply Qle_bool_iff in E. exfalso. apply (Qlt_not_le _ _ H E).
Qed.

(** **** Nothing is drawn on an earlier page *)

Lemma sigue_refl : forall d, sigue d d.
Proof.
  intros d. split; [apply Nat.le_refl|]. exists []. rewrite app_nil_r.
  split; [reflexivity|]. intros pr [].
Qed.

Lemma sigue_trans : forall d1 d2 d3, sigue d1 d2 -> sigue d2 d3 -> sigue d1 d3.
Proof.
  intros d1 d2 d3 [Hp1 [n1 [Hn1 Ha1]]] [Hp2 [n2 [Hn2 Ha2]]].
  split; [eapply Nat.le_trans; eauto|]. exists (n1 ++ n2). split.
  - rewrite Hn2, Hn1, app_assoc. reflexivity.
  - intros pr Hpr. apply in_app_or in Hpr. destruct Hpr as [Hpr|Hpr]; auto.
    eapply Nat.le_trans; [exact Hp1|]. auto.
Qed.

Lemma sigue_sin_dibujo : forall d d',
  (page d <= page d')%nat -> prims d' = prims d -> sigue d d'.
Proof.
  intros d d' Hp Hn. split; [exact Hp|]. exists []. rewrite app_nil_r.
  split; [exact Hn|]. intros pr [].
Qed.

Lemma sigue_rect : forall x0 y0 w h d, sigue d (rect x0 y0 w h d).
Proof.
  intros. split; [apply Nat.le_refl|]. eexists. split; [reflexivity|].
  intros pr [Hpr|[]]. subst pr. apply Nat.le_refl.
Qed.

Lemma sigue_emitir : forall s x0 gap n k d, sigue d (emitir lh s x0 gap k n d).
Proof.
  intros s x0 gap n. induction n as [|n IH]; intros k d.
  - apply sigue_refl.
  - set (d1 := mkDoc (page d) (y d + lh (bold d) (fontSize d) + gap) (bold d)
                     (fontSize d) (prims d ++ [Text (page d) s k x0 (y d)])).
    assert (H1 : sigue d d1).
    { split; [apply Nat.le_refl|]. eexists. split; [reflexivity|].
      intros pr [Hpr|[]]. subst pr. apply Nat.le_refl. }
    destruct n as [|n]; [exact H1|].
    change (sigue d (emitir lh s x0 gap (S k) (S n)
                       (if Qgtb (y d1 + lh (bold d) (fontSize d)) (maxY)
                        then continueOnNewPage d1 else d1))).
    eapply sigue_trans; [exact H1|].
    eapply sigue_trans; [|apply IH].
    destruct (Qgtb _ _); [|apply sigue_refl].
    apply sigue_sin_dibujo; [cbn; auto|reflexivity].
Qed.

Lemma sigue_text : forall s x0 y0 w gap d, sigue d (text ln lh s x0 y0 w gap d).
Proof.
  intros. unfold text.
  eapply sigue_trans; [|apply sigue_emitir].
  destruct (_ || _); apply sigue_sin_dibujo; cbn; auto.
Qed.

Lemma sigue_set_font : forall b d, sigue d (set_font b d).
Proof. intros. apply sigue_sin_dibujo; cbn; auto. Qed.

Lemma sigue_set_fontSize : forall s d, sigue d (set_fontSize s d).
Proof. intros. apply sigue_sin_dibujo; cbn; auto. Qed.

Lemma sigue_moveDown : forall n d, sigue d (moveDown lh n d).
Proof. intros. apply sigue_sin_dibujo; cbn; auto. Qed.

Lemma sigue_measure : forall d, sigue d (measure d).
Proof. intros. apply sigue_sin_dibujo; cbn; auto. Qed.

Create HintDb paginas.
#[local] Hint Resolve sigue_refl sigue_rect sigue_text sigue_set_font
  sigue_set_fontSize sigue_moveDown sigue_measure : paginas.

Ltac seguir := repeat (eapply sigue_trans; [|solve [eauto with paginas]]);
               eauto with paginas.

Lemma sigue_drawMergedAnioHeader : forall d y0 x0 s h,
  sigue d (fst (drawMergedAnioHeader ln lh d y0 x0 s h)).
Proof. intros. unfold drawMergedAnioHeader. cbn [fst]. seguir. Qed.

Lemma sigue_drawCell : forall y0 rh ih it d x i s,
  sigue d (fst (fst (drawCell ln lh y0 rh ih it (d, x, i) s))).
Proof. intros. unfold drawCell. cbn [fst]. destruct it, ih; seguir. Qed.

Lemma sigue_fold_drawCell : forall y0 rh ih it data d x i,
  sigue d (fst (fst (fold_left (drawCell ln lh y0 rh ih it) data (d, x, i)))).
Proof.
  intros y0 rh ih it data. induction data as [|s data IH]; intros d x i.
  - apply sigue_refl.
  - cbn [fold_left].
    destruct (drawCell ln lh y0 rh ih it (d, x, i) s) as [[d1 x1] i1] eqn:E.
    eapply sigue_trans; [|apply IH].
    change d1 with (fst (fst (d1, x1, i1))). rewrite <- E. apply sigue_drawCell.
Qed.

Lemma sigue_drawTableRow : forall d y0 x0 hts data ih it,
  sigue d (fst (drawTableRow ln lh d y0 x0 hts data ih it)).
Proof.
  intros. unfold drawTableRow.
  pose proof (sigue_fold_drawCell y0 (if ih then 25 else hts) ih it data d x0 O) as H.
  destruct (fold_left _ data (d, x0, O)) as [[d1 x1] i1]. exact H.
Qed.

Lemma sigue_drawMateria : forall d y0 m,
  sigue d (fst (drawMateria ln lh (d, y0) m)).
Proof.
  intros. unfold drawMateria.
  eapply sigue_trans; [apply sigue_measure|apply sigue_drawTableRow].
Qed.

Lemma sigue_fold_drawMateria : forall materias d y0,
  sigue d (fst (fold_left (drawMateria ln lh) materias (d, y0))).
Proof.
  induction materias as [|m ms IH]; intros d y0.
  - apply sigue_refl.
  - cbn [fold_left]. destruct (drawMateria ln lh (d, y0) m) as [d1 y1] eqn:E.
    eapply sigue_trans; [|apply IH].
    change d1 with (fst (d1, y1)). rewrite <- E. apply sigue_drawMateria.
Qed.

Lemma sigue_drawTotalCell : forall ty h d x i s,
  sigue d (fst (fst (drawTotalCell ln lh ty h (d, x, i) s))).
Proof. intros. unfold drawTotalCell. cbn [fst]. seguir. Qed.

Lemma sigue_fold_drawTotalCell : forall ty h data d x i,
  sigue d (fst (fst (fold_left (drawTotalCell ln lh ty h) data (d, x, i)))).
Proof.
  intros ty h data. induction data as [|s data IH]; intros d x i.
  - apply sigue_refl.
  - cbn [fold_left].
    destruct (drawTotalCell ln lh ty h (d, x, i) s) as [[d1 x1] i1] eqn:E.
    eapply sigue_trans; [|apply IH].
    change d1 with (fst (fst (d1, x1, i1))). rewrite <- E. apply sigue_drawTotalCell.
Qed.

Lemma sigue_drawTotales : forall d ty label total h,
  sigue d (drawTotales ln lh d ty label total h).
Proof.
  intros. unfold drawTotales.
  match goal with |- context [fold_left ?f ?l (?d0, ?x0, O)] =>
    pose proof (sigue_fold_drawTotalCell ty h l d0 x0 O) as H;
    destruct (fold_left f l (d0, x0, O)) as [[d1 x1] i1] end.
  cbn [fst] in H. eapply sigue_trans; [|exact H]. seguir.
Qed.

(** The block of a year is drawn from the document [inicio] on. *)
Lemma sigue_bloque_anio : forall d currentY anio materias total,
  sigue (inicio ln lh d currentY materias)
        (fst (bloque_anio ln lh (d, currentY) (anio, materias, total))).
Proof.
  intros d currentY anio materias total. unfold bloque_anio.
  fold (inicio ln lh d currentY materias).
  set (d1 := inicio ln lh d currentY materias).
  destruct (drawMergedAnioHeader ln lh (moveDown lh 0.2 d1) _ startX _ _)
    as [d3 y3] eqn:E3.
  destruct (drawTableRow ln lh d3 y3 startX headerHeight headerData true false)
    as [d4 y4] eqn:E4.
  destruct (fold_left (drawMateria ln lh) materias (d4, y4)) as [d5 y5] eqn:E5.
  cbn [fst].
  eapply sigue_trans; [|apply sigue_moveDown].
  eapply sigue_trans; [|apply sigue_drawTotales].
  eapply sigue_trans;
    [|change d5 with (fst (d5, y5)); rewrite <- E5; apply sigue_fold_drawMateria].
  eapply sigue_trans;
    [|change d4 with (fst (d4, y4)); rewrite <- E4; apply sigue_drawTableRow].
  eapply sigue_trans;
    [|change d3 with (fst (d3, y3)); rewrite <- E3; apply sigue_drawMergedAnioHeader].
  apply sigue_moveDown.
Qed.

(** **** What fits is drawn on one page *)

Lemma extiende_refl : forall lo hi d, extiende lo hi d d.
Proof.
  intros lo hi d. split; [reflexivity|]. exists []. rewrite app_nil_r.
  split; [reflexivity|]. intros pr [].
Qed.

Lemma extiende_trans : forall lo hi d1 d2 d3,
  extiende lo hi d1 d2 -> extiende lo hi d2 d3 -> extiende lo hi d1 d3.
Proof.
  intros lo hi d1 d2 d3 [Hp1 [n1 [Hn1 Ha1]]] [Hp2 [n2 [Hn2 Ha2]]].
  split; [congruence|]. exists (n1 ++ n2). split.
  - rewrite Hn2, Hn1, app_assoc. reflexivity.
  - intros pr Hpr. apply in_app_or in Hpr. destruct Hpr as [Hpr|Hpr]; auto.
    rewrite <- Hp1. auto.
Qed.

Lemma extiende_sin_dibujo : forall lo hi d d',
  page d' = page d -> prims d' = prims d -> extiende lo hi d d'.
Proof.
  intros lo hi d d' Hp Hn. split; [exact Hp|]. exists []. rewrite app_nil_r.
  split; [exact Hn|]. intros pr [].
Qed.

Lemma extiende_rect : forall lo hi x0 y0 w h d,
  lo <= y0 -> y0 + h <= hi -> extiende lo hi d (rect x0 y0 w h d).
Proof.
  intros lo hi x0 y0 w h d Hlo Hhi. split; [reflexivity|].
  eexists. split; [reflexivity|].
  intros pr [Hpr|[]]. subst pr. split; [reflexivity|]. split; assumption.
Qed.

Lemma avance_nonneg : forall n paso, 0 <= paso -> 0 <= avance n paso.
Proof.
  intros n paso Hp. induction n as [|n IH]; cbn; [apply Qle_refl|].
  lra.
Qed.

Lemma extiende_emitir : forall lo hi s x0 gap n k d,
  0 <= lh (bold d) (fontSize d) -> 0 <= gap ->
  lo <= y d ->
  y d + avance n (lh (bold d) (fontSize d) + gap) <= hi ->
  hi <= maxY ->
  extiende lo hi d (emitir lh s x0 gap k n d).
Proof.
  intros lo hi s x0 gap n. induction n as [|n IH]; intros k d HL Hg Hlo Hhi Hmax.
  - apply extiende_refl.
  - set (L := lh (bold d) (fontSize d)) in *.
    set (d1 := mkDoc (page d) (y d + L + gap) (bold d) (fontSize d)
                     (prims d ++ [Text (page d) s k x0 (y d)])).
    cbn [avance] in Hhi.
    pose proof (avance_nonneg n (L + gap)) as Hav.
    assert (H1 : extiende lo hi d d1).
    { split; [reflexivity|]. eexists. split; [reflexivity|].
      intros pr [Hpr|[]]. subst pr. split; [reflexivity|]. split; [exact Hlo|].
      lra. }
    destruct n as [|n]; [exact H1|].
    change (extiende lo hi d
              (emitir lh s x0 gap (S k) (S n)
                 (if Qgtb (y d1 + L) maxY then continueOnNewPage d1 else d1))).
    cbn [avance] in Hhi, Hav.
    pose proof (avance_nonneg n (L + gap)) as Hav'.
    rewrite Qgtb_false by (cbn [y d1]; lra).
    eapply extiende_trans; [exact H1|].
    apply IH; cbn [y bold fontSize d1]; fold L; try assumption.
    + lra.
    + cbn [avance]. lra.
Qed.

Lemma cabe_spec : forall b size gap s w off h,
  cabe ln lh b size gap s w off h = true ->
  0 <= lh b size
  /\ off + heightOfString ln lh b size s w gap <= h
  /\ off + (lh b size + gap) <= h.
Proof.
  intros b size gap s w off h H. unfold cabe in H.
  apply andb_true_iff in H. destruct H as [H0 H1].
  apply Qle_bool_iff in H0. apply Qle_bool_iff in H1.
  split; [exact H0|].
  pose proof (Q.le_max_l (heightOfString ln lh b size s w gap) (lh b size + gap)).
  pose proof (Q.le_max_r (heightOfString ln lh b size s w gap) (lh b size + gap)).
  split; lra.
Qed.

(** A text that ends within a cell that is above the bottom margin
    starts no page. *)
Lemma extiende_text : forall lo hi s x0 y0 w gap off h d top,
  cabe ln lh (bold d) (fontSize d) gap s w off h = true ->
  0 <= gap -> 0 <= off ->
  y0 == top + off ->
  lo <= top -> top + h <= hi -> hi <= maxY ->
  extiende lo hi d (text ln lh s x0 y0 w gap d).
Proof.
  intros lo hi s x0 y0 w gap off h d top Hc Hg Hoff Hy0 Hlo Hhi Hmax.
  apply cabe_spec in Hc. destruct Hc as [HL [HH H1]].
  unfold text.
  rewrite (Qgtb_false y0 maxY) by lra.
  rewrite (Qgtb_false (y0 + lh (bold d) (fontSize d)) maxY) by lra.
  cbn [orb].
  eapply extiende_trans;
    [apply (extiende_sin_dibujo lo hi d
              (mkDoc (page d) y0 (bold d) (fontSize d) (prims d))); reflexivity|].
  apply extiende_emitir; cbn [y bold fontSize]; try assumption.
  - lra.
  - unfold heightOfString in HH. lra.
Qed.

Lemma extiende_drawCell : forall lo hi y0 rh ih it d x i s,
  cabe ln lh (ih || it) 7 1 s (col i - 3 * 2) 3 rh = true ->
  lo <= y0 -> y0 + rh <= hi -> hi <= maxY ->
  extiende lo hi d (fst (fst (drawCell ln lh y0 rh ih it (d, x, i) s))).
Proof.
  intros lo hi y0 rh ih it d x i s Hc Hlo Hhi Hmax.
  unfold drawCell. cbn [fst].
  eapply extiende_trans;
    [|eapply (extiende_text lo hi _ _ _ _ _ 3 rh _ y0);
      [exact Hc|lra|lra|reflexivity|exact Hlo|exact Hhi|exact Hmax]].
  eapply extiende_trans;
    [|apply extiende_sin_dibujo; reflexivity].
  eapply extiende_trans;
    [|apply extiende_sin_dibujo; reflexivity].
  eapply extiende_trans; [|apply extiende_rect; assumption].
  destruct it; [apply extiende_rect; assumption|].
  destruct ih; [apply extiende_rect; assumption|apply extiende_refl].
Qed.

Lemma extiende_fold_drawCell : forall lo hi y0 rh ih it data d x i,
  celdas_caben ln lh (fun i => col i - 3 * 2) (ih || it) 3 rh i data = true ->
  lo <= y0 -> y0 + rh <= hi -> hi <= maxY ->
  extiende lo hi d
    (fst (fst (fold_left (drawCell ln lh y0 rh ih it) data (d, x, i)))).
Proof.
  intros lo hi y0 rh ih it data.
  induction data as [|s data IH]; intros d x i Hc Hlo Hhi Hmax.
  - apply extiende_refl.
  - cbn [celdas_caben] in Hc. apply andb_true_iff in Hc. destruct Hc as [Hc Hcs].
    cbn [fold_left].
    pose proof (extiende_drawCell lo hi y0 rh ih it d x i s Hc Hlo Hhi Hmax) as H1.
    destruct (drawCell ln lh y0 rh ih it (d, x, i) s) as [[d1 x1] i1] eqn:E.
    assert (Hi : i1 = S i).
    { unfold drawCell in E. inversion E. reflexivity. }
    subst i1. cbn [fst] in H1.
    eapply extiende_trans; [exact H1|]. apply IH; assumption.
Qed.

Lemma drawTableRow_y : forall d y0 x0 hts data ih it,
  snd (drawTableRow ln lh d y0 x0 hts data ih it) = y0 + (if ih then 25 else hts).
Proof.
  intros. unfold drawTableRow.
  destruct (fold_left _ data (d, x0, O)) as [[d1 x1] i1]. reflexivity.
Qed.

Lemma extiende_drawTableRow : forall lo hi d y0 x0 hts data ih it,
  celdas_caben ln lh (fun i => col i - 3 * 2) (ih || it) 3
               (if ih then 25 else hts) O data = true ->
  lo <= y0 -> y0 + (if ih then 25 else hts) <= hi -> hi <= maxY ->
  extiende lo hi d (fst (drawTableRow ln lh d y0 x0 hts data ih it)).
Proof.
  intros lo hi d y0 x0 hts data ih it Hc Hlo Hhi Hmax. unfold drawTableRow.
  pose proof (extiende_fold_drawCell lo hi y0 (if ih then 25 else hts) ih it data
                d x0 O Hc Hlo Hhi Hmax) as H.
  destruct (fold_left _ data (d, x0, O)) as [[d1 x1] i1]. exact H.
Qed.

Lemma rowHeight_of_nonneg : forall m, 0 <= rowHeight_of ln lh m.
Proof.
  intros m. unfold rowHeight_of.
  match goal with |- 0 <= Qmax (Qmax ?a ?b) ?c =>
    pose proof (Q.le_max_l (Qmax a b) c); pose proof (Q.le_max_l a b) end.
  unfold minRowHeight in *. lra.
Qed.

Lemma suma_alturas_nonneg : forall ms, 0 <= suma_alturas ln lh ms.
Proof.
  induction ms as [|m ms IH]; cbn; [apply Qle_refl|].
  pose proof (rowHeight_of_nonneg m). lra.
Qed.

Lemma materiasTotalHeight_of_suma : forall ms,
  materiasTotalHeight_of ln lh ms == suma_alturas ln lh ms.
Proof.
  intros ms. unfold materiasTotalHeight_of.
  assert (H : forall a, fold_left (fun acc m => acc + rowHeight_of ln lh m) ms a
                        == a + suma_alturas ln lh ms).
  { induction ms as [|m ms IH]; intros a; cbn; [ring|].
    rewrite IH. ring. }
  rewrite H. ring.
Qed.

Lemma totalSpaceNeeded_of_alto : forall ms,
  totalSpaceNeeded_of ln lh ms == alto_del_bloque ln lh ms.
Proof.
  intros ms. unfold totalSpaceNeeded_of, alto_del_bloque.
  rewrite materiasTotalHeight_of_suma. reflexivity.
Qed.

Lemma extiende_fold_drawMateria : forall lo hi ms d y0,
  forallb (fun m => celdas_caben ln lh (fun i => col i - 3 * 2) false 3
                                 (rowHeight_of ln lh m) O (rowData m)) ms = true ->
  lo <= y0 -> y0 + suma_alturas ln lh ms <= hi -> hi <= maxY ->
  extiende lo hi d (fst (fold_left (drawMateria ln lh) ms (d, y0)))
  /\ snd (fold_left (drawMateria ln lh) ms (d, y0)) == y0 + suma_alturas ln lh ms.
Proof.
  intros lo hi ms. induction ms as [|m ms IH]; intros d y0 Hc Hlo Hhi Hmax.
  - cbn. split; [apply extiende_refl|ring].
  - cbn [forallb] in Hc. apply andb_true_iff in Hc. destruct Hc as [Hc Hcs].
    cbn [suma_alturas] in Hhi |- *. cbn [fold_left].
    pose proof (rowHeight_of_nonneg m) as Hm.
    pose proof (suma_alturas_nonneg ms) as Hms.
    assert (H1 : extiende lo hi d (fst (drawMateria ln lh (d, y0) m))).
    { unfold drawMateria.
      eapply extiende_trans; [apply (extiende_sin_dibujo lo hi d (measure d));
                              reflexivity|].
      apply extiende_drawTableRow; [exact Hc|exact Hlo| |exact Hmax].
      cbn. lra. }
    assert (H2 : snd (drawMateria ln lh (d, y0) m) = y0 + rowHeight_of ln lh m).
    { unfold drawMateria. apply drawTableRow_y. }
    destruct (drawMateria ln lh (d, y0) m) as [d1 y1]. cbn [fst snd] in H1, H2.
    subst y1.
    destruct (IH d1 (y0 + rowHeight_of ln lh m) Hcs) as [I1 I2];
      [lra|lra|exact Hmax|].
    split; [eapply extiende_trans; eassumption|].
    rewrite I2. ring.
Qed.

Lemma extiende_drawTotalCell : forall lo hi ty h d x i s,
  cabe ln lh true 7 1 s (col (6 + i) - 6) 9 h = true ->
  lo <= ty -> ty + h <= hi -> hi <= maxY ->
  extiende lo hi d (fst (fst (drawTotalCell ln lh ty h (d, x, i) s))).
Proof.
  intros lo hi ty h d x i s Hc Hlo Hhi Hmax.
  unfold drawTotalCell. cbn [fst].
  eapply extiende_trans;
    [|eapply (extiende_text lo hi _ _ _ _ _ 9 h _ ty);
      [exact Hc|lra|lra|reflexivity|exact Hlo|exact Hhi|exact Hmax]].
  eapply extiende_trans; [|apply extiende_sin_dibujo; reflexivity].
  eapply extiende_trans; [|apply extiende_sin_dibujo; reflexivity].
  eapply extiende_trans; [|apply extiende_rect; assumption].
  apply extiende_rect; assumption.
Qed.

Lemma extiende_fold_drawTotalCell : forall lo hi ty h data d x i,
  celdas_caben ln lh (fun i => col (6 + i) - 6) true 9 h i data = true ->
  lo <= ty -> ty + h <= hi -> hi <= maxY ->
  extiende lo hi d
    (fst (fst (fold_left (drawTotalCell ln lh ty h) data (d, x, i)))).
Proof.
  intros lo hi ty h data.
  induction data as [|s data IH]; intros d x i Hc Hlo Hhi Hmax.
  - apply extiende_refl.
  - cbn [celdas_caben] in Hc. apply andb_true_iff in Hc. destruct Hc as [Hc Hcs].
    cbn [fold_left].
    pose proof (extiende_drawTotalCell lo hi ty h d x i s Hc Hlo Hhi Hmax) as H1.
    destruct (drawTotalCell ln lh ty h (d, x, i) s) as [[d1 x1] i1] eqn:E.
    assert (Hi : i1 = S i).
    { unfold drawTotalCell in E. inversion E. reflexivity. }
    subst i1. cbn [fst] in H1.
    eapply extiende_trans; [exact H1|]. apply IH; assumption.
Qed.

Lemma extiende_drawTotales : forall lo hi d ty label total h,
  cabe ln lh true 8 0 label (col 0 + col 1 + col 2 + col 3 + col 4 + col 5 - 6) 7 h
  = true ->
  celdas_caben ln lh (fun i => col (6 + i) - 6) true 9 h O
               [total; ""; ""; ""; ""]%string = true ->
  lo <= ty -> ty + h <= hi -> hi <= maxY ->
  extiende lo hi d (drawTotales ln lh d ty label total h).
Proof.
  intros lo hi d ty label total h Hl Hc Hlo Hhi Hmax. unfold drawTotales.
  match goal with |- context [fold_left ?f ?l (?d0, ?x0, O)] =>
    pose proof (extiende_fold_drawTotalCell lo hi ty h l d0 x0 O Hc Hlo Hhi Hmax)
      as H;
    destruct (fold_left f l (d0, x0, O)) as [[d1 x1] i1] end.
  cbn [fst] in H. eapply extiende_trans; [|exact H].
  eapply extiende_trans;
    [|eapply (extiende_text lo hi _ _ _ _ _ 7 h _ ty);
      [exact Hl|lra|lra|reflexivity|exact Hlo|exact Hhi|exact Hmax]].
  eapply extiende_trans; [|apply extiende_sin_dibujo; reflexivity].
  eapply extiende_trans; [|apply extiende_sin_dibujo; reflexivity].
  eapply extiende_trans; [|apply extiende_rect; assumption].
  apply extiende_rect; assumption.
Qed.

Lemma extiende_drawMergedAnioHeader : forall lo hi d y0 x0 s h,
  cabe ln lh true 9 1 s (TOTAL_TABLE_WIDTH - 3 * 2) 6 h = true ->
  lo <= y0 -> y0 + h <= hi -> hi <= maxY ->
  extiende lo hi d (fst (drawMergedAnioHeader ln lh d y0 x0 s h)).
Proof.
  intros lo hi d y0 x0 s h Hc Hlo Hhi Hmax.
  unfold drawMergedAnioHeader. cbn [fst].
  eapply extiende_trans;
    [|eapply (extiende_text lo hi _ _ _ _ _ 6 h _ y0);
      [exact Hc|lra|lra|ring|exact Hlo|exact Hhi|exact Hmax]].
  eapply extiende_trans; [|apply extiende_sin_dibujo; reflexivity].
  eapply extiende_trans; [|apply extiende_sin_dibujo; reflexivity].
  eapply extiende_trans; [|apply extiende_rect; assumption].
  apply extiende_rect; assumption.
Qed.

(** Whatever the block, the first thing drawn is the rectangle of the
    year header, on the page of [inicio] and a fifth of a line below
    its cursor. *)
Lemma bloque_anio_primero : forall d currentY anio materias total,
  exists resto,
    dibujado (inicio ln lh d currentY materias)
             (fst (bloque_anio ln lh (d, currentY) (anio, materias, total)))
    = Rect (page (inicio ln lh d currentY materias)) startX
           (y (inicio ln lh d currentY materias)
            + 0.2 * lh (bold (inicio ln lh d currentY materias))
                       (fontSize (inicio ln lh d currentY materias)))
           TOTAL_TABLE_WIDTH mergedAnioHeaderHeight
      :: resto.
Proof.
  intros d currentY anio materias total.
  unfold bloque_anio. fold (inicio ln lh d currentY materias).
  set (d1 := inicio ln lh d currentY materias).
  set (d2 := moveDown lh 0.2 d1).
  assert (Hprim : exists r,
            prims (fst (drawMergedAnioHeader ln lh d2 (y d2) startX (getAnioText anio)
                          mergedAnioHeaderHeight))
            = prims d1 ++ Rect (page d1) startX
                               (y d1 + 0.2 * lh (bold d1) (fontSize d1))
                               TOTAL_TABLE_WIDTH mergedAnioHeaderHeight :: r).
  { unfold drawMergedAnioHeader, text. cbn [fst].
    match goal with |- context [emitir lh ?s ?x ?g ?k ?n ?dd] =>
      destruct (sigue_emitir s x g n k dd) as [_ [n0 [Hn0 _]]]; rewrite Hn0
    end.
    destruct (_ || _); cbn [prims continueOnNewPage set_font set_fontSize rect];
      rewrite <- !app_assoc; cbn [app]; eexists; reflexivity. }
  destruct (drawMergedAnioHeader ln lh d2 (y d2) startX _ _) as [d3 y3].
  cbn [fst] in Hprim.
  pose proof (sigue_drawTableRow d3 y3 startX headerHeight headerData true false)
    as S34.
  destruct (drawTableRow ln lh d3 y3 startX headerHeight headerData true false)
    as [d4 y4].
  cbn [fst] in S34.
  pose proof (sigue_fold_drawMateria materias d4 y4) as S45.
  destruct (fold_left (drawMateria ln lh) materias (d4, y4)) as [d5 y5].
  cbn [fst] in S45 |- *.
  destruct Hprim as [r Hr].
  destruct S34 as [_ [n4 [Hn4 _]]].
  destruct S45 as [_ [n5 [Hn5 _]]].
  destruct (sigue_drawTotales d5 y5 ("TOTAL HORAS " ++ getAnioText anio)%string
              (string_of_Z total) totalRowHeight) as [_ [n6 [Hn6 _]]].
  unfold dibujado. cbn [prims moveDown].
  rewrite Hn6, Hn5, Hn4, Hr.
  rewrite <- !app_assoc. rewrite skipn_app_length. cbn [app].
  eexists. reflexivity.
Qed.

(** The block of a year that fits below the cursor of [inicio], every
    text in its cell, is drawn on the page of [inicio] between that
    cursor and the bottom margin. *)
Lemma extiende_bloque_anio : forall d currentY anio materias total,
  y (inicio ln lh d currentY materias) + alto_del_bloque ln lh materias
  <= page_height - pageBottomMargin ->
  0 <= lh (bold (inicio ln lh d currentY materias))
          (fontSize (inicio ln lh d currentY materias)) ->
  0.2 * lh (bold (inicio ln lh d currentY materias))
           (fontSize (inicio ln lh d currentY materias)) <= 22.2 ->
  textos_en_sus_celdas ln lh anio materias total = true ->
  extiende (y (inicio ln lh d currentY materias)) (page_height - pageBottomMargin)
           (inicio ln lh d currentY materias)
           (fst (bloque_anio ln lh (d, currentY) (anio, materias, total))).
Proof.
  intros d currentY anio materias total Hfit HL0 HL1 Ht.
  unfold bloque_anio. fold (inicio ln lh d currentY materias).
  set (d1 := inicio ln lh d currentY materias) in *.
  set (L := lh (bold d1) (fontSize d1)) in *.
  set (hi := page_height - pageBottomMargin) in *.
  assert (Hmax : hi <= maxY).
  { unfold hi, maxY, pageBottomMargin. apply Qle_refl. }
  unfold textos_en_sus_celdas in Ht.
  apply andb_true_iff in Ht. destruct Ht as [Ht Ht5].
  apply andb_true_iff in Ht. destruct Ht as [Ht Ht4].
  apply andb_true_iff in Ht. destruct Ht as [Ht Ht3].
  apply andb_true_iff in Ht. destruct Ht as [Ht1 Ht2].
  pose proof (suma_alturas_nonneg materias) as Hsum.
  unfold alto_del_bloque, smallSpaceHeight, mergedAnioHeaderHeight, headerHeight,
    totalRowHeight, spaceAfterBlock in Hfit.
  set (d2 := moveDown lh 0.2 d1).
  assert (Hy2 : y d2 == y d1 + 0.2 * L) by reflexivity.
  assert (E12 : extiende (y d1) hi d1 d2)
    by (apply extiende_sin_dibujo; reflexivity).
  pose proof (extiende_drawMergedAnioHeader (y d1) hi d2 (y d2) startX
                (getAnioText anio) mergedAnioHeaderHeight) as E23.
  assert (Hy3 : snd (drawMergedAnioHeader ln lh d2 (y d2) startX (getAnioText anio)
                       mergedAnioHeaderHeight) = y d2 + mergedAnioHeaderHeight)
    by reflexivity.
  destruct (drawMergedAnioHeader ln lh d2 (y d2) startX _ _) as [d3 y3].
  cbn [fst snd] in E23, Hy3. subst y3.
  pose proof (extiende_drawTableRow (y d1) hi d3 (y d2 + mergedAnioHeaderHeight)
                startX headerHeight headerData true false) as E34.
  pose proof (drawTableRow_y d3 (y d2 + mergedAnioHeaderHeight) startX headerHeight
                headerData true false) as Hy4.
  destruct (drawTableRow ln lh d3 _ startX headerHeight headerData true false)
    as [d4 y4].
  cbn [fst snd] in E34, Hy4. subst y4.
  pose proof (extiende_fold_drawMateria (y d1) hi materias d4
                (y d2 + mergedAnioHeaderHeight + 25)) as E45.
  destruct (fold_left (drawMateria ln lh) materias (d4, _)) as [d5 y5].
  cbn [fst snd] in E45 |- *.
  unfold mergedAnioHeaderHeight in *.
  assert (E23' : extiende (y d1) hi d2 d3).
  { apply E23; [assumption|lra|lra|exact Hmax]. }
  assert (E34' : extiende (y d1) hi d3 d4).
  { apply E34; [assumption|lra|lra|exact Hmax]. }
  destruct E45 as [E45 Hy5]; [assumption|lra|lra|exact Hmax|].
  set (d6 := drawTotales ln lh d5 y5 _ _ _).
  assert (E56 : extiende (y d1) hi d5 d6).
  { unfold d6, totalRowHeight in *.
    apply extiende_drawTotales; [assumption|assumption|lra|lra|exact Hmax]. }
  assert (E67 : extiende (y d1) hi d6 (moveDown lh 1 d6))
    by (apply extiende_sin_dibujo; reflexivity).
  repeat (eapply extiende_trans; [eassumption|]). apply extiende_refl.
Qed.

(** The loop keeps [currentY] on the cursor of the document. *)
Lemma bloque_anio_cursor : forall acc grupo,
  snd (bloque_anio ln lh acc grupo) = y (fst (bloque_anio ln lh acc grupo)).
Proof.
  intros [d currentY] [[anio materias] total]. unfold bloque_anio.
  destruct (drawMergedAnioHeader ln lh _ _ startX _ _) as [d3 y3].
  destruct (drawTableRow ln lh d3 y3 startX headerHeight headerData true false)
    as [d4 y4].
  destruct (fold_left (drawMateria ln lh) materias (d4, y4)) as [d5 y5].
  reflexivity.
Qed.


End Proofs.

End LayoutProofs.


(* ----------------------------------------------------------------- *)
(** *** C9: the password policy and the operations that store a hash *)

(** A password that [validatePasswordRules] accepts meets the policy. *)
Lemma validatePasswordRules_None : forall p,
  validatePasswordRules p = None -> cumple_politica p.
Proof.
  intros p. unfold validatePasswordRules, cumple_politica.
  destruct (List.length p <? 8)%nat eqn:Hl; [discriminate|].
  destruct (existsb JS.is_upper p) eqn:Hu; [|discriminate].
  destruct (existsb JS.is_lower p) eqn:Hlo; [|discriminate].
  destruct (existsb JS.is_digit p) eqn:Hd; [|discriminate].
  cbn [negb].
  match goal with |- context [existsb ?f p] => destruct (existsb f p) eqn:Hs end;
    [|discriminate].
  intros _. apply Nat.ltb_ge in Hl.
  apply existsb_exists in Hu, Hlo, Hd, Hs.
  repeat split; auto.
  destruct Hs as [c [Hc Hn]]. exists c. split; auto.
  apply negb_true_iff in Hn.
  destruct (JS.is_lower c), (JS.is_upper c), (JS.is_digit c); cbn in *; congruence.
Qed.

(** [validatePasswordRules] rejects every password that breaks the
    policy. *)
Lemma validatePasswordRules_rejects : forall p,
  ~ cumple_politica p -> validatePasswordRules p <> None.
Proof. intros p H Hn. apply H, validatePasswordRules_None, Hn. Qed.

(** Administrator creation by the Rector answers 400 and stores
    nothing when the password breaks the policy. *)
Lemma createUserByAdmin_rejects : forall e b db,
  (forall p, cu_contraseña b = Some p -> ~ cumple_politica p) ->
  exists r, serve (createUserByAdmin b) e db = (Some r, db) /\ status r = 400%nat.
Proof.
  intros e b db H. unfold createUserByAdmin. cbn [validateRequiredFields].
  destruct (JS.truthy (cu_nombre_administrador b)); cbn [negb];
    [|eexists; split; reflexivity].
  destruct (cu_contraseña b) as [p|] eqn:Hp; cbn [nonempty16 negb];
    [|eexists; split; reflexivity].
  destruct p as [|c p]; cbn [negb]; [eexists; split; reflexivity|].
  destruct (JS.truthy (cu_rol b)); cbn [negb]; [|eexists; split; reflexivity].
  destruct (validatePasswordRules (c :: p)) eqn:Hv.
  - eexists; split; reflexivity.
  - exfalso. apply (H _ eq_refl). apply validatePasswordRules_None, Hv.
Qed.

(** The update of an administrator stores nothing when the new
    password, trimmed, is not empty and breaks the policy. *)
Lemma updateUserByAdmin_rejects : forall e user id b db p,
  uu_newContraseña b = Some p ->
  JS.trim p <> [] ->
  ~ cumple_politica (JS.trim p) ->
  snd (serve (updateUserByAdmin user id b) e db) = db.
Proof.
  intros e user id b db p Hp Hne Hpol.
  assert (Hv : exists m, validatePasswordRules (JS.trim p) = Some m).
  { destruct (validatePasswordRules (JS.trim p)) eqn:Hv; eauto.
    exfalso. apply Hpol, validatePasswordRules_None, Hv. }
  destruct Hv as [m Hv].
  assert (Hlen : (0 <? List.length (JS.trim p))%nat = true).
  { destruct (JS.trim p); [congruence|reflexivity]. }
  unfold updateUserByAdmin, aplicar_update. rewrite Hp, Hv, Hlen. run.
  fault 0%nat. { destruct s; reflexivity. }
  fault 1%nat. { destruct s; reflexivity. }
  fault 2%nat. { destruct s; reflexivity. }
  destruct (select_administrador (numero id) db) as [|cur rest]; cbn; [reflexivity|].
  repeat (destr_goal; cbn); try reflexivity.
Qed.

(** C9 at the failing inputs.  The password 'abc' breaks the policy
    ([validatePasswordRules] names the length rule), yet
    [resetPassword] with a valid reset token of administrator 2 answers
    200 and stores its hash in the row of administrator 2, and
    [registerUser] answers 201 and stores its hash in the row of the new
    administrator 4. *)
Theorem resetPassword_registerUser_store_weak_password :
  validatePasswordRules Ejemplo.clave_debil
  = Some "La contraseña debe tener al menos 8 caracteres."
  /\ (exists db',
        serve (resetPassword Ejemplo.reset_debil) Ejemplo.entorno Ejemplo.db
        = (Some (mkResponse 200
                   (JMessage "Contraseña restablecida con éxito. Ya puedes iniciar sesión.")),
           db')
        /\ map contraseña (select_administrador 2 db')
           = [Ejemplo.bcrypt Ejemplo.clave_debil])
  /\ (exists r db',
        serve (registerUser Ejemplo.registro_debil) Ejemplo.entorno Ejemplo.db
        = (Some r, db')
        /\ status r = 201%nat
        /\ map contraseña (select_administrador 4 db')
           = [Ejemplo.bcrypt Ejemplo.clave_debil]).
Proof.
  split; [reflexivity|]. split.
  - eexists. split; vm_compute; reflexivity.
  - eexists. eexists. split; [vm_compute; reflexivity|].
    split; vm_compute; reflexivity.
Qed.

(* ----------------------------------------------------------------- *)
(** *** C10: a registration without a role creates a Rector *)

Section Registro.

(** [jwt.verify] with the session secret: the payload of a token. *)
Variable jwt_verify : string -> option (Z * string).

(** C10.  [registerUser] with a name, a password and no [rol], when the
    insert succeeds, answers 201 with the role 'Rector' and a token; the
    store gains one administrator row, with the new identifier, the
    given name and the role 'Rector'; and the token is the one the token
    service signs for that identifier and 'Rector', so that a verifier
    that reads back what the service signs finds that identifier and
    that role in it. *)
Theorem registerUser_default_rector : forall e b db nombre p,
  rg_nombre_administrador b = Some nombre -> nombre <> "" ->
  rg_contraseña b = Some p -> p <> [] ->
  rg_rol b = None ->
  faults e 0%nat = None ->
  jwt_verify (jwt_sign e (next_id_administrador db) "Rector")
    = Some (next_id_administrador db, "Rector") ->
  exists token fila,
    serve (registerUser b) e db
    = (Some (mkResponse 201
               (JRegistro (next_id_administrador db) nombre "Rector" token)),
       with_administrador (administrador db ++ [fila])
                          (next_id_administrador db + 1) db)
    /\ id_administrador fila = next_id_administrador db
    /\ nombre_administrador fila = nombre
    /\ rol fila = "Rector"
    /\ token = jwt_sign e (next_id_administrador db) "Rector"
    /\ jwt_verify token = Some (next_id_administrador db, "Rector").
Proof.
  intros e b db nombre p Hn Hne Hp Hpe Hr Hf Hjwt.
  unfold registerUser. rewrite Hn, Hp, Hr.
  assert (Ht : JS.truthy (Some nombre) = true).
  { cbn. apply negb_true_iff, String.eqb_neq, Hne. }
  rewrite Ht. destruct p as [|c p]; [congruence|]. cbn [nonempty16 negb orb].
  assert (Ho : JS.or_else (Some nombre) "" = nombre).
  { cbn. destruct nombre; [congruence|reflexivity]. }
  rewrite Ho. run. rewrite Hf. cbn.
  eexists. eexists. split; [reflexivity|]. cbn. auto 6.
Qed.

End Registro.

Lemma registerUser_default_rector_witness :
  exists token fila,
    serve (registerUser Ejemplo.registro_sin_rol) Ejemplo.entorno Ejemplo.db
    = (Some (mkResponse 201 (JRegistro 4 "primera" "Rector" token)),
       with_administrador (administrador Ejemplo.db ++ [fila]) (4 + 1) Ejemplo.db)
    /\ id_administrador fila = 4
    /\ nombre_administrador fila = "primera"
    /\ rol fila = "Rector"
    /\ token = "jwt:Rector"
    /\ Ejemplo.verify token = Some (4, "Rector").
Proof.
  refine (registerUser_default_rector Ejemplo.verify Ejemplo.entorno
            Ejemplo.registro_sin_rol Ejemplo.db "primera"
            (JS.units "Secreta#2024") _ _ _ _ _ _ _).
  - reflexivity.
  - discriminate.
  - reflexivity.
  - discriminate.
  - reflexivity.
  - reflexivity.
  - reflexivity.
Defined.

(* ----------------------------------------------------------------- *)
(** *** The gate of the protected routes *)

(** Unfolds the plumbing of a request, for the handlers that answer
    with a [respuesta] too. *)
Ltac correr :=
  cbv beta iota zeta delta
    [atender responder mensaje serve try_catch bind ret send send_json await
     pool_query conn_query getConnection beginTransaction commit rollback
     get_now hash collation reading writing next_tick throw generateToken
     verify_reset];
  cbn [durable work intx tick fst snd].

(** X1.  [protect] is a gate.  Either it answers by itself, with a 401
    or a 403 that does not depend on the handler behind it, and the
    store is what it was; or the token names an administrator whose row
    is in state 'activo', and the handler runs on the unchanged store
    with the [req.user] made from that row: the role of the row and, for
    a Coordinador, the careers assigned in [admin_carrera]. *)
Theorem protect_gate : forall c e db,
  (exists r, (status r = 401%nat \/ status r = 403%nat)
             /\ forall next, serve (protect c next) e db = (Some r, db))
  \/ (exists id a rest k,
        c = Token id
        /\ select_administrador id db = a :: rest
        /\ adm_estado a = "activo"
        /\ forall next,
             protect c next e (mkWorld db db false 0)
             = next (usuario_de a db) e (mkWorld db db false k)).
Proof.
  intros c e db. destruct c as [| |id].
  - left. eexists. split; [|intros next; reflexivity]. left; reflexivity.
  - left. eexists. split; [|intros next; reflexivity]. left; reflexivity.
  - unfold protect, protect_lookup. run.
    destruct (faults e 0%nat) eqn:F0; cbn.
    { left. eexists. split; [|intros next; reflexivity]. left; reflexivity. }
    destruct (select_administrador id db) as [|a rest] eqn:Hsel; cbn.
    { left. eexists. split; [|intros next; reflexivity]. left; reflexivity. }
    destruct (adm_estado a =? "activo") eqn:Hest; cbn.
    2:{ left. eexists. split; [|intros next; reflexivity]. right; reflexivity. }
    apply String.eqb_eq in Hest.
    assert (Hid : id_administrador a = id).
    { apply filter_head_true in Hsel. apply Z.eqb_eq in Hsel. exact Hsel. }
    destruct (rol a =? "Coordinador") eqn:Hrol; cbn.
    + destruct (faults e 1%nat) eqn:F1; cbn.
      { left. eexists. split; [|intros next; reflexivity]. left; reflexivity. }
      right. exists id, a, rest, 2%nat.
      repeat split; auto. intros next.
      unfold usuario_de, carreras_de. rewrite Hrol, Hid. reflexivity.
    + right. exists id, a, rest, 1%nat.
      repeat split; auto. intros next.
      unfold usuario_de. rewrite Hrol. reflexivity.
Qed.

(** What a request that went through [protect] did: [protect] answered,
    or the handler ran for the administrator of the token. *)
Lemma protect_inv : forall c next e db r w,
  protect c next e (mkWorld db db false 0) = (r, w) ->
  (durable w = db
   /\ exists n m, r = Ok (mkResponse n (JMessage m)) /\ (n = 401%nat \/ n = 403%nat))
  \/ (exists id a rest k,
        c = Token id
        /\ select_administrador id db = a :: rest
        /\ adm_estado a = "activo"
        /\ next (usuario_de a db) e (mkWorld db db false k) = (r, w)).
Proof.
  intros c next e db r w.
  assert (Hl : forall n m k, n = 401%nat \/ n = 403%nat ->
            (Ok (mkResponse n (JMessage m)), mkWorld db db false k) = (r, w) ->
            durable w = db
            /\ exists n m, r = Ok (mkResponse n (JMessage m))
                           /\ (n = 401%nat \/ n = 403%nat)).
  { intros n m k Hn H. inversion H; subst. split; [reflexivity|].
    exists n, m. split; [reflexivity|exact Hn]. }
  destruct c as [| |id].
  - intros H. left. eapply Hl; [|exact H]. left; reflexivity.
  - intros H. left. eapply Hl; [|exact H]. left; reflexivity.
  - unfold protect, protect_lookup. run.
    destruct (faults e 0%nat) eqn:F0; cbn.
    { intros H. left. eapply Hl; [|exact H]. left; reflexivity. }
    destruct (select_administrador id db) as [|a rest] eqn:Hsel; cbn.
    { intros H. left. eapply Hl; [|exact H]. left; reflexivity. }
    destruct (adm_estado a =? "activo") eqn:Hest; cbn.
    2:{ intros H. left. eapply Hl; [|exact H]. right; reflexivity. }
    apply String.eqb_eq in Hest.
    assert (Hid : id_administrador a = id).
    { apply filter_head_true in Hsel. apply Z.eqb_eq in Hsel. exact Hsel. }
    destruct (rol a =? "Coordinador") eqn:Hrol; cbn.
    + destruct (faults e 1%nat) eqn:F1; cbn.
      { intros H. left. eapply Hl; [|exact H]. left; reflexivity. }
      intros H. right. subst id. exists (id_administrador a), a, rest, 2%nat.
      repeat split; auto.
      unfold usuario_de, carreras_de. rewrite Hrol. exact H.
    + intros H. right. exists id, a, rest, 1%nat.
      repeat split; auto.
      unfold usuario_de. rewrite Hrol. exact H.
Qed.

(** X2.  Through the routes guarded by [rector] that create an
    administrator, delete an administrator and delete a career, the
    store changes only when the token names an administrator whose row
    is in state 'activo' and has the role 'Rector'. *)
Theorem rutas_de_rector_solo_rector : forall r c e db,
  snd (serve (ruta r c) e db) <> db ->
  exists id a rest,
    c = Token id
    /\ select_administrador id db = a :: rest
    /\ adm_estado a = "activo"
    /\ rol a = "Rector".
Proof.
  intros r c e db Hne.
  unfold serve, ruta in Hne.
  match type of Hne with
  | context [protect ?c ?n ?e ?w] => destruct (protect c n e w) as [res w'] eqn:Hp
  end.
  apply protect_inv in Hp.
  destruct Hp as [[Hdb [n [m [Hr _]]]]|[id [a [rest [k [Hc [Hsel [Hest Hrun]]]]]]]].
  - subst res. cbn in Hne. contradiction.
  - exists id, a, rest. repeat split; auto.
    unfold rector, usuario_de in Hrun. cbn [user_rol] in Hrun.
    destruct (rol a =? "Rector") eqn:Hrol.
    + apply String.eqb_eq. exact Hrol.
    + exfalso. inversion Hrun; subst. cbn in Hne. contradiction.
Qed.

(** The Rector deletes the career 10. *)
Lemma rutas_de_rector_solo_rector_witness :
  exists id a rest,
    Token 1 = Token id
    /\ select_administrador id Ejemplo.db = a :: rest
    /\ adm_estado a = "activo"
    /\ rol a = "Rector".
Proof.
  refine (rutas_de_rector_solo_rector (DeleteCarrera 10) (Token 1)
            Ejemplo.entorno Ejemplo.db _).
  vm_compute. discriminate.
Defined.

(* ----------------------------------------------------------------- *)
(** *** A soft-deleted administrator *)

(** The table of administrators after a soft-delete that answered 200:
    the rows of the administrator are 'inactivo', the others are what
    they were. *)
Lemma deleteUserByAdmin_200 : forall e user id db r db',
  serve (deleteUserByAdmin user id) e db = (Some r, db') ->
  status r = 200%nat ->
  administrador db'
  = update_where (fun a => id_administrador a =? numero id)%Z
      (fun a => fold_left asignar
         [set_estado "inactivo"; set_fecha_eliminacion (Some (now e));
          set_id_administrador_eliminacion (Some (user_id user))] a)
      (administrador db).
Proof.
  intros e user id db r db' H Hst.
  unfold deleteUserByAdmin in H.
  destruct (user_id user =? 0)%Z; [inversion H; subst; discriminate|].
  destruct (mismo_texto (user_id user) id); [inversion H; subst; discriminate|].
  paths H Hst; reflexivity.
Qed.

Lemma In_update_where : forall {A} (p : A -> bool) (f : A -> A) l y,
  In y (update_where p f l) ->
  exists x, In x l /\ y = (if p x then f x else x).
Proof.
  intros A p f l y H. unfold update_where in H. apply in_map_iff in H.
  destruct H as [x [Hx Hin]]. exists x. auto.
Qed.

Lemma baja_inactivo : forall e user id db r db' a,
  serve (deleteUserByAdmin user id) e db = (Some r, db') ->
  status r = 200%nat ->
  In a (administrador db') -> id_administrador a = numero id ->
  adm_estado a = "inactivo".
Proof.
  intros e user id db r db' a H Hst Hin Hid.
  rewrite (deleteUserByAdmin_200 _ _ _ _ _ _ H Hst) in Hin.
  apply In_update_where in Hin. destruct Hin as [x [_ Hx]].
  destruct (id_administrador x =? numero id)%Z eqn:E.
  - subst a. destruct x; reflexivity.
  - subst a. apply Z.eqb_neq in E. contradiction.
Qed.

(** The identifier, the name and the address of a row do not change
    when it is soft-deleted. *)
Lemma baja_select_usuarios : forall e user id db r db' ident,
  serve (deleteUserByAdmin user id) e db = (Some r, db') ->
  status r = 200%nat ->
  forall a, In a (select_usuarios ident db') ->
    exists x, In x (select_usuarios ident db)
              /\ id_administrador x = id_administrador a.
Proof.
  intros e user id db r db' ident H Hst a Hin.
  unfold select_usuarios in Hin. apply filter_In in Hin. destruct Hin as [Hin Hp].
  rewrite (deleteUserByAdmin_200 _ _ _ _ _ _ H Hst) in Hin.
  apply In_update_where in Hin. destruct Hin as [x [Hx Ha]].
  exists x. split.
  - unfold select_usuarios. apply filter_In. split; [exact Hx|].
    subst a. destruct (id_administrador x =? numero id)%Z; [destruct x|]; exact Hp.
  - subst a. destruct (id_administrador x =? numero id)%Z; [destruct x|]; reflexivity.
Qed.

(** X3.  A soft-deleted administrator is locked out.  After
    [deleteUserByAdmin] has answered 200 for the administrator [id],
    [protect] answers 401 or 403 to any request that carries a token of
    [id], whatever the handler behind it, and [loginUser] opens no
    session for an identifier that names only [id], whatever password is
    given; neither changes the store. *)
Theorem baja_cierra_el_acceso : forall e user id db r db',
  serve (deleteUserByAdmin user id) e db = (Some r, db') ->
  status r = 200%nat ->
  (forall e' next,
     exists r', serve (protect (Token (numero id)) next) e' db' = (Some r', db')
                /\ (status r' = 401%nat \/ status r' = 403%nat))
  /\ (forall compare e' ident p,
        (forall a, In a (select_usuarios ident db) -> id_administrador a = numero id) ->
        exists r',
          atender (loginUser compare (mkLoginBody (Some ident) (Some p))) e' db'
          = (Some r', db')
          /\ codigo r' <> 200%nat).
Proof.
  intros e user id db r db' H Hst. split.
  - intros e' next. unfold protect, protect_lookup. run.
    destruct (faults e' 0%nat) eqn:F0; cbn.
    { eexists. split; [reflexivity|]. left; reflexivity. }
    destruct (select_administrador (numero id) db') as [|a rest] eqn:Hsel; cbn.
    { eexists. split; [reflexivity|]. left; reflexivity. }
    assert (Ha : adm_estado a = "inactivo").
    { eapply baja_inactivo; eauto.
      - assert (Hin : In a (select_administrador (numero id) db'))
          by (rewrite Hsel; left; auto).
        apply filter_In in Hin. apply Hin.
      - apply filter_head_true in Hsel. apply Z.eqb_eq in Hsel. exact Hsel. }
    rewrite Ha. cbn. eexists. split; [reflexivity|]. right; reflexivity.
  - intros compare e' ident p Hident.
    unfold loginUser.
    cbn [lg_identificador lg_contraseña JS.truthy JS.or_else nonempty16].
    destruct (ident =? "") eqn:E; cbn [negb orb].
    { eexists. split; [reflexivity|]. discriminate. }
    destruct p as [|c p]; cbn [negb orb].
    { eexists. split; [reflexivity|]. discriminate. }
    correr.
    destruct (faults e' 0%nat) eqn:F0; cbn.
    { eexists. split; [reflexivity|]. discriminate. }
    destruct (select_usuarios ident db') as [|u rest] eqn:Hsel; cbn.
    { eexists. split; [reflexivity|]. discriminate. }
    assert (Hu : adm_estado u = "inactivo").
    { assert (Hin : In u (select_usuarios ident db')) by (rewrite Hsel; left; auto).
      destruct (baja_select_usuarios _ _ _ _ _ _ ident H Hst u Hin) as [x [Hx Hxid]].
      eapply baja_inactivo; eauto.
      - unfold select_usuarios in Hin. apply filter_In in Hin. apply Hin.
      - rewrite <- Hxid. apply Hident. exact Hx. }
    destruct (compare (c :: p) (contraseña u)); cbn.
    + rewrite Hu. cbn. eexists. split; [reflexivity|]. discriminate.
    + eexists. split; [reflexivity|]. discriminate.
Qed.

(** The Rector deletes the Coordinador 2, who then asks for the list of
    careers with the token still held. *)
Lemma baja_cierra_el_acceso_witness :
  exists r',
    serve (protect (Token 2) getCarreras) Ejemplo.entorno
          (snd (serve (deleteUserByAdmin Ejemplo.user_rectora (canonico 2))
                      Ejemplo.entorno Ejemplo.db))
    = (Some r', snd (serve (deleteUserByAdmin Ejemplo.user_rectora (canonico 2))
                           Ejemplo.entorno Ejemplo.db))
    /\ (status r' = 401%nat \/ status r' = 403%nat).
Proof.
  refine (proj1 (baja_cierra_el_acceso Ejemplo.entorno Ejemplo.user_rectora
                   (canonico 2) Ejemplo.db
                   (mkResponse 200 (JAdministradorEliminado
                      "Administrador y sus asignaciones de Coordinador marcados como inactivos (eliminación lógica) con éxito." "2"))
                   _ _ _)
                Ejemplo.entorno getCarreras).
  - vm_compute. reflexivity.
  - reflexivity.
Defined.

(** X4.  A soft-deleted administrator leaves the lists and stays
    readable by identifier.  After [deleteUserByAdmin] has answered 200
    for the administrator [id], neither [listUsers] nor
    [listCoordinadores] has a row of [id]; [getUserById] still answers
    200, with the selected columns of the row, whose state is
    'inactivo'; and every row of [id] in the store carries the time of
    the deletion and the administrator who asked for it, which the
    answer of [getUserById] does not show. *)
Theorem baja_sale_de_las_listas : forall e user id db r db',
  serve (deleteUserByAdmin user id) e db = (Some r, db') ->
  status r = 200%nat ->
  (forall e' rows,
     fst (atender listUsers e' db') = Some (mkRespuesta 200 (JUsuarios rows)) ->
     forall u, In u rows -> usu_id_administrador u <> numero id)
  /\ (forall e' rows,
      fst (atender listCoordinadores e' db')
      = Some (mkRespuesta 200 (JCoordinadores rows)) ->
      forall c, In c rows -> cl_id_administrador c <> numero id)
  /\ (forall e', faults e' 0%nat = None ->
      exists a,
        In a (select_administrador (numero id) db')
        /\ atender (getUserById (numero id)) e' db'
           = (Some (mkRespuesta 200 (JUsuario (columnas_usuario a))), db')
        /\ usu_estado (columnas_usuario a) = "inactivo")
  /\ (forall a, In a (select_administrador (numero id) db') ->
      adm_fecha_eliminacion a = Some (now e)
      /\ adm_id_administrador_eliminacion a = Some (user_id user)).
Proof.
  intros e user id db r db' H Hst.
  assert (Hsel0 : exists m rest, select_administrador (numero id) db = m :: rest).
  { unfold deleteUserByAdmin in H.
    destruct (user_id user =? 0)%Z; [inversion H; subst; discriminate|].
    destruct (mismo_texto (user_id user) id); [inversion H; subst; discriminate|].
    paths H Hst; eauto. }
  destruct Hsel0 as [m [rest Hsel0]].
  pose proof (filter_head_true _ _ _ _ Hsel0) as Hm. cbn in Hm.
  assert (Hsel' : select_administrador (numero id) db'
                  = map (fun a => fold_left asignar
                           [set_estado "inactivo"; set_fecha_eliminacion (Some (now e));
                            set_id_administrador_eliminacion (Some (user_id user))] a)
                        (select_administrador (numero id) db)).
  { unfold select_administrador.
    rewrite (deleteUserByAdmin_200 _ _ _ _ _ _ H Hst).
    rewrite filter_update_where by (intros x; destruct x; reflexivity).
    unfold update_where. apply map_ext_in. intros a Ha.
    apply filter_In in Ha. destruct Ha as [_ Ha]. rewrite Ha. reflexivity. }
  split; [|split; [|split]].
  - intros e' rows. unfold listUsers; correr.
    destruct (faults e' 0%nat); cbn; intros Hresp; inversion Hresp; subst rows.
    intros u Hu Hid. apply in_map_iff in Hu. destruct Hu as [a [Hua Hin]].
    apply In_order_by in Hin. apply filter_In in Hin. destruct Hin as [Hin Hp].
    assert (Hina : adm_estado a = "inactivo").
    { eapply baja_inactivo; eauto. subst u. exact Hid. }
    rewrite Hina in Hp. discriminate.
  - intros e' rows. unfold listCoordinadores; correr.
    destruct (faults e' 0%nat); cbn; intros Hresp; inversion Hresp; subst rows.
    intros c Hc Hid. apply in_map_iff in Hc. destruct Hc as [a [Hca Hin]].
    apply In_order_by in Hin. apply filter_In in Hin. destruct Hin as [Hin Hp].
    assert (Hina : adm_estado a = "inactivo").
    { eapply baja_inactivo; eauto. subst c. exact Hid. }
    rewrite Hina, andb_false_r in Hp. discriminate.
  - intros e' F0.
    unfold getUserById. correr. rewrite F0. cbn.
    rewrite Hsel', Hsel0. cbn.
    eexists. split; [left; reflexivity|]. split; [reflexivity|].
    destruct m; reflexivity.
  - intros a Ha. rewrite Hsel' in Ha. apply in_map_iff in Ha.
    destruct Ha as [x [Hx _]]. subst a. destruct x; cbn. auto.
Qed.

(** The Rector deletes the Coordinador 2 and reads the row. *)
Lemma baja_sale_de_las_listas_witness :
  exists a,
    In a (select_administrador 2
            (snd (serve (deleteUserByAdmin Ejemplo.user_rectora (canonico 2))
                        Ejemplo.entorno Ejemplo.db)))
    /\ atender (getUserById 2) Ejemplo.entorno
               (snd (serve (deleteUserByAdmin Ejemplo.user_rectora (canonico 2))
                           Ejemplo.entorno Ejemplo.db))
       = (Some (mkRespuesta 200 (JUsuario (columnas_usuario a))),
          snd (serve (deleteUserByAdmin Ejemplo.user_rectora (canonico 2))
                     Ejemplo.entorno Ejemplo.db))
    /\ usu_estado (columnas_usuario a) = "inactivo".
Proof.
  refine (proj1 (proj2 (proj2 (baja_sale_de_las_listas Ejemplo.entorno Ejemplo.user_rectora
                          (canonico 2) Ejemplo.db
                          (mkResponse 200 (JAdministradorEliminado
                             "Administrador y sus asignaciones de Coordinador marcados como inactivos (eliminación lógica) con éxito." "2"))
                          _ _ _)))
                Ejemplo.entorno _).
  - vm_compute. reflexivity.
  - reflexivity.
  - reflexivity.
Defined.
(* ----------------------------------------------------------------- *)
(** *** Sessions *)

Lemma or_else_truthy : forall s, (s =? "") = false -> JS.or_else (Some s) "" = s.
Proof. intros s H. cbn. rewrite H. reflexivity. Qed.

(** X5.  [loginUser] never changes the store and never leaves a request
    unanswered; it opens a session (a 200 with a token) only for the
    first row that the identifier selects by name or by address, only
    when the password matches the hash of that row and only when the row
    is in state 'activo'; the token is signed for the identifier and the
    role of that row. *)
Theorem loginUser_sesion : forall compare b e db,
  exists resp,
    atender (loginUser compare b) e db = (Some resp, db)
    /\ (codigo resp = 200%nat ->
        exists ident p u rest,
          lg_identificador b = Some ident
          /\ lg_contraseña b = Some p
          /\ select_usuarios ident db = u :: rest
          /\ compare p (contraseña u) = true
          /\ adm_estado u = "activo"
          /\ contenido resp
             = JSesion u (jwt_sign e (id_administrador u) (rol u))).
Proof.
  intros compare b e db. unfold loginUser.
  destruct (lg_identificador b) as [ident|] eqn:Hi; cbn [JS.truthy JS.or_else negb orb].
  2:{ eexists. split; [reflexivity|]. discriminate. }
  destruct (ident =? "") eqn:E; cbn [negb orb].
  { eexists. split; [reflexivity|]. discriminate. }
  destruct (lg_contraseña b) as [[|c p]|] eqn:Hp; cbn [nonempty16 negb orb].
  1,3: eexists; (split; [reflexivity|]); discriminate.
  correr.
  destruct (faults e 0%nat) eqn:F0; cbn.
  { eexists. split; [reflexivity|]. discriminate. }
  destruct (select_usuarios ident db) as [|u rest] eqn:Hsel; cbn.
  { eexists. split; [reflexivity|]. discriminate. }
  destruct (compare (c :: p) (contraseña u)) eqn:Hc; cbn.
  2:{ eexists. split; [reflexivity|]. discriminate. }
  destruct (adm_estado u =? "activo") eqn:Hest; cbn.
  2:{ eexists. split; [reflexivity|]. discriminate. }
  eexists. split; [reflexivity|]. intros _.
  exists ident, (c :: p), u, rest. apply String.eqb_eq in Hest.
  repeat split; auto.
Qed.

(** Rewriting one column of some rows keeps the positions of the rows
    in a selection that does not read that column. *)
Lemma select_usuarios_update : forall ident parts id db,
  (forall a, nombre_administrador (fold_left asignar parts a) = nombre_administrador a
             /\ email (fold_left asignar parts a) = email a) ->
  select_usuarios ident (snd (update_administrador parts id db))
  = update_where (fun a => id_administrador a =? id)%Z
      (fun a => fold_left asignar parts a) (select_usuarios ident db).
Proof.
  intros ident parts id db Hkeep.
  unfold select_usuarios, update_administrador. cbn.
  apply filter_update_where. intros x.
  destruct (Hkeep x) as [Hn He]. rewrite Hn, He. reflexivity.
Qed.

(** X6.  After a reset the new password opens a session.  When
    [resetPassword] has answered 200 for the token of the administrator
    [id] and the password [p], and the identifier [ident] selects a row
    of [id] first, which is 'activo', then [loginUser] with [ident] and
    [p] answers 200 with a session for that row, provided that the
    comparison accepts a password against its own hash and the storage
    answers. *)
Theorem resetPassword_then_login : forall compare e e' db db' token p id ident u rest r,
  serve (resetPassword (mkResetBody (Some token) (Some p))) e db = (Some r, db') ->
  status r = 200%nat ->
  jwt_verify_reset e token = Some id ->
  compare p (bcrypt_hash e p) = true ->
  (ident =? "") = false ->
  select_usuarios ident db = u :: rest ->
  id_administrador u = id ->
  adm_estado u = "activo" ->
  faults e' 0%nat = None ->
  exists u',
    atender (loginUser compare (mkLoginBody (Some ident) (Some p))) e' db'
    = (Some (mkRespuesta 200 (JSesion u' (jwt_sign e' id (rol u)))), db')
    /\ contraseña u' = bcrypt_hash e p
    /\ id_administrador u' = id.
Proof.
  intros compare e e' db db' token p id ident u rest r H Hst Hv Hc Hi Hsel Hid Hest F0.
  assert (Hdb' : db' = snd (update_administrador [set_contraseña (bcrypt_hash e p)] id db)
                 /\ p <> []).
  { unfold resetPassword in H. cbn [rs_token rs_newPassword JS.truthy JS.or_else] in H.
    destruct (token =? "") eqn:Et; cbn [negb orb] in H.
    { inversion H; subst; discriminate. }
    destruct p as [|c p]; cbn [nonempty16 negb orb] in H.
    { inversion H; subst; discriminate. }
    split; [|discriminate].
    revert H. run. rewrite Hv. cbn.
    repeat (destr_goal; cbn); intros H; inversion H; subst; cbn in Hst;
      try discriminate; reflexivity. }
  destruct Hdb' as [Hdb' Hp].
  assert (Hsel' : select_usuarios ident db'
                  = update_where (fun a => id_administrador a =? id)%Z
                      (fun a => fold_left asignar [set_contraseña (bcrypt_hash e p)] a)
                      (select_usuarios ident db)).
  { subst db'. apply select_usuarios_update. intros a; destruct a; split; reflexivity. }
  clear Hdb'.
  unfold loginUser.
  cbn [lg_identificador lg_contraseña JS.truthy JS.or_else nonempty16].
  rewrite Hi. destruct p as [|c p]; [contradiction|]. cbn [negb orb].
  correr. rewrite F0. cbn.
  rewrite Hsel', Hsel. cbn. rewrite Hid, Z.eqb_refl.
  destruct u; cbn in *. rewrite Hc. subst. cbn.
  eexists. split; [reflexivity|]. split; reflexivity.
Qed.

(** The Coordinador 2 resets the password and logs in by name. *)
Lemma resetPassword_then_login_witness :
  exists u',
    atender (loginUser Ejemplo.compara
               (mkLoginBody (Some "coordinador") (Some Ejemplo.clave_fuerte)))
            Ejemplo.entorno
            (snd (serve (resetPassword Ejemplo.reset_fuerte) Ejemplo.entorno Ejemplo.db))
    = (Some (mkRespuesta 200
               (JSesion u' (jwt_sign Ejemplo.entorno 2 (rol Ejemplo.coordinador)))),
       snd (serve (resetPassword Ejemplo.reset_fuerte) Ejemplo.entorno Ejemplo.db))
    /\ contraseña u' = bcrypt_hash Ejemplo.entorno Ejemplo.clave_fuerte
    /\ id_administrador u' = 2.
Proof.
  refine (resetPassword_then_login Ejemplo.compara Ejemplo.entorno Ejemplo.entorno
            Ejemplo.db _ "reset-2" Ejemplo.clave_fuerte 2 "coordinador"
            Ejemplo.coordinador []
            (mkResponse 200 (JMessage "Contraseña restablecida con éxito. Ya puedes iniciar sesión."))
            _ _ _ _ _ _ _ _ _).
  - vm_compute. reflexivity.
  - reflexivity.
  - reflexivity.
  - vm_compute. reflexivity.
  - reflexivity.
  - reflexivity.
  - reflexivity.
  - reflexivity.
  - reflexivity.
Defined.

(* ----------------------------------------------------------------- *)
(** *** Required fields and blank passwords *)

(** X7.  [validateRequiredFields] lets a body through exactly when every
    listed field is truthy; otherwise it answers 400 for the first
    listed field that is not, whatever comes after it in the list. *)
Theorem validateRequiredFields_first_missing : forall fields,
  (validateRequiredFields fields = None
   <-> forall f p, In (f, p) fields -> p = true)
  /\ (forall r, validateRequiredFields fields = Some r ->
      exists pre field post,
        fields = pre ++ (field, false) :: post
        /\ (forall f p, In (f, p) pre -> p = true)
        /\ r = campo_obligatorio field).
Proof.
  induction fields as [|[f p] fields [IH1 IH2]]; cbn.
  - split; [split; [intros _ f p []|reflexivity]|discriminate].
  - destruct p; cbn.
    + split.
      * rewrite IH1. split.
        -- intros H f' p' [Heq|Hin]; [inversion Heq; reflexivity|eauto].
        -- intros H f' p' Hin. apply (H f' p'). right. exact Hin.
      * intros r Hr. destruct (IH2 r Hr) as [pre [field [post [Hf [Hpre Hr']]]]].
        exists ((f, true) :: pre), field, post. subst fields. repeat split; auto.
        intros f' p' [Heq|Hin]; [inversion Heq; reflexivity|eauto].
    + split.
      * split; [discriminate|].
        intros H. specialize (H f false (or_introl eq_refl)). discriminate.
      * intros r Hr. inversion Hr. exists [], f, fields.
        repeat split. intros f' p' [].
Qed.

Lemma trimStart_blank : forall p,
  forallb JS.is_space p = true -> JS.trimStart p = [].
Proof.
  induction p as [|c p IH]; cbn; auto.
  intros H. apply andb_true_iff in H. destruct H as [Hc Hp].
  rewrite Hc. auto.
Qed.

(** X8.  A new password made of white space only is no password: with
    such a [newContraseña] in the body, [updateUserByAdmin] does exactly
    what it does for the same body without one. *)
Theorem updateUserByAdmin_blank_password : forall user id b p,
  forallb JS.is_space p = true ->
  updateUserByAdmin user id
    (mkUpdateUserBody (uu_nombre_administrador b) (uu_email b) (Some p)
                      (uu_dni b) (uu_telefono b) (uu_rol b) (uu_estado b))
  = updateUserByAdmin user id
      (mkUpdateUserBody (uu_nombre_administrador b) (uu_email b) None
                        (uu_dni b) (uu_telefono b) (uu_rol b) (uu_estado b)).
Proof.
  intros user id b p Hp.
  assert (Ht : JS.trim p = []).
  { unfold JS.trim. rewrite (trimStart_blank p Hp). reflexivity. }
  unfold updateUserByAdmin, aplicar_update, sqlParts_of.
  cbn [uu_nombre_administrador uu_email uu_newContraseña uu_dni uu_telefono
       uu_rol uu_estado].
  rewrite Ht. reflexivity.
Qed.

(** A tab and two spaces. *)
Lemma updateUserByAdmin_blank_password_witness :
  updateUserByAdmin Ejemplo.user_coordinador (canonico 2)
    (mkUpdateUserBody (Some "Coordinadora General") None (Some [9; 32; 32]%N)
                      None None None None)
  = updateUserByAdmin Ejemplo.user_coordinador (canonico 2)
      (mkUpdateUserBody (Some "Coordinadora General") None None None None None None).
Proof.
  refine (updateUserByAdmin_blank_password Ejemplo.user_coordinador (canonico 2)
            (mkUpdateUserBody (Some "Coordinadora General") None None None None None None)
            [9; 32; 32]%N _).
  reflexivity.
Defined.

(* ----------------------------------------------------------------- *)
(** *** What a reset and the creation of an administrator change *)

Lemma Forall2_update_where : forall {A} (P : A -> A -> Prop) (p : A -> bool)
    (f : A -> A) l,
  (forall x, In x l -> P x (if p x then f x else x)) ->
  Forall2 P l (update_where p f l).
Proof.
  intros A P p f l H. unfold update_where.
  induction l as [|x l IH]; cbn; constructor.
  - apply H. left. reflexivity.
  - apply IH. intros y Hy. apply H. right. exact Hy.
Qed.

Lemma Forall2_same : forall {A} (P : A -> A -> Prop) l,
  (forall x, In x l -> P x x) -> Forall2 P l l.
Proof.
  intros A P l H. induction l as [|x l IH]; constructor.
  - apply H. left. reflexivity.
  - apply IH. intros y Hy. apply H. right. exact Hy.
Qed.

(** X9.  [resetPassword] always answers, and all it can change in the
    store is the password hash of the rows of the administrator that the
    token names: every row of [administrador] keeps its place and every
    other column (its state and role among them), a row of another
    administrator is untouched, and so are the other tables. *)
Theorem resetPassword_solo_la_clave : forall b e db,
  fst (serve (resetPassword b) e db) <> None
  /\ Forall2 (fun a a' =>
       salvo_contraseña a a'
       /\ (a' <> a ->
           exists token, rs_token b = Some token
                         /\ jwt_verify_reset e token = Some (id_administrador a)))
       (administrador db)
       (administrador (snd (serve (resetPassword b) e db)))
  /\ mismas_tablas_salvo_administrador db (snd (serve (resetPassword b) e db)).
Proof.
  intros b e db.
  assert (Hsame : forall l : list Administrador,
            Forall2 (fun a a' =>
              salvo_contraseña a a'
              /\ (a' <> a ->
                  exists token, rs_token b = Some token
                                /\ jwt_verify_reset e token = Some (id_administrador a)))
              l l).
  { intros l. apply Forall2_same. intros x _. split.
    - destruct x; reflexivity.
    - intros Hx. contradiction. }
  unfold resetPassword.
  destruct (rs_token b) as [token|] eqn:Ht; cbn [JS.truthy JS.or_else negb orb].
  2:{ cbn. repeat split; auto; discriminate. }
  destruct (token =? "") eqn:Et; cbn [negb orb].
  { cbn. repeat split; auto; discriminate. }
  destruct (rs_newPassword b) as [[|c p]|] eqn:Hp; cbn [nonempty16 negb orb].
  1,3: cbn; repeat split; auto; discriminate.
  run.
  destruct (jwt_verify_reset e token) as [adminId|] eqn:Hv; cbn.
  2:{ repeat split; auto; discriminate. }
  destruct (faults e 0%nat) eqn:F0; cbn.
  { repeat split; auto; discriminate. }
  match goal with
  | |- context [if ?c then _ else _] => destruct c
  end; cbn.
  all: split; [discriminate|]; split; [|repeat split].
  all: rewrite ?fold_update_where; apply Forall2_update_where; intros x _.
  all: destruct (id_administrador x =? adminId)%Z eqn:E.
  all: split; try (destruct x; reflexivity); try (intros Hx; contradiction).
  all: intros _; exists token; split; [reflexivity|].
  all: apply Z.eqb_eq in E; rewrite E; exact Hv.
Qed.

(** X10.  [createUserByAdmin] never touches the administrators that
    exist.  Either it answers something other than 201 and the store is
    what it was; or it answers 201 and the table has one row more, at
    its end: the row has the name and the role of the body, its
    password column holds the hash of the password of the body, which
    meets the policy, and its identifier is the one of the answer.  The
    other tables are never changed. *)
Theorem createUserByAdmin_solo_agrega : forall b e db,
  mismas_tablas_salvo_administrador db (snd (serve (createUserByAdmin b) e db))
  /\ ((snd (serve (createUserByAdmin b) e db) = db
       /\ exists resp, fst (serve (createUserByAdmin b) e db) = Some resp
                       /\ status resp <> 201%nat)
      \/ exists a p,
           administrador (snd (serve (createUserByAdmin b) e db))
           = administrador db ++ [a]
           /\ cu_nombre_administrador b = Some (nombre_administrador a)
           /\ cu_rol b = Some (rol a)
           /\ cu_contraseña b = Some p
           /\ validatePasswordRules p = None
           /\ contraseña a = bcrypt_hash e p
           /\ fst (serve (createUserByAdmin b) e db)
              = Some (mkResponse 201
                        (JAdministradorCreado (id_administrador a)
                           (nombre_administrador a) (rol a)
                           "Administrador creado exitosamente."))).
Proof.
  intros b e db. unfold createUserByAdmin, validateRequiredFields.
  destruct (cu_nombre_administrador b) as [nombre|] eqn:Hn;
    cbn [JS.truthy JS.or_else negb].
  2:{ cbn. split; [repeat split|]. left. split; [reflexivity|].
      eexists. split; [reflexivity|]. discriminate. }
  destruct (nombre =? "") eqn:En; cbn [negb].
  { cbn. split; [repeat split|]. left. split; [reflexivity|].
    eexists. split; [reflexivity|]. discriminate. }
  destruct (cu_contraseña b) as [[|c p]|] eqn:Hp; cbn [nonempty16 negb].
  1,3: cbn; (split; [repeat split|]); left; (split; [reflexivity|]);
       eexists; (split; [reflexivity|]); discriminate.
  destruct (cu_rol b) as [rol_|] eqn:Hr; cbn [JS.truthy JS.or_else negb].
  2:{ cbn. split; [repeat split|]. left. split; [reflexivity|].
      eexists. split; [reflexivity|]. discriminate. }
  destruct (rol_ =? "") eqn:Er; cbn [negb].
  { cbn. split; [repeat split|]. left. split; [reflexivity|].
    eexists. split; [reflexivity|]. discriminate. }
  destruct (validatePasswordRules (c :: p)) as [err|] eqn:Hv.
  { cbn. split; [repeat split|]. left. split; [reflexivity|].
    eexists. split; [reflexivity|]. discriminate. }
  run.
  destruct (faults e 0%nat) as [err|] eqn:F0; cbn.
  { destruct err; cbn; (split; [repeat split|]); left; (split; [reflexivity|]);
      eexists; (split; [reflexivity|]); discriminate. }
  split; [repeat split|]. right.
  eexists. exists (c :: p). repeat split; try reflexivity; assumption.
Qed.

(* ----------------------------------------------------------------- *)
(** *** What an update of an administrator changes *)

Lemma ejecutar_update_efecto : forall parts id e db wk t r w',
  ejecutar_update parts id e (mkWorld db wk true t) = (r, w') ->
  (durable w' = db
   /\ forall resp, r = Ok resp -> status resp <> 200%nat)
  \/ (durable w' = snd (update_administrador parts id wk)
      /\ exists resp, r = Ok resp /\ status resp = 200%nat).
Proof.
  intros parts id e db wk t r w'. unfold ejecutar_update.
  destruct parts as [|p parts]; run.
  - intros H; inversion H; subst; cbn. left. split; [reflexivity|].
    intros resp Hr. inversion Hr. discriminate.
  - repeat (destr_goal; cbn); intros H; inversion H; subst; cbn;
      try (left; split; [reflexivity|]; intros resp Hr; discriminate Hr);
      right; (split; [reflexivity|]); eexists; split; reflexivity.
Qed.

Lemma aplicar_update_efecto : forall user id b cur e db t r w',
  aplicar_update user id b (rol cur) (JS.or_else (uu_estado b) (adm_estado cur)) e
                 (mkWorld db db true t) = (r, w') ->
  (durable w' = db
   /\ forall resp, r = Ok resp -> status resp <> 200%nat)
  \/ (durable w' = actualizado e user id b cur db
      /\ exists resp, r = Ok resp /\ status resp = 200%nat).
Proof.
  intros user id b cur e db t r w'.
  unfold aplicar_update, actualizado, parte_contraseña.
  fold (desasigna b cur).
  set (parts := sqlParts_of (user_rol user) (user_id user) (now e) b).
  assert (Hno : forall (resp : response) (err : sqlerr), Throw err = Ok resp ->
                  status resp <> 200%nat) by (intros; discriminate).
  destruct (desasigna b cur); run.
  - destruct (faults e t) eqn:F; cbv beta iota; cbn [durable work intx tick fst snd].
    { intros H; inversion H; subst. left; split; [reflexivity|]. intros; discriminate. }
    destruct (delete_admin_carrera_by_admin id db) as [n wk] eqn:Hdel.
    cbv beta iota; cbn [durable work intx tick fst snd].
    fold parts.
    destruct (uu_newContraseña b) as [p|].
    + destruct (0 <? List.length (JS.trim p))%nat.
      * destruct (validatePasswordRules (JS.trim p)).
        { intros H; inversion H; subst. left; split; [reflexivity|].
          intros resp Hr. inversion Hr. discriminate. }
        cbv beta iota; cbn [durable work intx tick fst snd].
        intros H. apply ejecutar_update_efecto in H. exact H.
      * rewrite app_nil_r. intros H. apply ejecutar_update_efecto in H. exact H.
    + rewrite app_nil_r. intros H. apply ejecutar_update_efecto in H. exact H.
  - fold parts.
    destruct (uu_newContraseña b) as [p|].
    + destruct (0 <? List.length (JS.trim p))%nat.
      * destruct (validatePasswordRules (JS.trim p)).
        { intros H; inversion H; subst. left; split; [reflexivity|].
          intros resp Hr. inversion Hr. discriminate. }
        cbv beta iota; cbn [durable work intx tick fst snd].
        intros H. apply ejecutar_update_efecto in H. exact H.
      * rewrite app_nil_r. intros H. apply ejecutar_update_efecto in H. exact H.
    + rewrite app_nil_r. intros H. apply ejecutar_update_efecto in H. exact H.
Qed.

(** What [updateUserByAdmin] does to the store: nothing, with an answer
    other than 200 if any; or the update of the rows of [id] after the
    access checks have passed, with a 200. *)
Lemma updateUserByAdmin_efecto : forall e user id b db,
  (snd (serve (updateUserByAdmin user id b) e db) = db
   /\ forall resp, fst (serve (updateUserByAdmin user id b) e db) = Some resp ->
                   status resp <> 200%nat)
  \/ exists cur rest resp,
       select_administrador (numero id) db = cur :: rest
       /\ serve (updateUserByAdmin user id b) e db
          = (Some resp, actualizado e user (numero id) b cur db)
       /\ status resp = 200%nat
       /\ (user_rol user = "Coordinador" ->
           texto id = JS.String (user_id user)
           /\ uu_rol b = None /\ uu_estado b = None).
Proof.
  intros e user id b db. unfold updateUserByAdmin. run.
  assert (Hl : forall (m : string) (n : nat) (d : DB), n <> 200%nat ->
            snd (Some (mkResponse n (JMessage m)), d) = d
            /\ forall resp, fst (Some (mkResponse n (JMessage m)), d) = Some resp ->
                            status resp <> 200%nat).
  { intros m n d Hn. split; [reflexivity|]. intros resp Hr. inversion Hr. exact Hn. }
  fault 0%nat. { left. destruct s; apply Hl; discriminate. }
  fault 1%nat. { left. destruct s; apply Hl; discriminate. }
  fault 2%nat. { left. destruct s; apply Hl; discriminate. }
  destruct (select_administrador (numero id) db) as [|cur rest] eqn:Hsel; cbn.
  { left. apply Hl; discriminate. }
  destruct ((user_rol user =? "Coordinador") && negb (mismo_texto (user_id user) id))
    eqn:HA; cbn.
  { left. apply Hl; discriminate. }
  destruct ((user_rol user =? "Coordinador")
            && (JS.defined (uu_rol b) || JS.defined (uu_estado b))) eqn:HB; cbn.
  { left. apply Hl; discriminate. }
  match goal with
  | |- context [if ?c then _ else _] => destruct c
  end; cbn.
  { left. apply Hl; discriminate. }
  match goal with |- context [aplicar_update ?u ?i ?bb ?c ?ea ?ee ?ww] =>
    destruct (aplicar_update u i bb c ea ee ww) as [[r|err] w1] eqn:Hap end.
  - apply aplicar_update_efecto in Hap.
    destruct Hap as [[Hd Hn]|[Hd [resp [Hr Hst]]]].
    + left. cbn. split; [exact Hd|]. intros resp Hr. inversion Hr; subst.
      apply Hn. reflexivity.
    + right. exists cur, rest, resp. inversion Hr; subst r. cbn.
      rewrite Hd. split; [reflexivity|]. split; [reflexivity|]. split; [exact Hst|].
      intros Hrol. rewrite Hrol in HA, HB. cbn in HA, HB.
      apply negb_false_iff, String.eqb_eq in HA. symmetry in HA.
      destruct (uu_rol b); [discriminate|].
      destruct (uu_estado b); [discriminate|]. auto.
  - apply aplicar_update_efecto in Hap.
    destruct Hap as [[Hd Hn]|[Hd [resp [Hr Hst]]]].
    + left. destruct err; cbn; (split; [exact Hd|]);
        intros resp Hr; inversion Hr; discriminate.
    + discriminate Hr.
Qed.

Lemma fold_asignar_personal : forall parts a,
  forallb personal parts = true ->
  salvo_datos_personales a (fold_left asignar parts a).
Proof.
  induction parts as [|s parts IH]; intros a H; cbn.
  - repeat split.
  - cbn in H. apply andb_true_iff in H. destruct H as [Hs Hp].
    specialize (IH (asignar a s) Hp).
    destruct IH as [H1 [H2 [H3 [H4 H5]]]].
    unfold salvo_datos_personales.
    rewrite H1, H2, H3, H4, H5.
    destruct a, s; cbn in *; try discriminate; repeat split.
Qed.

Lemma sqlParts_of_coordinador : forall id ahora b,
  forallb personal (sqlParts_of "Coordinador" id ahora b) = true.
Proof.
  intros id ahora b. unfold sqlParts_of, opt_part. cbn.
  destruct (uu_nombre_administrador b), (uu_email b), (uu_dni b), (uu_telefono b);
    reflexivity.
Qed.

Lemma parte_contraseña_personal : forall e b,
  forallb personal (parte_contraseña e b) = true.
Proof.
  intros e b. unfold parte_contraseña.
  destruct (uu_newContraseña b) as [p|]; [|reflexivity].
  destruct (0 <? List.length (JS.trim p))%nat; reflexivity.
Qed.

Lemma In_delete_where : forall {A} (p : A -> bool) l x,
  In x (delete_where p l) <-> In x l /\ p x = false.
Proof.
  intros A p l x. unfold delete_where. rewrite filter_In.
  rewrite negb_true_iff. tauto.
Qed.

(** X11.  What a Coordinador can change through [updateUserByAdmin] is
    the own personal data and password.  Whatever the request, whose
    path parameter the storage reads as the Coordinador's identifier
    when its text is the decimal text of that identifier, and whichever
    storage call fails: every row of [administrador] keeps its
    place, its identifier, its role, its state and its audit columns;
    the rows of the other administrators are untouched; no assignment to
    a career is created and no assignment of another administrator is
    removed; the tables of careers, subjects, schedule slots and
    prerequisite edges are untouched. *)
Theorem coordinador_edita_solo_sus_datos : forall e user id b db,
  user_rol user = "Coordinador" ->
  (texto id = JS.String (user_id user) -> numero id = user_id user) ->
  Forall2 (fun a a' =>
       salvo_datos_personales a a'
       /\ (id_administrador a <> user_id user -> a' = a))
    (administrador db)
    (administrador (snd (serve (updateUserByAdmin user id b) e db)))
  /\ (forall ac,
        In ac (admin_carrera (snd (serve (updateUserByAdmin user id b) e db))) ->
        In ac (admin_carrera db))
  /\ (forall ac, In ac (admin_carrera db) ->
        ac_id_administrador ac <> user_id user ->
        In ac (admin_carrera (snd (serve (updateUserByAdmin user id b) e db))))
  /\ mismo_catalogo db (snd (serve (updateUserByAdmin user id b) e db)).
Proof.
  intros e user id b db Hrol Hlee.
  destruct (updateUserByAdmin_efecto e user id b db)
    as [[Hdb _]|[cur [rest [resp [Hsel [Hs [Hst Hc]]]]]]].
  - rewrite Hdb. split; [|split; [|split]]; auto.
    + apply Forall2_same. intros x _. split; [repeat split|reflexivity].
    + repeat split.
  - destruct (Hc Hrol) as [Htx [Hr He]]. pose proof (Hlee Htx) as Hid.
    rewrite Hs. cbn [snd].
    unfold actualizado. rewrite Hrol.
    split; [|split; [|split]].
    + destruct (desasigna b cur); cbn; rewrite ?fold_update_where;
        apply Forall2_update_where; intros x _;
        (destruct (id_administrador x =? numero id)%Z eqn:E;
         [split;
          [apply fold_asignar_personal; rewrite forallb_app,
             sqlParts_of_coordinador, parte_contraseña_personal; reflexivity
          |intros Hne; apply Z.eqb_eq in E; congruence]
         |split; [repeat split|reflexivity]]).
    + intros ac. destruct (desasigna b cur); cbn; [|auto].
      intros Hin. apply In_delete_where in Hin. apply Hin.
    + intros ac Hin Hne. destruct (desasigna b cur); cbn; [|auto].
      apply In_delete_where. split; [exact Hin|].
      apply Z.eqb_neq. congruence.
    + destruct (desasigna b cur); cbn; repeat split.
Qed.

(** The Coordinador 2 changes the own name. *)
Lemma coordinador_edita_solo_sus_datos_witness :
  mismo_catalogo Ejemplo.db
    (snd (serve (updateUserByAdmin Ejemplo.user_coordinador (canonico 2)
                   (mkUpdateUserBody (Some "Coordinadora General") None None None
                                     None None None))
                Ejemplo.entorno Ejemplo.db)).
Proof.
  refine (proj2 (proj2 (proj2 (coordinador_edita_solo_sus_datos Ejemplo.entorno
            Ejemplo.user_coordinador (canonico 2)
            (mkUpdateUserBody (Some "Coordinadora General") None None None
                              None None None)
            Ejemplo.db _ _)))).
  - reflexivity.
  - intros _. reflexivity.
Defined.

(** The role, the state and the audit columns after the [SET] list that
    the Rector's request builds when it names the state [s]. *)
Lemma sqlParts_of_rector_estado : forall id ahora b s a,
  uu_estado b = Some s ->
  adm_estado (fold_left asignar (sqlParts_of "Rector" id ahora b) a) = s
  /\ rol (fold_left asignar (sqlParts_of "Rector" id ahora b) a)
     = match uu_rol b with Some v => v | None => rol a end
  /\ (s = "suspendido" \/ s = "inactivo" ->
      adm_fecha_eliminacion (fold_left asignar (sqlParts_of "Rector" id ahora b) a)
      = Some ahora
      /\ adm_id_administrador_eliminacion
           (fold_left asignar (sqlParts_of "Rector" id ahora b) a) = Some id)
  /\ (s = "activo" ->
      adm_fecha_eliminacion (fold_left asignar (sqlParts_of "Rector" id ahora b) a)
      = None
      /\ adm_id_administrador_eliminacion
           (fold_left asignar (sqlParts_of "Rector" id ahora b) a) = None).
Proof.
  intros id ahora b s a Hs. unfold sqlParts_of, opt_part. rewrite Hs. cbn.
  destruct (uu_nombre_administrador b), (uu_email b), (uu_dni b), (uu_telefono b),
    (uu_rol b); cbn;
    (destruct ((s =? "suspendido") || (s =? "inactivo")) eqn:E1;
     [|destruct (s =? "activo") eqn:E2]);
    destruct a; cbn; (split; [reflexivity|]); (split; [reflexivity|]);
    split; intros Hx;
    try (split; reflexivity);
    try (destruct Hx; subst s; discriminate);
    try (subst s; discriminate).
Qed.

(** X12.  A change of state by the Rector leaves its trace.  When
    [updateUserByAdmin], asked by a Rector with a body that names the
    state [s], answers 200 for an administrator whose identifier is a
    primary key: the row is in state [s]; for 'suspendido' and
    'inactivo' it carries the time of the request and the identifier of
    the Rector, and if its role is then 'Coordinador' no assignment to
    a career is left for it; for 'activo' the two audit columns are empty
    and the assignments are what they were. *)
Theorem cambio_de_estado_por_rector : forall e user id b db resp db' s,
  serve (updateUserByAdmin user id b) e db = (Some resp, db') ->
  status resp = 200%nat ->
  user_rol user = "Rector" ->
  uu_estado b = Some s ->
  clave_primaria EAdministrador (numero id) db ->
  forall x, In x (select_administrador (numero id) db') ->
    adm_estado x = s
    /\ (s = "suspendido" \/ s = "inactivo" ->
        adm_fecha_eliminacion x = Some (now e)
        /\ adm_id_administrador_eliminacion x = Some (user_id user)
        /\ (rol x = "Coordinador" ->
            select_admin_carrera_by_admin (numero id) db' = []))
    /\ (s = "activo" ->
        adm_fecha_eliminacion x = None
        /\ adm_id_administrador_eliminacion x = None
        /\ admin_carrera db' = admin_carrera db).
Proof.
  intros e user id b db resp db' s H Hst Hrol Hs Hpk.
  destruct (updateUserByAdmin_efecto e user id b db)
    as [[_ Hn]|[cur [rest [resp' [Hsel [H' [_ _]]]]]]].
  { exfalso. apply (Hn resp); [rewrite H; reflexivity|exact Hst]. }
  rewrite H in H'. inversion H'; subst resp' db'. clear H'.
  assert (Hrest : rest = []).
  { unfold clave_primaria in Hpk. cbn in Hpk. rewrite Hsel in Hpk.
    destruct rest; [reflexivity|cbn in Hpk; lia]. }
  subst rest.
  intros x Hx.
  unfold actualizado, select_administrador in Hx. rewrite Hrol in Hx.
  assert (Hx' : x = fold_left asignar
                      (sqlParts_of "Rector" (user_id user) (now e) b
                       ++ parte_contraseña e b) cur).
  { assert (Hin : exists x0, In x0 (select_administrador (numero id) db)
                    /\ x = fold_left asignar
                             (sqlParts_of "Rector" (user_id user) (now e) b
                              ++ parte_contraseña e b) x0).
    { destruct (desasigna b cur); cbn in Hx; apply filter_In in Hx;
        destruct Hx as [Hx Hid]; rewrite ?fold_update_where in Hx;
        apply In_update_where in Hx; destruct Hx as [x0 [Hx0 Hx]];
        (destruct (id_administrador x0 =? numero id)%Z eqn:E;
         [exists x0; split; [apply filter_In; split; assumption|exact Hx]
         |subst x; congruence]). }
    destruct Hin as [x0 [Hx0 Hx']]. rewrite Hsel in Hx0.
    destruct Hx0 as [Hx0|[]]. subst x0. exact Hx'. }
  clear Hx.
  rewrite fold_left_app in Hx'.
  destruct (sqlParts_of_rector_estado (user_id user) (now e) b s cur Hs)
    as [He [Hro [Hsi Hac]]].
  destruct (fold_asignar_personal (parte_contraseña e b)
              (fold_left asignar (sqlParts_of "Rector" (user_id user) (now e) b) cur)
              (parte_contraseña_personal e b)) as [_ [Hp2 [Hp3 [Hp4 Hp5]]]].
  rewrite <- Hx' in Hp2, Hp3, Hp4, Hp5.
  split; [congruence|]. split.
  - intros Hsx. destruct (Hsi Hsx) as [Hf Hi].
    split; [congruence|]. split; [congruence|].
    intros Hrx.
    assert (Hd : desasigna b cur = true).
    { unfold desasigna. rewrite Hs.
      assert (Hor : JS.or_else (Some s) (adm_estado cur) = s)
        by (destruct Hsx as [Hsx|Hsx]; rewrite Hsx; reflexivity).
      rewrite Hor.
      assert (Hss : ((s =? "suspendido") || (s =? "inactivo")) = true)
        by (destruct Hsx as [Hsx|Hsx]; rewrite Hsx; reflexivity).
      rewrite Hss, andb_true_r.
      rewrite Hp2, Hro in Hrx.
      destruct (uu_rol b) as [v|]; cbn; rewrite Hrx; reflexivity. }
    unfold actualizado. rewrite Hd. unfold select_admin_carrera_by_admin. cbn.
    apply filter_delete_where.
  - intros Hsx. destruct (Hac Hsx) as [Hf Hi].
    split; [congruence|]. split; [congruence|].
    assert (Hd : desasigna b cur = false).
    { unfold desasigna. rewrite Hs, Hsx. cbn. apply andb_false_r. }
    unfold actualizado. rewrite Hd. reflexivity.
Qed.

(** The Rector suspends the Coordinador 2: the row carries the time and
    the Rector, and career 10 is left without coordinator. *)
Lemma cambio_de_estado_por_rector_witness :
  adm_fecha_eliminacion Ejemplo.coordinador_suspendido = Some (now Ejemplo.entorno)
  /\ adm_id_administrador_eliminacion Ejemplo.coordinador_suspendido
     = Some (user_id Ejemplo.user_rectora)
  /\ (rol Ejemplo.coordinador_suspendido = "Coordinador" ->
      select_admin_carrera_by_admin 2
        (snd (serve (updateUserByAdmin Ejemplo.user_rectora (canonico 2)
                           Ejemplo.suspension)
                    Ejemplo.entorno Ejemplo.db)) = []).
Proof.
  refine (proj1 (proj2 (cambio_de_estado_por_rector Ejemplo.entorno
            Ejemplo.user_rectora (canonico 2) Ejemplo.suspension Ejemplo.db
            (mkResponse 200 (JMessage "Administrador actualizado con éxito."))
            _ "suspendido" _ _ _ _ _ Ejemplo.coordinador_suspendido _)) _).
  - vm_compute. reflexivity.
  - reflexivity.
  - reflexivity.
  - reflexivity.
  - unfold clave_primaria. cbn. lia.
  - vm_compute. left. reflexivity.
  - left. reflexivity.
Defined.

(* ----------------------------------------------------------------- *)
(** *** Careers: soft-delete, update, lists and creation *)

(** X13.  [deleteCarrera] is all or nothing and does not reach below
    the career.  An answer other than 200 leaves the store as it was,
    whichever storage call failed.  A 200 is given to a Rector only, and
    then: every row of the career is 'inactiva', no assignment to the
    career is left, the rows of the other careers and the assignments
    to them are untouched, and so are the administrators, the subjects,
    the schedule slots and the prerequisite edges, those of the deleted
    career included. *)
Theorem deleteCarrera_atomic : forall e user id db resp db',
  serve (deleteCarrera user id) e db = (Some resp, db') ->
  (status resp <> 200%nat -> db' = db)
  /\ (status resp = 200%nat ->
      user_rol user = "Rector"
      /\ asignaciones_de id db' = []
      /\ (forall c, In c (select_carrera id db') -> car_estado c = "inactiva")
      /\ Forall2 (fun c c' => id_carrera c <> id -> c' = c) (carrera db) (carrera db')
      /\ (forall ac, In ac (admin_carrera db) -> ac_id_carrera ac <> id ->
                     In ac (admin_carrera db'))
      /\ administrador db' = administrador db
      /\ materia db' = materia db
      /\ horario db' = horario db
      /\ correlatividad db' = correlatividad db).
Proof.
  intros e user id db resp db' H.
  assert (Hcases : (db' = db /\ status resp <> 200%nat)
                   \/ (status resp = 200%nat
                       /\ user_rol user = "Rector"
                       /\ db' = snd (delete_admin_carrera_by_carrera id
                                  (snd (soft_delete_carrera (now e) (user_id user) id db))))).
  { unfold deleteCarrera in H. revert H. run.
    destruct (user_rol user =? "Rector") eqn:Hrol; cbn.
    2:{ intros H; inversion H; subst. left. split; [reflexivity|discriminate]. }
    apply String.eqb_eq in Hrol.
    repeat (destr_goal; cbn); intros H; inversion H; subst; cbn;
      try (left; split; [reflexivity|discriminate]);
      right; repeat split; auto. }
  destruct Hcases as [[Hdb Hst]|[Hst [Hrol Hdb]]].
  - split; [intros _; exact Hdb|intros Hc; contradiction].
  - split; [intros Hc; contradiction|]. intros _.
    split; [exact Hrol|]. subst db'. cbn.
    split; [|split; [|split; [|split]]].
    + unfold asignaciones_de. cbn. apply filter_delete_where.
    + intros c Hc. unfold select_carrera in Hc. cbn in Hc.
      apply filter_In in Hc. destruct Hc as [Hc Hid].
      rewrite ?fold_update_where in Hc.
      apply In_update_where in Hc. destruct Hc as [c0 [_ Hc]].
      destruct ((id_carrera c0 =? id)%Z && negb (car_estado c0 =? "inactiva")) eqn:E.
      * subst c. reflexivity.
      * subst c0. rewrite Hid in E. cbn in E.
        apply negb_false_iff, String.eqb_eq in E. exact E.
    + rewrite ?fold_update_where. apply Forall2_update_where. intros c _.
      destruct ((id_carrera c =? id)%Z && negb (car_estado c =? "inactiva")) eqn:E;
        [|reflexivity].
      intros Hne. apply andb_true_iff in E. destruct E as [E _].
      apply Z.eqb_eq in E. contradiction.
    + intros ac Hin Hne. apply In_delete_where. split; [exact Hin|].
      apply Z.eqb_neq. exact Hne.
    + repeat split.
Qed.

(** The Rector deletes the career 10 while the delete of its
    assignments (call number 3, after the update of the career) fails. *)
Lemma deleteCarrera_atomic_witness :
  snd (serve (deleteCarrera Ejemplo.user_rectora 10) (Ejemplo.entorno_falla 3)
             Ejemplo.db)
  = Ejemplo.db.
Proof.
  refine (proj1 (deleteCarrera_atomic (Ejemplo.entorno_falla 3) Ejemplo.user_rectora
                   10 Ejemplo.db
                   (mkResponse 500 (JMessage "Error interno del servidor al eliminar lógicamente la carrera."))
                   _ _) _).
  - vm_compute. reflexivity.
  - discriminate.
Defined.

(** X14.  Who may change a career through [updateCarrera].  If a
    request changes the store, then the body names the four data
    columns; a Coordinador who sent it is assigned to the career; and a
    state that the body names is 'activa', or it is 'cerrada' or
    'inactiva' and the request is the Rector's. *)
Theorem updateCarrera_permisos : forall e user id b db,
  snd (serve (updateCarrera user id b) e db) <> db ->
  (JS.truthy (uc_nombre_carrera b) && JS.truthy (uc_duracion b)
   && JS.truthy (uc_modalidad b) && JS.truthy (uc_año_aprobacion b) = true)
  /\ (user_rol user = "Coordinador" -> select_relaciones (user_id user) id db <> [])
  /\ (forall s, uc_estado b = Some s -> s <> "" ->
        s = "activa"
        \/ ((s = "cerrada" \/ s = "inactiva") /\ user_rol user = "Rector")).
Proof.
  intros e user id b db Hne. unfold updateCarrera in Hne.
  destruct (JS.truthy (uc_nombre_carrera b)); [|exfalso; apply Hne; reflexivity].
  destruct (JS.truthy (uc_duracion b)); [|exfalso; apply Hne; reflexivity].
  destruct (JS.truthy (uc_modalidad b)); [|exfalso; apply Hne; reflexivity].
  destruct (JS.truthy (uc_año_aprobacion b)); [|exfalso; apply Hne; reflexivity].
  cbn [negb orb] in Hne. split; [reflexivity|].
  destruct (JS.truthy (uc_estado b)
            && negb (JS.or_else (uc_estado b) "" =? "activa")
            && negb (JS.or_else (uc_estado b) "" =? "cerrada")
            && negb (JS.or_else (uc_estado b) "" =? "inactiva")) eqn:H1;
    [exfalso; apply Hne; reflexivity|].
  destruct (JS.truthy (uc_estado b)
            && ((JS.or_else (uc_estado b) "" =? "cerrada")
                || (JS.or_else (uc_estado b) "" =? "inactiva"))
            && negb (user_rol user =? "Rector")) eqn:H2;
    [exfalso; apply Hne; reflexivity|].
  split.
  - intros Hrol Hrel. apply Hne.
    apply String.eqb_eq in Hrol. rewrite Hrol. run.
    destruct (faults e 0%nat); cbn; [reflexivity|].
    rewrite Hrel. reflexivity.
  - intros s Hs Hs0. rewrite Hs in H1, H2. cbn in H1, H2.
    apply String.eqb_neq in Hs0. rewrite Hs0 in H1, H2. cbn in H1, H2.
    destruct (s =? "activa") eqn:Ea; [left; apply String.eqb_eq; exact Ea|].
    right. cbn in H1.
    destruct (s =? "cerrada") eqn:Ec; cbn in H1, H2.
    + split; [left; apply String.eqb_eq; exact Ec|].
      apply negb_false_iff, String.eqb_eq in H2. exact H2.
    + destruct (s =? "inactiva") eqn:Ei; cbn in H1, H2; [|discriminate].
      split; [right; apply String.eqb_eq; exact Ei|].
      apply negb_false_iff, String.eqb_eq in H2. exact H2.
Qed.

(** The Rector hands career 10 over to the administrator 3. *)
Lemma updateCarrera_permisos_witness :
  (JS.truthy (uc_nombre_carrera Ejemplo.cambio_de_coordinador)
   && JS.truthy (uc_duracion Ejemplo.cambio_de_coordinador)
   && JS.truthy (uc_modalidad Ejemplo.cambio_de_coordinador)
   && JS.truthy (uc_año_aprobacion Ejemplo.cambio_de_coordinador) = true)
  /\ (user_rol Ejemplo.user_rectora = "Coordinador" ->
      select_relaciones (user_id Ejemplo.user_rectora) 10 Ejemplo.db <> [])
  /\ (forall s, uc_estado Ejemplo.cambio_de_coordinador = Some s -> s <> "" ->
        s = "activa"
        \/ ((s = "cerrada" \/ s = "inactiva") /\ user_rol Ejemplo.user_rectora = "Rector")).
Proof.
  refine (updateCarrera_permisos Ejemplo.entorno Ejemplo.user_rectora 10
            Ejemplo.cambio_de_coordinador Ejemplo.db _).
  vm_compute. discriminate.
Defined.

Lemma getCarreras_alcance : forall u e db k r w,
  user_rol u = "Coordinador" ->
  getCarreras u e (mkWorld db db false k) = (r, w) ->
  durable w = db
  /\ exists resp, r = Ok resp /\ en_alcance (carreras_de (user_id u) db) (body resp).
Proof.
  intros u e db k r w Hrol. unfold getCarreras. rewrite Hrol.
  cbn [String.eqb Ascii.eqb Bool.eqb]. run.
  destruct (faults e k); cbn; intros H; inversion H; subst;
    (split; [reflexivity|]); eexists; (split; [reflexivity|]); cbn; auto.
  intros x Hx. apply In_order_by in Hx. apply nodup_In in Hx.
  apply in_map_iff in Hx. destruct Hx as [row [Hrow Hin]].
  apply filter_In in Hin. destruct Hin as [_ Hp].
  subst x. cbn. apply andb_true_iff in Hp. apply Hp.
Qed.

Lemma getMateriasAll_alcance : forall a db q e k r w,
  rol a = "Coordinador" ->
  getMateriasAll (usuario_de a db) q e (mkWorld db db false k) = (r, w) ->
  durable w = db
  /\ exists resp, r = Ok resp
       /\ en_alcance (carreras_de (id_administrador a) db) (body resp).
Proof.
  intros a db q e k r w Hrol. unfold getMateriasAll, usuario_de.
  cbn [user_rol carreras_a_cargo_ids]. rewrite Hrol. cbn [String.eqb Ascii.eqb Bool.eqb].
  destruct (sin_carreras (Some (carreras_de (id_administrador a) db))).
  { intros H; inversion H; subst. split; [reflexivity|].
    eexists. split; [reflexivity|]. cbn. intros m []. }
  run.
  destruct (faults e k); cbn; intros H; inversion H; subst;
    (split; [reflexivity|]); eexists; (split; [reflexivity|]); cbn; auto.
  intros m Hm. apply In_order_by in Hm. apply filter_In in Hm.
  destruct Hm as [_ Hp]. apply andb_true_iff in Hp. destruct Hp as [Hp _].
  apply andb_true_iff in Hp. apply Hp.
Qed.

Lemma getHorariosPorMateria_alcance : forall u q e db k r w,
  user_rol u = "Coordinador" ->
  getHorariosPorMateria u q e (mkWorld db db false k) = (r, w) ->
  durable w = db
  /\ exists resp, r = Ok resp /\ en_alcance (carreras_de (user_id u) db) (body resp).
Proof.
  intros u q e db k r w Hrol. unfold getHorariosPorMateria.
  destruct q as [idm|].
  2:{ intros H; inversion H; subst. split; [reflexivity|].
      eexists. split; [reflexivity|]. cbn. intros x []. }
  rewrite Hrol. cbn [String.eqb Ascii.eqb Bool.eqb]. run.
  destruct (faults e k); cbn; intros H; inversion H; subst;
    (split; [reflexivity|]); eexists; (split; [reflexivity|]); cbn; auto.
  intros x Hx. apply In_order_by in Hx. apply In_flat_map_if3 in Hx.
  repeat (apply andb_true_iff in Hx; destruct Hx as [Hx ?]).
  match goal with
  | Heq : (mat_id_carrera _ =? id_carrera _)%Z = true |- _ =>
      apply Z.eqb_eq in Heq; rewrite Heq
  end.
  assumption.
Qed.

Lemma getCorrelatividadesPorMateria_alcance : forall u idm e db k r w,
  user_rol u = "Coordinador" ->
  getCorrelatividadesPorMateria u idm e (mkWorld db db false k) = (r, w) ->
  durable w = db
  /\ exists resp, r = Ok resp /\ en_alcance (carreras_de (user_id u) db) (body resp).
Proof.
  intros u idm e db k r w Hrol. unfold getCorrelatividadesPorMateria.
  rewrite Hrol. cbn [String.eqb Ascii.eqb Bool.eqb]. run.
  destruct (faults e k); cbn; intros H; inversion H; subst;
    (split; [reflexivity|]); eexists; (split; [reflexivity|]); cbn; auto.
  intros x Hx. apply In_order_by in Hx. apply In_flat_map_if3 in Hx.
  apply andb_true_iff in Hx. apply Hx.
Qed.

(** X15.  The lists of a Coordinador stay within the careers in charge.
    When the token names a Coordinador, each of the four list routes
    leaves the store as it is, and every row of a list it answers with
    belongs to a career that [admin_carrera] assigns to that
    Coordinador: a career of the list of careers is one of them, and so
    is the career of the subject of a listed subject, schedule slot or
    prerequisite edge. *)
Theorem coordinador_lee_en_su_alcance : forall l id e db a rest resp db',
  select_administrador id db = a :: rest ->
  rol a = "Coordinador" ->
  serve (ruta_lista l (Token id)) e db = (Some resp, db') ->
  db' = db /\ en_alcance (carreras_de id db) (body resp).
Proof.
  intros l id e db a rest resp db' Hsel Hrol H.
  pose proof (filter_head_true _ _ _ _ Hsel) as Hid. cbn in Hid.
  apply Z.eqb_eq in Hid.
  unfold serve in H.
  destruct (ruta_lista l (Token id) e (mkWorld db db false 0)) as [r w] eqn:Hr.
  assert (Hu : user_rol (usuario_de a db) = "Coordinador") by exact Hrol.
  assert (Hadm : forall next, admin (usuario_de a db) next = next).
  { intros next. unfold admin. rewrite Hu. reflexivity. }
  assert (Hrun : durable w = db
                 /\ exists resp0, r = Ok resp0
                      /\ en_alcance (carreras_de id db) (body resp0)).
  { destruct l; cbn [ruta_lista] in Hr;
      unfold route_getCarreras, route_getMateriasAll, route_getHorariosPorMateria,
        route_getCorrelatividadesPorMateria in Hr;
      apply protect_inv in Hr;
      destruct Hr as [[Hd [n [m [Hr0 _]]]]|[id' [a' [rest' [k [Hc [Hsel' [_ Hrun]]]]]]]].
    all: try (split; [exact Hd|]; eexists; split; [exact Hr0|]; exact I).
    all: inversion Hc; subst id'; rewrite Hsel in Hsel';
         inversion Hsel'; subst a' rest'; rewrite Hadm in Hrun.
    - apply getCarreras_alcance in Hrun; [|exact Hu].
      unfold usuario_de in Hrun. cbn [user_id] in Hrun. rewrite Hid in Hrun. exact Hrun.
    - apply getMateriasAll_alcance in Hrun; [|exact Hrol].
      rewrite Hid in Hrun. exact Hrun.
    - apply getHorariosPorMateria_alcance in Hrun; [|exact Hu].
      unfold usuario_de in Hrun. cbn [user_id] in Hrun. rewrite Hid in Hrun. exact Hrun.
    - apply getCorrelatividadesPorMateria_alcance in Hrun; [|exact Hu].
      unfold usuario_de in Hrun. cbn [user_id] in Hrun. rewrite Hid in Hrun. exact Hrun. }
  destruct Hrun as [Hd [resp0 [Hr0 Hen]]]. subst r.
  inversion H; subst. split; [reflexivity|exact Hen].
Qed.

(** The Coordinador 2 lists the subjects: all are of career 10. *)
Lemma coordinador_lee_en_su_alcance_witness :
  snd (serve (ruta_lista (ListaMaterias None) (Token 2)) Ejemplo.entorno Ejemplo.db)
  = Ejemplo.db
  /\ en_alcance (carreras_de 2 Ejemplo.db)
       (JMaterias [Ejemplo.algebra; Ejemplo.programacion]).
Proof.
  refine (coordinador_lee_en_su_alcance (ListaMaterias None) 2 Ejemplo.entorno
            Ejemplo.db Ejemplo.coordinador []
            (mkResponse 200 (JMaterias [Ejemplo.algebra; Ejemplo.programacion]))
            _ _ _ _).
  - reflexivity.
  - reflexivity.
  - vm_compute. reflexivity.
Defined.

(** X16.  [createCarrera] creates the career and its first assignment
    together or not at all.  An answer other than 201 leaves the store
    as it was, whichever storage call failed.  A 201 is given to a
    Rector only, for a body that names the four data columns and a
    coordinator, and then the store has one career more, in state
    'activa' with the data of the body and empty audit columns, and one
    assignment more, of that coordinator to that career; nothing else is
    changed. *)
Theorem createCarrera_atomic : forall insertId e user b db resp db',
  atender (createCarrera insertId user b) e db = (Some resp, db') ->
  (codigo resp <> 201%nat -> db' = db)
  /\ (codigo resp = 201%nat ->
      user_rol user = "Rector"
      /\ exists nombre duracion_ modalidad_ año_ coord,
           uc_nombre_carrera b = Some nombre
           /\ uc_duracion b = Some duracion_
           /\ uc_modalidad b = Some modalidad_
           /\ uc_año_aprobacion b = Some año_
           /\ uc_id_coordinador b = Some coord
           /\ coord <> 0
           /\ carrera db'
              = carrera db
                ++ [mkCarrera insertId nombre duracion_ modalidad_ año_ "activa"
                              None None]
           /\ admin_carrera db' = admin_carrera db ++ [mkAdminCarrera coord insertId]
           /\ administrador db' = administrador db
           /\ materia db' = materia db
           /\ horario db' = horario db
           /\ correlatividad db' = correlatividad db).
Proof.
  intros insertId e user b db resp db'. unfold createCarrera.
  destruct (user_rol user =? "Rector") eqn:Hrol; cbn [negb].
  2:{ intros H; inversion H; subst. split; [reflexivity|discriminate]. }
  apply String.eqb_eq in Hrol.
  destruct (uc_nombre_carrera b) as [nombre|]; cbn [JS.truthy JS.or_else negb orb].
  2:{ intros H; inversion H; subst. split; [reflexivity|discriminate]. }
  destruct (nombre =? "") eqn:E1; cbn [negb orb].
  { intros H; inversion H; subst. split; [reflexivity|discriminate]. }
  destruct (uc_duracion b) as [duracion_|]; cbn [JS.truthy JS.or_else negb orb].
  2:{ intros H; inversion H; subst. split; [reflexivity|discriminate]. }
  destruct (duracion_ =? "") eqn:E2; cbn [negb orb].
  { intros H; inversion H; subst. split; [reflexivity|discriminate]. }
  destruct (uc_modalidad b) as [modalidad_|]; cbn [JS.truthy JS.or_else negb orb].
  2:{ intros H; inversion H; subst. split; [reflexivity|discriminate]. }
  destruct (modalidad_ =? "") eqn:E3; cbn [negb orb].
  { intros H; inversion H; subst. split; [reflexivity|discriminate]. }
  destruct (uc_año_aprobacion b) as [año_|]; cbn [JS.truthy JS.or_else negb orb].
  2:{ intros H; inversion H; subst. split; [reflexivity|discriminate]. }
  destruct (año_ =? "") eqn:E4; cbn [negb orb].
  { intros H; inversion H; subst. split; [reflexivity|discriminate]. }
  destruct (uc_id_coordinador b) as [coord|]; cbn [JS.truthy_num negb orb].
  2:{ intros H; inversion H; subst. split; [reflexivity|discriminate]. }
  destruct (coord =? 0)%Z eqn:E5; cbn [negb orb].
  { intros H; inversion H; subst. split; [reflexivity|discriminate]. }
  apply Z.eqb_neq in E5.
  correr.
  repeat (destr_goal; cbn); intros H; inversion H; subst; cbn;
    try (split; [reflexivity|discriminate]).
  split; [intros Hc; exfalso; apply Hc; reflexivity|]. intros _.
  split; [exact Hrol|].
  exists nombre, duracion_, modalidad_, año_, coord. repeat split; auto.
Qed.

(** The Rector creates a career while the insert of its assignment
    (call number 3, after the insert of the career) fails. *)
Lemma createCarrera_atomic_witness :
  snd (atender (createCarrera 12 Ejemplo.user_rectora Ejemplo.letras)
               (Ejemplo.entorno_falla 3) Ejemplo.db)
  = Ejemplo.db.
Proof.
  refine (proj1 (createCarrera_atomic 12 (Ejemplo.entorno_falla 3)
                   Ejemplo.user_rectora Ejemplo.letras Ejemplo.db
                   (mkRespuesta 500 (Json (JMessage "Error interno del servidor al crear carrera y asignar coordinador.")))
                   _ _) _).
  - vm_compute. reflexivity.
  - discriminate.
Defined.

(* ----------------------------------------------------------------- *)
(** *** Subjects: creation and edition within reach *)

(** X17.  [createMateria] checks the career that [parseInt] reads and
    stores what the column makes of the raw value.  If a request
    changes the store, the career that [parseInt] reads from the body
    is within reach of the administrator (for a Coordinador, [includes]
    finds it among the careers in charge), and the change is one
    subject more, at the end of the table, with the data of the body
    and, as its career, the number that the column holds once the raw
    value is written to it; that career is within reach when it is the
    number that [parseInt] reads.  No other row and no other table is
    changed. *)
Theorem createMateria_alcance :
  forall parseInt escrito insertId estado_inicial e user b db,
  snd (atender (createMateria parseInt escrito insertId estado_inicial user b) e db)
  <> db ->
  a_su_alcance parseInt user (parseInt (mb_id_carrera b))
  /\ materia (snd (atender (createMateria parseInt escrito insertId estado_inicial
                              user b) e db))
     = materia db
       ++ [mkMateria insertId (mb_nombre_materia b) (escrito (mb_id_carrera b))
                     (mb_año b) (mb_campo_formacion b) (mb_modalidad b) (mb_formato b)
                     (mb_horas_semanales b) (mb_total_horas_anuales b)
                     (mb_acreditacion b) estado_inicial None None]
  /\ (parseInt (mb_id_carrera b) = Some (escrito (mb_id_carrera b)) ->
      a_su_alcance parseInt user (Some (escrito (mb_id_carrera b))))
  /\ mismas_tablas_salvo_materia db
       (snd (atender (createMateria parseInt escrito insertId estado_inicial user b)
                     e db)).
Proof.
  intros parseInt escrito insertId estado_inicial e user b db.
  unfold createMateria.
  set (crear := try_catch _ _).
  assert (Hcrear : a_su_alcance parseInt user (parseInt (mb_id_carrera b)) ->
    snd (atender crear e db) <> db ->
    a_su_alcance parseInt user (parseInt (mb_id_carrera b))
    /\ materia (snd (atender crear e db))
       = materia db
         ++ [mkMateria insertId (mb_nombre_materia b) (escrito (mb_id_carrera b))
                       (mb_año b) (mb_campo_formacion b) (mb_modalidad b)
                       (mb_formato b) (mb_horas_semanales b)
                       (mb_total_horas_anuales b) (mb_acreditacion b)
                       estado_inicial None None]
    /\ (parseInt (mb_id_carrera b) = Some (escrito (mb_id_carrera b)) ->
        a_su_alcance parseInt user (Some (escrito (mb_id_carrera b))))
    /\ mismas_tablas_salvo_materia db (snd (atender crear e db))).
  { intros HP. unfold crear. correr.
    destruct (faults e 0%nat) as [err|]; cbn.
    - destruct err; cbn; intros Hne; exfalso; apply Hne; reflexivity.
    - intros _. split; [exact HP|]. split; [reflexivity|].
      split; [intros Heq; rewrite <- Heq; exact HP|repeat split]. }
  destruct (user_rol user =? "Coordinador") eqn:Hc.
  - apply String.eqb_eq in Hc.
    destruct (carreras_a_cargo_ids user) as [ids|] eqn:Hids.
    2:{ intros Hne. exfalso. apply Hne. reflexivity. }
    destruct (includes (carrerasAsignadas_de parseInt ids) (parseInt (mb_id_carrera b)))
      eqn:Hen; cbn [negb].
    2:{ intros Hne. exfalso. apply Hne. reflexivity. }
    apply Hcrear. right. split; [exact Hc|]. exists ids. split; [exact Hids|exact Hen].
  - destruct (user_rol user =? "Rector") eqn:Hr; cbn [negb].
    2:{ intros Hne. exfalso. apply Hne. reflexivity. }
    apply String.eqb_eq in Hr. apply Hcrear. left. exact Hr.
Qed.

(** The Coordinador 2 creates a subject in career 10. *)
Lemma createMateria_alcance_witness :
  a_su_alcance Ejemplo.entero Ejemplo.user_coordinador
    (Ejemplo.entero (mb_id_carrera Ejemplo.analisis)).
Proof.
  refine (proj1 (createMateria_alcance Ejemplo.entero Ejemplo.escrito 104 "activa"
                   Ejemplo.entorno Ejemplo.user_coordinador Ejemplo.analisis
                   Ejemplo.db _)).
  vm_compute. discriminate.
Defined.

(** X18.  [updateMateria] edits the subjects within reach and leaves
    alone what was soft-deleted.  Whatever the request and whichever
    storage call fails, every row of [materia] keeps its place, and a
    row that is not what it was had the identifier of the request, was
    in state 'activa' and was of a career within reach of the
    administrator; it still has its identifier, its state and its audit
    columns, its data are those of the body and its career is the
    number that the column holds once the raw value is written to it;
    and for a Coordinador the raw value is falsy or the career that
    [parseInt] reads from it is within reach.  The other tables are
    untouched. *)
Theorem updateMateria_alcance : forall parseInt escrito e user id b db,
  Forall2 (fun m m' =>
       m' = m
       \/ (id_materia m = id
           /\ mat_estado m = "activa"
           /\ a_su_alcance parseInt user (Some (mat_id_carrera m))
           /\ (user_rol user = "Coordinador" ->
               verdadero (mb_id_carrera b) = false
               \/ a_su_alcance parseInt user (parseInt (mb_id_carrera b)))
           /\ m' = mkMateria (id_materia m) (mb_nombre_materia b)
                      (escrito (mb_id_carrera b))
                      (mb_año b) (mb_campo_formacion b) (mb_modalidad b)
                      (mb_formato b) (mb_horas_semanales b)
                      (mb_total_horas_anuales b) (mb_acreditacion b)
                      (mat_estado m) (mat_fecha_eliminacion m)
                      (mat_id_administrador_eliminacion m)))
    (materia db)
    (materia (snd (serve (updateMateria parseInt escrito user id b) e db)))
  /\ mismas_tablas_salvo_materia db
       (snd (serve (updateMateria parseInt escrito user id b) e db)).
Proof.
  intros parseInt escrito e user id b db.
  assert (Hsame : forall P : Materia -> Materia -> Prop,
            Forall2 (fun m m' => m' = m \/ P m m') (materia db) (materia db)).
  { intros P. apply Forall2_same. intros m _. left. reflexivity. }
  unfold updateMateria.
  destruct (user_rol user =? "Coordinador") eqn:Hc.
  - apply String.eqb_eq in Hc.
    destruct (carreras_a_cargo_ids user) as [[|c0 cs]|] eqn:Hids.
    1,3: cbn; split; [apply Hsame|repeat split].
    destruct (verdadero (mb_id_carrera b)
              && negb (includes (carrerasAsignadas_de parseInt (c0 :: cs))
                                (parseInt (mb_id_carrera b)))) eqn:Hre.
    { cbn. split; [apply Hsame|repeat split]. }
    run. destruct (faults e 0%nat) as [err|]; cbn.
    { destruct err; cbn; (split; [apply Hsame|repeat split]). }
    match goal with |- context [if ?c then _ else _] => destruct c end; cbn.
    all: split; [|repeat split].
    all: rewrite ?fold_update_where; apply Forall2_update_where; intros m _.
    all: match goal with |- context [if ?c then _ else _] => destruct c eqn:Hp end;
         [|left; reflexivity].
    all: right; apply andb_true_iff in Hp; destruct Hp as [Hp He];
         apply andb_true_iff in Hp; destruct Hp as [Hi Hs];
         apply Z.eqb_eq in Hi; apply String.eqb_eq in He.
    all: split; [exact Hi|]; split; [exact He|]; split;
         [right; split; [exact Hc|]; exists (c0 :: cs); split; [exact Hids|exact Hs]|].
    all: split; [|reflexivity]; intros _.
    all: apply andb_false_iff in Hre; destruct Hre as [Hre|Hre];
         [left; exact Hre
         |right; right; split; [exact Hc|]; exists (c0 :: cs);
          split; [exact Hids|]; apply negb_false_iff in Hre; exact Hre].
  - destruct (user_rol user =? "Rector") eqn:Hr; cbn [negb].
    2:{ cbn. split; [apply Hsame|repeat split]. }
    apply String.eqb_eq in Hr.
    run. destruct (faults e 0%nat) as [err|]; cbn.
    { destruct err; cbn; (split; [apply Hsame|repeat split]). }
    match goal with |- context [if ?c then _ else _] => destruct c end; cbn.
    all: split; [|repeat split].
    all: rewrite ?fold_update_where; apply Forall2_update_where; intros m _.
    all: match goal with |- context [if ?c then _ else _] => destruct c eqn:Hp end;
         [|left; reflexivity].
    all: right; apply andb_true_iff in Hp; destruct Hp as [Hp He];
         apply andb_true_iff in Hp; destruct Hp as [Hi _];
         apply Z.eqb_eq in Hi; apply String.eqb_eq in He.
    all: split; [exact Hi|]; split; [exact He|]; split; [left; exact Hr|].
    all: split; [|reflexivity]; intros Hx; rewrite Hr in Hx; discriminate.
Qed.
(* ----------------------------------------------------------------- *)
(** *** The access of a Coordinador to a subject *)

Lemma flat_map_nil : forall {A B} (f : A -> list B) l,
  (forall x, In x l -> f x = []) -> flat_map f l = [].
Proof.
  intros A B f l. induction l as [|x l IH]; intros H; cbn; [reflexivity|].
  rewrite (H x (or_introl eq_refl)), IH; [reflexivity|].
  intros y Hy. apply H. right. exact Hy.
Qed.

Lemma checkMateriaAccess_rows_sin_activo : forall idm uid db,
  sin_materia_en_activo db -> checkMateriaAccess_rows idm uid db = [].
Proof.
  intros idm uid db H. unfold checkMateriaAccess_rows.
  apply flat_map_nil. intros m Hm.
  apply flat_map_nil. intros ac _.
  apply flat_map_nil. intros a _.
  rewrite (proj2 (String.eqb_neq _ _) (H m Hm)), andb_false_r. reflexivity.
Qed.

Lemma validateRequiredFields_400 : forall fields r,
  validateRequiredFields fields = Some r -> status r = 400%nat.
Proof.
  induction fields as [|[f p] fields IH]; cbn; intros r H; [discriminate|].
  destruct p; cbn in H; [apply IH; exact H|].
  inversion H. reflexivity.
Qed.

Ltac correr' :=
  cbv beta iota zeta delta
    [atender responder mensaje serve try_catch bind ret send send_json await
     pool_query conn_query getConnection beginTransaction commit rollback
     get_now hash collation reading writing next_tick throw generateToken
     verify_reset elevar checkMateriaAccess checkMateriaAccess_crudo];
  cbn [durable work intx tick fst snd].

(** The answer is one of refusal, with the store left as it was. *)
Ltac rechazo :=
  cbn; split; [reflexivity|];
  let r := fresh "r" in let Hr := fresh "Hr" in
  intros r Hr; inversion Hr; cbn; auto 6.

(** X19.  While no subject is in state 'activo', a Coordinador writes
    no schedule slot and no prerequisite edge.  [checkMateriaAccess]
    asks for a subject in state 'activo', and the reads, the edit and
    the soft-delete of subjects use the states 'activa' and 'inactiva'.
    On a store where no subject is in state 'activo',
    [checkMateriaAccess] answers [true] for no subject and no
    administrator, and each of the six writes (create, edit,
    soft-delete of a slot or of an edge) asked by a Coordinador leaves
    the store as it was and answers, if at all, 400, 403, 404 or
    500. *)
Theorem coordinador_sin_acceso : forall escrito comparado w user e db,
  sin_materia_en_activo db ->
  (forall idm uid, fst (atender (checkMateriaAccess idm uid) e db) <> Some true)
  /\ (user_rol user = "Coordinador" ->
      snd (atender (escribir escrito comparado w user) e db) = db
      /\ forall r, fst (atender (escribir escrito comparado w user) e db) = Some r ->
           codigo r = 400%nat \/ codigo r = 403%nat
           \/ codigo r = 404%nat \/ codigo r = 500%nat).
Proof.
  intros escrito comparado w user e db Hsin.
  assert (Hnil : forall idm uid, checkMateriaAccess_rows idm uid db = [])
    by (intros; apply checkMateriaAccess_rows_sin_activo; exact Hsin).
  split.
  { intros idm uid. correr'. destruct (faults e 0%nat); cbn; [discriminate|].
    rewrite Hnil. discriminate. }
  intros Hrol.
  destruct w as [insertId b|id b|id|insertId b|id b|id]; cbn [escribir].
  - unfold createHorario.
    destruct (validateRequiredFields (campos_horario b)) as [r0|] eqn:Hv.
    { apply validateRequiredFields_400 in Hv. cbn. split; [reflexivity|].
      intros r Hr. inversion Hr. cbn. auto. }
    rewrite Hrol. cbn [String.eqb Ascii.eqb Bool.eqb]. correr'.
    destruct (faults e 0%nat); [rechazo|]. cbn. rewrite Hnil. rechazo.
  - unfold updateHorario.
    destruct (validateRequiredFields (campos_horario b)) as [r0|] eqn:Hv.
    { apply validateRequiredFields_400 in Hv. cbn. split; [reflexivity|].
      intros r Hr. inversion Hr. cbn. auto. }
    rewrite Hrol. cbn [String.eqb Ascii.eqb Bool.eqb]. correr'.
    destruct (faults e 0%nat); [rechazo|]. cbn. rewrite Hnil. rechazo.
  - unfold deleteHorario. rewrite Hrol. cbn [String.eqb Ascii.eqb Bool.eqb].
    correr'.
    destruct (faults e 0%nat); [rechazo|]. cbn.
    destruct (select_horario id db) as [|h rest]; [rechazo|]. cbn.
    destruct (hor_estado h =? "inactiva"); [rechazo|]. cbn.
    destruct (faults e 1%nat); [rechazo|]. cbn. rewrite Hnil. rechazo.
  - unfold createCorrelatividad.
    destruct (identico (cb_id_materia_principal b) (cb_id_materia_requisito b));
      [rechazo|].
    rewrite Hrol. cbn [String.eqb Ascii.eqb Bool.eqb]. correr'.
    destruct (comparado (cb_id_materia_principal b)); correr'.
    + destruct (faults e 0%nat); [rechazo|]. cbn. rewrite Hnil. rechazo.
    + destruct (faults e 0%nat); rechazo.
  - unfold updateCorrelatividad.
    destruct (identico (cb_id_materia_principal b) (cb_id_materia_requisito b));
      [rechazo|].
    rewrite Hrol. cbn [String.eqb Ascii.eqb Bool.eqb]. correr'.
    destruct (comparado (cb_id_materia_principal b)); correr'.
    + destruct (faults e 0%nat); [rechazo|]. cbn. rewrite Hnil. rechazo.
    + destruct (faults e 0%nat); rechazo.
  - unfold deleteCorrelatividad. rewrite Hrol. cbn [String.eqb Ascii.eqb Bool.eqb].
    correr'.
    destruct (faults e 0%nat); [rechazo|]. cbn.
    destruct (select_correlatividad id db) as [|c rest]; [rechazo|]. cbn.
    destruct (cor_estado c =? "inactiva"); [rechazo|]. cbn.
    destruct (faults e 1%nat); [rechazo|]. cbn. rewrite Hnil. rechazo.
Qed.

(** The Coordinador 2 asks for a slot for the subject 100 of career 10,
    which career 10 has in state 'activa'. *)
Lemma coordinador_sin_acceso_witness :
  snd (atender (escribir Ejemplo.escrito Ejemplo.entero
                  (CrearHorario 1002 Ejemplo.miercoles) Ejemplo.user_coordinador)
               Ejemplo.entorno Ejemplo.db) = Ejemplo.db.
Proof.
  refine (proj1 (proj2 (coordinador_sin_acceso Ejemplo.escrito Ejemplo.entero
                          (CrearHorario 1002 Ejemplo.miercoles)
                          Ejemplo.user_coordinador Ejemplo.entorno Ejemplo.db _) _)).
  - intros m Hm. cbn in Hm.
    repeat (destruct Hm as [Hm|Hm]; [subst m; discriminate|]). contradiction.
  - reflexivity.
Defined.
(* ----------------------------------------------------------------- *)
(** *** Writes on schedule slots and prerequisite edges *)

(** X22.  An edit does not reach what was soft-deleted.  After
    [updateHorario] or [updateCorrelatividad], whoever asks and
    whichever storage call fails, every row of the table keeps its
    place, and a row that is not what it was had the identifier of the
    request and was in state 'activa'; it keeps its identifier, its
    state and its audit columns. *)
Theorem edicion_solo_de_activas : forall escrito comparado user e db id,
  (forall b,
     Forall2 (fun h h' =>
          h' = h
          \/ (id_horario h = id /\ hor_estado h = "activa"
              /\ id_horario h' = id /\ hor_estado h' = "activa"
              /\ hor_fecha_eliminacion h' = hor_fecha_eliminacion h
              /\ hor_id_administrador_eliminacion h'
                 = hor_id_administrador_eliminacion h))
       (horario db) (horario (snd (serve (updateHorario user id b) e db))))
  /\ (forall b,
        Forall2 (fun c c' =>
             c' = c
             \/ (id_correlatividad c = id /\ cor_estado c = "activa"
                 /\ id_correlatividad c' = id /\ cor_estado c' = "activa"
                 /\ cor_fecha_eliminacion c' = cor_fecha_eliminacion c
                 /\ cor_id_administrador_eliminacion c'
                    = cor_id_administrador_eliminacion c))
          (correlatividad db)
          (correlatividad
             (snd (atender (updateCorrelatividad escrito comparado user id b)
                           e db)))).
Proof.
  intros escrito comparado user e db id. split.
  - intros b.
    assert (Hsame : forall P : Horario -> Horario -> Prop,
              Forall2 (fun h h' => h' = h \/ P h h') (horario db) (horario db)).
    { intros P. apply Forall2_same. intros h _. left. reflexivity. }
    assert (Hupd : forall n d s f,
              Forall2 (fun h h' =>
                   h' = h
                   \/ (id_horario h = id /\ hor_estado h = "activa"
                       /\ id_horario h' = id /\ hor_estado h' = "activa"
                       /\ hor_fecha_eliminacion h' = hor_fecha_eliminacion h
                       /\ hor_id_administrador_eliminacion h'
                          = hor_id_administrador_eliminacion h))
                (horario db) (horario (snd (update_horario n d s f id db)))).
    { intros n d s f. cbn. apply Forall2_update_where. intros h _.
      destruct ((id_horario h =? id)%Z && (hor_estado h =? "activa")) eqn:Hp;
        [|left; reflexivity].
      apply andb_true_iff in Hp. destruct Hp as [Hi He].
      apply Z.eqb_eq in Hi. apply String.eqb_eq in He.
      right. cbn. repeat split; auto. }
    unfold updateHorario.
    destruct (validateRequiredFields (campos_horario b)); [cbn; apply Hsame|].
    destruct (user_rol user =? "Coordinador").
    + correr'. destruct (faults e 0%nat); cbn; [apply Hsame|].
      destruct (checkMateriaAccess_rows _ _ db); cbn; [apply Hsame|].
      destruct (faults e 1%nat); cbn; [apply Hsame|].
      match goal with |- context [if ?c then _ else _] => destruct c end; cbn;
        apply Hupd.
    + destruct (negb (user_rol user =? "Rector")); [cbn; apply Hsame|].
      correr'. destruct (faults e 0%nat); cbn; [apply Hsame|].
      match goal with |- context [if ?c then _ else _] => destruct c end; cbn;
        apply Hupd.
  - intros b.
    assert (Hsame : forall P : Correlatividad -> Correlatividad -> Prop,
              Forall2 (fun c c' => c' = c \/ P c c')
                      (correlatividad db) (correlatividad db)).
    { intros P. apply Forall2_same. intros c _. left. reflexivity. }
    assert (Hupd :
              Forall2 (fun c c' =>
                   c' = c
                   \/ (id_correlatividad c = id /\ cor_estado c = "activa"
                       /\ id_correlatividad c' = id /\ cor_estado c' = "activa"
                       /\ cor_fecha_eliminacion c' = cor_fecha_eliminacion c
                       /\ cor_id_administrador_eliminacion c'
                          = cor_id_administrador_eliminacion c))
                (correlatividad db)
                (correlatividad (snd (update_correlatividad escrito b id db)))).
    { cbn. apply Forall2_update_where. intros c _.
      destruct ((id_correlatividad c =? id)%Z && (cor_estado c =? "activa")) eqn:Hp;
        [|left; reflexivity].
      apply andb_true_iff in Hp. destruct Hp as [Hi He].
      apply Z.eqb_eq in Hi. apply String.eqb_eq in He.
      right. cbn. repeat split; auto. }
    unfold updateCorrelatividad, error_correlatividad.
    destruct (identico (cb_id_materia_principal b) (cb_id_materia_requisito b));
      [cbn; apply Hsame|].
    destruct (user_rol user =? "Coordinador").
    + correr'. destruct (comparado (cb_id_materia_principal b)); correr'.
      * destruct (faults e 0%nat); cbn; [apply Hsame|].
        destruct (checkMateriaAccess_rows _ _ db); cbn; [apply Hsame|].
        destruct (faults e 1%nat) as [err|]; cbn; [destruct err; cbn; apply Hsame|].
        match goal with |- context [if ?c then _ else _] => destruct c end; cbn;
          apply Hupd.
      * destruct (faults e 0%nat); cbn; apply Hsame.
    + destruct (negb (user_rol user =? "Rector")); [cbn; apply Hsame|].
      correr'. destruct (faults e 0%nat) as [err|]; cbn;
        [destruct err; cbn; apply Hsame|].
      match goal with |- context [if ?c then _ else _] => destruct c end; cbn;
        apply Hupd.
Qed.

(** X23.  A created slot is read back.  When the Rector creates a slot
    with a body that names the four fields, the store assigns it an
    identifier that no slot has and the storage answers, [createHorario]
    answers 201 with that identifier and [getHorarioById] on the
    resulting store answers 200 with the six columns that it selects:
    the identifier, the slot of the body and the state 'activa'. *)
Theorem createHorario_then_get : forall insertId e e' user b db idm dia ini fin,
  user_rol user = "Rector" ->
  hb_id_materia b = Some idm -> idm <> 0 ->
  hb_dia_semana b = Some dia -> dia <> "" ->
  hb_hora_inicio b = Some ini ->
  hb_hora_fin b = Some fin ->
  select_horario insertId db = [] ->
  faults e 0%nat = None ->
  faults e' 0%nat = None ->
  exists db',
    atender (createHorario insertId user b) e db
    = (Some (mkRespuesta 201 (JHorarioCreado insertId b "Horario creado con éxito.")),
       db')
    /\ serve (getHorarioById insertId) e' db'
       = (Some (mkResponse 200
                  (JHorario (mkHorarioColumnas insertId idm dia ini fin "activa"))),
          db').
Proof.
  intros insertId e e' user b db idm dia ini fin Hrol Hm Hm0 Hd Hd0 Hi Hf Hsel F0 F0'.
  apply Z.eqb_neq in Hm0. apply String.eqb_neq in Hd0.
  unfold createHorario, campos_horario. rewrite Hm, Hd, Hi, Hf, Hrol.
  cbn [validateRequiredFields JS.truthy_num JS.truthy JS.defined JS.or_else or_zero].
  rewrite Hm0, Hd0. cbn [negb String.eqb Ascii.eqb Bool.eqb].
  correr. rewrite F0. cbn.
  eexists. split; [reflexivity|].
  unfold getHorarioById. run. rewrite F0'. cbn.
  unfold select_horario_activo. cbn. rewrite filter_app. cbn.
  rewrite Z.eqb_refl. cbn.
  assert (Hnil : filter (fun h => (id_horario h =? insertId)%Z && (hor_estado h =? "activa"))
                        (horario db) = []).
  { unfold select_horario in Hsel. clear - Hsel.
    induction (horario db) as [|h l IH]; cbn in *; auto.
    destruct (id_horario h =? insertId)%Z; cbn; [discriminate|]. auto. }
  rewrite Hnil. reflexivity.
Qed.

(** The Rector creates a slot for the subject 100 and reads it back. *)
Lemma createHorario_then_get_witness :
  exists db',
    atender (createHorario 1002 Ejemplo.user_rectora Ejemplo.miercoles)
            Ejemplo.entorno Ejemplo.db
    = (Some (mkRespuesta 201
               (JHorarioCreado 1002 Ejemplo.miercoles "Horario creado con éxito.")),
       db')
    /\ serve (getHorarioById 1002) Ejemplo.entorno db'
       = (Some (mkResponse 200
                  (JHorario (mkHorarioColumnas 1002 100 "Miércoles" 28800 36000
                                               "activa"))),
          db').
Proof.
  refine (createHorario_then_get 1002 Ejemplo.entorno Ejemplo.entorno
            Ejemplo.user_rectora Ejemplo.miercoles Ejemplo.db
            100 "Miércoles" 28800 36000 _ _ _ _ _ _ _ _ _ _).
  - reflexivity.
  - reflexivity.
  - discriminate.
  - reflexivity.
  - discriminate.
  - reflexivity.
  - reflexivity.
  - reflexivity.
  - reflexivity.
  - reflexivity.
Defined.

(* ----------------------------------------------------------------- *)
(** *** The public catalogue *)

(** [ORDER BY] on a total preorder gives a sorted list. *)
Lemma insert_by_In : forall {A} (le : A -> A -> bool) x y l,
  In y (insert_by le x l) -> y = x \/ In y l.
Proof.
  intros A le x y l. induction l as [|z l IH]; cbn.
  - intros [H|[]]; auto.
  - destruct (le x z); cbn.
    + intros [H|H]; auto.
    + intros [H|H]; auto. destruct (IH H); auto.
Qed.

Lemma order_by_sorted : forall {A} (le : A -> A -> bool),
  (forall x y, le x y = true \/ le y x = true) ->
  (forall x y z, le x y = true -> le y z = true -> le x z = true) ->
  forall l, StronglySorted (fun x y => le x y = true) (order_by le l).
Proof.
  intros A le Htot Htrans l. induction l as [|x l IH]; cbn; [constructor|].
  induction IH as [|y s Hs IHs Hy]; cbn.
  - constructor; constructor.
  - destruct (le x y) eqn:E.
    + constructor; [constructor; assumption|].
      constructor; [assumption|].
      rewrite Forall_forall in *. intros z Hz. eapply Htrans; eauto.
    + constructor; [assumption|].
      rewrite Forall_forall in *. intros z Hz.
      apply insert_by_In in Hz. destruct Hz as [->|Hz]; auto.
      destruct (Htot x y); congruence.
Qed.

Lemma NoDup_insert_by : forall {A} (le : A -> A -> bool) x l,
  ~ In x l -> NoDup l -> NoDup (insert_by le x l).
Proof.
  intros A le x l. induction l as [|y l IH]; cbn; intros Hn Hd.
  - constructor; auto.
  - destruct (le x y).
    + constructor; auto.
    + inversion Hd; subst. constructor.
      * intros Hi. apply insert_by_In in Hi. destruct Hi as [->|Hi]; auto.
      * apply IH; auto.
Qed.

Lemma NoDup_order_by : forall {A} (le : A -> A -> bool) l,
  NoDup l -> NoDup (order_by le l).
Proof.
  intros A le l Hd. induction Hd as [|x l Hn Hd IH]; cbn; [constructor|].
  apply NoDup_insert_by; auto. rewrite In_order_by. exact Hn.
Qed.

Lemma sorted_nodup_strict : forall l : list Z,
  StronglySorted (fun x y => (x <=? y)%Z = true) l -> NoDup l ->
  StronglySorted Z.lt l.
Proof.
  intros l Hs. induction Hs as [|x l Hs IH Hx]; intros Hd; [constructor|].
  inversion Hd; subst. constructor; auto.
  rewrite Forall_forall in *. intros y Hy.
  specialize (Hx y Hy). apply Z.leb_le in Hx.
  assert (x <> y) by (intros ->; contradiction). lia.
Qed.

(** X24.  The years of a career.  [getAniosByCarrera] leaves the store
    as it is.  Without the parameter it answers 400; when the storage
    fails, 500; otherwise 200 with a list that is strictly increasing
    (so no year twice) and holds exactly the years of the subjects of
    the career that are in state 'activa'. *)
Theorem getAniosByCarrera_anios : forall e db,
  atender (Cursado.getAniosByCarrera None) e db
  = (Some (mkRespuesta 400 (Json (JError "Falta parámetro: id_carrera es requerido."))), db)
  /\ forall idc,
       atender (Cursado.getAniosByCarrera (Some idc)) e db
       = (Some (mkRespuesta 500
                  (Json (JError "Error interno del servidor al obtener años."))), db)
       \/ exists rows,
            atender (Cursado.getAniosByCarrera (Some idc)) e db
            = (Some (mkRespuesta 200 (JAnios rows)), db)
            /\ StronglySorted Z.lt rows
            /\ forall a, In a rows <->
                 exists m, In m (materia db) /\ mat_id_carrera m = idc
                           /\ mat_estado m = "activa" /\ año m = a.
Proof.
  intros e db. split; [reflexivity|]. intros idc.
  unfold Cursado.getAniosByCarrera. correr.
  destruct (faults e 0%nat); cbn; [left; reflexivity|].
  right. eexists. split; [reflexivity|]. split.
  - apply sorted_nodup_strict.
    + apply order_by_sorted.
      * intros x y. rewrite !Z.leb_le. lia.
      * intros x y z. rewrite !Z.leb_le. lia.
    + apply NoDup_order_by. apply NoDup_nodup.
  - intros a. unfold Cursado.select_anios.
    rewrite In_order_by, nodup_In, in_map_iff. split.
    + intros [m [Ha Hm]]. apply filter_In in Hm. destruct Hm as [Hm Hp].
      apply andb_true_iff in Hp. destruct Hp as [Hc He].
      apply Z.eqb_eq in Hc. apply String.eqb_eq in He.
      exists m. auto.
    + intros [m [Hm [Hc [He Ha]]]]. exists m. split; [assumption|].
      apply filter_In. split; [assumption|].
      rewrite Hc, He, Z.eqb_refl. reflexivity.
Qed.

Lemma select_coordinador_coordina : forall id db x,
  In x (Cursado.select_coordinador id db) <-> coordina id db x.
Proof.
  intros id db [a ac]. unfold Cursado.select_coordinador, coordina. cbn [fst snd].
  rewrite in_flat_map. split.
  - intros [a' [Ha H]]. apply in_flat_map in H. destruct H as [ac' [Hac H]].
    destruct ((id_administrador a' =? ac_id_administrador ac')%Z
              && (ac_id_carrera ac' =? id)%Z && (rol a' =? "Coordinador")
              && (adm_estado a' =? "activo")) eqn:E; [|contradiction].
    destruct H as [H|[]]. injection H as <- <-.
    rewrite !andb_true_iff in E. destruct E as [[[E1 E2] E3] E4].
    apply Z.eqb_eq in E1, E2. apply String.eqb_eq in E3, E4. auto 10.
  - intros (Ha & Hac & E1 & E2 & E3 & E4). exists a. split; [assumption|].
    apply in_flat_map. exists ac. split; [assumption|].
    rewrite E1, E2, E3, E4, !Z.eqb_refl. cbn. auto.
Qed.

(** X25.  The public catalogue shows nothing soft-deleted.  The four
    reads below leave the store as it is and, unless the storage fails
    (500), answer as follows: [getCarreras] with exactly the careers in
    state 'activa'; [getMaterias] with exactly the subjects of the
    career and year in state 'activa'; [getMateriasByAnioIncompleto]
    with exactly the subjects of the year in state 'activa';
    [getCarreraDetalleById] with 404 when no career in state 'activa'
    has the identifier, and otherwise with such a career and, as its
    coordinator, an active Coordinador assigned to it, or none when
    there is none. *)
Theorem catalogo_solo_activas : forall e db,
  (atender Cursado.getCarreras e db
   = (Some (mkRespuesta 500
              (Json (JError "Error interno del servidor al obtener carreras"))), db)
   \/ exists rows,
        atender Cursado.getCarreras e db
        = (Some (mkRespuesta 200 (JCarrerasPublicas rows)), db)
        /\ forall c, In c rows <-> In c (carrera db) /\ car_estado c = "activa")
  /\ (forall idc a,
        serve (Cursado.getMaterias (Some idc) (Some a)) e db
        = (Some (mkResponse 500
                   (JError "Error interno del servidor al obtener materias.")), db)
        \/ exists rows,
             serve (Cursado.getMaterias (Some idc) (Some a)) e db
             = (Some (mkResponse 200 (JMaterias rows)), db)
             /\ forall m, In m rows <->
                  In m (materia db) /\ mat_id_carrera m = idc /\ año m = a
                  /\ mat_estado m = "activa")
  /\ (forall a,
        serve (Cursado.getMateriasByAnioIncompleto a) e db
        = (Some (mkResponse 500 (JError "Error interno del servidor.")), db)
        \/ exists rows,
             serve (Cursado.getMateriasByAnioIncompleto a) e db
             = (Some (mkResponse 200 (JMaterias rows)), db)
             /\ forall m, In m rows <->
                  In m (materia db) /\ año m = a /\ mat_estado m = "activa")
  /\ (forall id,
        atender (Cursado.getCarreraDetalleById id) e db
        = (Some (mkRespuesta 500
                   (Json (JError "Error interno del servidor al obtener el detalle de la carrera."))),
           db)
        \/ (atender (Cursado.getCarreraDetalleById id) e db
            = (Some (mkRespuesta 404 (Json (JError "Carrera no encontrada."))), db)
            /\ forall c, In c (carrera db) -> id_carrera c = id ->
                         car_estado c <> "activa")
        \/ exists c coordinador,
             atender (Cursado.getCarreraDetalleById id) e db
             = (Some (mkRespuesta 200 (JCarreraDetalle c coordinador)), db)
             /\ In c (carrera db) /\ id_carrera c = id /\ car_estado c = "activa"
             /\ match coordinador with
                | Some x => coordina id db x
                | None => forall x, ~ coordina id db x
                end).
Proof.
  intros e db. split; [|split; [|split]].
  - unfold Cursado.getCarreras. correr.
    destruct (faults e 0%nat); cbn; [left; reflexivity|].
    right. eexists. split; [reflexivity|].
    intros c. unfold Cursado.select_carreras. rewrite In_order_by, filter_In.
    rewrite String.eqb_eq. reflexivity.
  - intros idc a. unfold Cursado.getMaterias. correr.
    destruct (faults e 0%nat); cbn; [left; reflexivity|].
    right. eexists. split; [reflexivity|].
    intros m. unfold Cursado.select_materias. rewrite In_order_by, filter_In.
    rewrite !andb_true_iff, !Z.eqb_eq, String.eqb_eq. tauto.
  - intros a. unfold Cursado.getMateriasByAnioIncompleto. correr.
    destruct (faults e 0%nat); cbn; [left; reflexivity|].
    right. eexists. split; [reflexivity|].
    intros m. unfold Cursado.select_materias_por_anio. rewrite filter_In.
    rewrite !andb_true_iff, !Z.eqb_eq, String.eqb_eq. tauto.
  - intros id. unfold Cursado.getCarreraDetalleById. correr.
    destruct (faults e 0%nat); cbn; [left; reflexivity|].
    destruct (Cursado.select_carrera_activa id db) as [|c cs] eqn:Hc; cbn.
    + right. left. split; [reflexivity|].
      intros c Hin Hid He.
      assert (H : In c (Cursado.select_carrera_activa id db)).
      { apply filter_In. split; [assumption|].
        rewrite Hid, He, Z.eqb_refl. reflexivity. }
      rewrite Hc in H. exact H.
    + destruct (faults e 1%nat); cbn; [left; reflexivity|].
      right. right. exists c, (hd_error (Cursado.select_coordinador id db)).
      split; [reflexivity|].
      assert (H : In c (Cursado.select_carrera_activa id db))
        by (rewrite Hc; left; reflexivity).
      apply filter_In in H. destruct H as [Hin Hp].
      apply andb_true_iff in Hp. destruct Hp as [Hid He].
      apply Z.eqb_eq in Hid. apply String.eqb_eq in He.
      repeat (split; [assumption|]).
      destruct (Cursado.select_coordinador id db) as [|x xs] eqn:Hx; cbn.
      * intros x Hco. apply select_coordinador_coordina in Hco.
        rewrite Hx in Hco. exact Hco.
      * apply select_coordinador_coordina. rewrite Hx. left. reflexivity.
Qed.

(* ----------------------------------------------------------------- *)
(** *** The data of the curriculum report *)

Module PlanProofs.
Import Layout Plan.

Lemma obj_get_set_same : forall {A} k (v : A) o, obj_get k (obj_set k v o) = Some v.
Proof.
  intros A k v o. induction o as [|[k' v'] o IH]; cbn.
  - rewrite String.eqb_refl. reflexivity.
  - destruct (k' =? k) eqn:E; cbn; rewrite E; auto.
Qed.

Lemma obj_get_set_other : forall {A} k k' (v : A) o,
  k' <> k -> obj_get k' (obj_set k v o) = obj_get k' o.
Proof.
  intros A k k' v o Hk. induction o as [|[k0 v0] o IH]; cbn.
  - apply String.eqb_neq in Hk. rewrite String.eqb_sym, Hk. reflexivity.
  - destruct (k0 =? k) eqn:E; cbn.
    + apply String.eqb_eq in E. subst k0.
      apply String.eqb_neq in Hk. rewrite String.eqb_sym, Hk. reflexivity.
    + rewrite IH. reflexivity.
Qed.

Lemma obj_get_None : forall {A} k (o : objeto A),
  obj_get k o = None <-> ~ In k (map fst o).
Proof.
  intros A k o. induction o as [|[k' v'] o IH]; cbn.
  - split; auto.
  - destruct (k' =? k) eqn:E.
    + apply String.eqb_eq in E. split; [discriminate|]. intros H. exfalso. auto.
    + apply String.eqb_neq in E. rewrite IH. split.
      * intros H [H'|H']; auto.
      * intros H H'. auto.
Qed.

Lemma keys_set_new : forall {A} k (v : A) o,
  obj_get k o = None -> map fst (obj_set k v o) = map fst o ++ [k].
Proof.
  intros A k v o. induction o as [|[k' v'] o IH]; cbn; auto.
  destruct (k' =? k); [discriminate|]. intros H. cbn. rewrite IH; auto.
Qed.

Lemma keys_set_old : forall {A} k (v v0 : A) o,
  obj_get k o = Some v0 -> map fst (obj_set k v o) = map fst o.
Proof.
  intros A k v v0 o. induction o as [|[k' v'] o IH]; cbn; [discriminate|].
  destruct (k' =? k); cbn; auto. intros H. rewrite IH; auto.
Qed.

Lemma suma_app : forall l l', suma (l ++ l') = suma l + suma l'.
Proof.
  intros l l'. unfold suma. induction l as [|x l IH]; cbn; [reflexivity|].
  rewrite IH. lia.
Qed.

Lemma suma_set : forall k v (o : objeto Z),
  suma (map snd (obj_set k v o)) = suma (map snd o) + v - or_zero (obj_get k o).
Proof.
  intros k v o. unfold suma. induction o as [|[k' v'] o IH]; cbn; [lia|].
  destruct (k' =? k); cbn; [lia|]. rewrite IH. lia.
Qed.

Lemma suma_insert_by : forall {A} (f : A -> Z) le x l,
  suma (map f (insert_by le x l)) = f x + suma (map f l).
Proof.
  intros A f le x l. unfold suma. induction l as [|y l IH]; cbn; [reflexivity|].
  destruct (le x y); cbn; [reflexivity|]. rewrite IH. lia.
Qed.

Lemma suma_order_by : forall {A} (f : A -> Z) le l,
  suma (map f (order_by le l)) = suma (map f l).
Proof.
  intros A f le l. induction l as [|x l IH]; cbn [order_by]; [reflexivity|].
  rewrite suma_insert_by, IH. reflexivity.
Qed.

Lemma get_keys : forall (o : objeto Z),
  NoDup (map fst o) ->
  map (fun k => or_zero (obj_get k o)) (map fst o) = map snd o.
Proof.
  intros o. induction o as [|[k v] o IH]; cbn; [reflexivity|].
  intros Hd. inversion Hd as [|? ? Hn Hd']; subst.
  rewrite String.eqb_refl. cbn. f_equal.
  rewrite <- IH by assumption. apply map_ext_in. intros k' Hk'.
  destruct (k =? k') eqn:E; [|reflexivity].
  apply String.eqb_eq in E. subst k'. contradiction.
Qed.

Ltac paso := cbv beta iota; cbn [durable work intx tick fst snd].

Section Agregar.

Variable rows : list Correlatividad.

Lemma inv_agregar : forall vistas acc m,
  invariante rows vistas acc -> invariante rows (vistas ++ [m]) (agregar rows acc m).
Proof.
  intros vistas [[mpa tha] thc] m (Hk & Hd & Hm & Ht & Hc).
  unfold agregar. set (anio := string_of_Z (año m)).
  assert (Hmm : del_año anio m = true) by (unfold del_año; apply String.eqb_refl).
  pose proof (Hm anio) as Hma. pose proof (Ht anio) as Hta.
  assert (Hf : forall k, filter (del_año k) (vistas ++ [m])
                         = filter (del_año k) vistas
                           ++ (if del_año k m then [m] else [])).
  { intros k. rewrite filter_app. cbn. destruct (del_año k m); reflexivity. }
  assert (Hne : forall k, k <> anio -> del_año k m = false).
  { intros k Hne. unfold del_año. fold anio. apply String.eqb_neq. congruence. }
  destruct (filter (del_año anio) vistas) as [|m0 ms] eqn:Hv.
  - rewrite Hma. unfold invariante.
    rewrite !obj_get_set_same. cbn [or_zero app].
    split; [|split; [|split; [|split]]].
    + erewrite (keys_set_old anio _ 0) by apply obj_get_set_same.
      erewrite (keys_set_old anio _ []) by apply obj_get_set_same.
      rewrite !keys_set_new by assumption. rewrite Hk. reflexivity.
    + erewrite (keys_set_old anio _ []) by apply obj_get_set_same.
      rewrite keys_set_new by assumption.
      apply NoDup_app_remove_l with (l := []). cbn.
      apply NoDup_rev in Hd. rewrite <- (rev_involutive (map fst mpa ++ [anio])).
      apply NoDup_rev. rewrite rev_app_distr. cbn. constructor; [|assumption].
      rewrite <- in_rev. apply obj_get_None. assumption.
    + intros k. rewrite Hf. destruct (String.string_dec k anio) as [->|Hn].
      * rewrite obj_get_set_same, Hv, Hmm. reflexivity.
      * rewrite !obj_get_set_other by assumption.
        rewrite Hm, (Hne k Hn), app_nil_r. reflexivity.
    + intros k. rewrite Hf. destruct (String.string_dec k anio) as [->|Hn].
      * rewrite obj_get_set_same, Hv, Hmm. cbn. f_equal. lia.
      * rewrite !obj_get_set_other by assumption.
        rewrite Ht, (Hne k Hn), app_nil_r. reflexivity.
    + rewrite !suma_set, Hta, obj_get_set_same. cbn. lia.
  - rewrite Hma. cbv beta iota zeta. rewrite Hma, Hta. unfold invariante. cbn [or_zero].
    split; [|split; [|split; [|split]]].
    + erewrite keys_set_old by eassumption.
      erewrite keys_set_old by eassumption. assumption.
    + erewrite keys_set_old by eassumption. assumption.
    + intros k. rewrite Hf. destruct (String.string_dec k anio) as [->|Hn].
      * rewrite obj_get_set_same, Hv, Hmm. cbn. rewrite map_app. reflexivity.
      * rewrite !obj_get_set_other by assumption.
        rewrite Hm, (Hne k Hn), app_nil_r. reflexivity.
    + intros k. rewrite Hf. destruct (String.string_dec k anio) as [->|Hn].
      * rewrite obj_get_set_same, Hv, Hmm. cbn [app]. f_equal.
        change (m0 :: ms ++ [m]) with ((m0 :: ms) ++ [m]).
        rewrite map_app, suma_app. unfold suma. cbn. lia.
      * rewrite !obj_get_set_other by assumption.
        rewrite Ht, (Hne k Hn), app_nil_r. reflexivity.
    + rewrite suma_set, Hta. cbn. lia.
Qed.

Lemma inv_fold : forall ms vistas acc,
  invariante rows vistas acc -> invariante rows (vistas ++ ms) (fold_left (agregar rows) ms acc).
Proof.
  intros ms. induction ms as [|m ms IH]; intros vistas acc H; cbn.
  - rewrite app_nil_r. assumption.
  - replace (vistas ++ m :: ms) with ((vistas ++ [m]) ++ ms)
      by (rewrite <- app_assoc; reflexivity).
    apply IH. apply inv_agregar. assumption.
Qed.

Lemma inv_inicial : invariante rows [] ([], [], 0).
Proof.
  cbn. repeat split; auto. constructor.
Qed.

End Agregar.

(** What [fetchPlanData] returns, when it returns a plan. *)
Lemma fetchPlanData_inv : forall idCarrera e w p w',
  fetchPlanData idCarrera e w = (Ok (Some p), w') ->
  let materias := select_materias idCarrera (durable w) in
  let rows := select_correlatividades (map id_materia materias) (durable w) in
  durable w' = durable w
  /\ hd_error (Cursado.select_carrera_activa idCarrera (durable w)) = Some (carrera_ p)
  /\ invariante rows materias (materiasPorAnio p, totalHorasAnuales p, totalHorasCarrera p).
Proof.
  intros idCarrera e w p w' H materias rows. revert H.
  unfold fetchPlanData. correr.
  destruct (faults e (tick w)); [discriminate|]. paso.
  destruct (Cursado.select_carrera_activa idCarrera (durable w)) as [|c cs] eqn:Hc;
    [discriminate|]. paso.
  destruct (faults e (S (tick w))); [discriminate|]. paso.
  pose proof (inv_fold rows materias [] _ (inv_inicial rows)) as Hinv.
  cbn [app] in Hinv. fold materias. fold rows.
  destruct materias as [|m ms] eqn:Hm.
  - intros H. injection H as <- <-. cbn. split; [reflexivity|]. split; [reflexivity|].
    repeat split; auto. constructor.
  - paso. destruct (faults e (S (S (tick w)))); [discriminate|]. paso.
    fold rows.
    destruct (fold_left (agregar rows) (m :: ms) ([], [], 0)) as [[mpa tha] thc].
    intros H. injection H as <- <-.
    split; [reflexivity|]. split; [reflexivity|]. exact Hinv.
Qed.

Lemma filter_filter : forall {A} (P Q : A -> bool) l,
  filter P (filter Q l) = filter (fun x => Q x && P x) l.
Proof.
  intros A P Q l. induction l as [|x l IH]; cbn; [reflexivity|].
  destruct (Q x); cbn; [|exact IH]. destruct (P x); [f_equal|]; exact IH.
Qed.

Lemma clasificar_fold : forall l acc,
  fila (fold_left clasificar l acc) = fila acc
  /\ cursarAprobada (fold_left clasificar l acc)
     = cursarAprobada acc
       ++ map id_materia_requisito
            (filter (fun c => (tipo c =? "Cursar") && (estado_requisito c =? "Aprobada")) l)
  /\ cursarRegular (fold_left clasificar l acc)
     = cursarRegular acc
       ++ map id_materia_requisito
            (filter (fun c => (tipo c =? "Cursar") && (estado_requisito c =? "Regular")) l)
  /\ rendirAprobada (fold_left clasificar l acc)
     = rendirAprobada acc
       ++ map id_materia_requisito
            (filter (fun c => (tipo c =? "Promoción/Rendir")
                              && (estado_requisito c =? "Aprobada")) l).
Proof.
  intros l. induction l as [|c l IH]; intros acc; cbn [fold_left filter map].
  - rewrite !app_nil_r. auto.
  - destruct (IH (clasificar acc c)) as (Hf & Ha & Hr & Hp).
    rewrite Hf, Ha, Hr, Hp. clear IH Hf Ha Hr Hp. unfold clasificar.
    destruct (tipo c =? "Cursar") eqn:Et.
    + apply String.eqb_eq in Et. rewrite Et.
      change ("Cursar" =? "Promoción/Rendir") with false. cbn [andb].
      destruct (estado_requisito c =? "Aprobada") eqn:Ea.
      * apply String.eqb_eq in Ea. rewrite Ea.
        change ("Aprobada" =? "Regular") with false.
        cbn. rewrite <- !app_assoc. auto.
      * destruct (estado_requisito c =? "Regular"); cbn; rewrite <- ?app_assoc; auto.
    + cbn [andb].
      destruct ((tipo c =? "Promoción/Rendir") && (estado_requisito c =? "Aprobada"));
        cbn; rewrite <- ?app_assoc; auto.
Qed.

(** X26.  The three prerequisite lists of a subject of the plan.  The
    loop that files the edges of a subject gives the same as three
    selections from the edges whose principal is the subject, in their
    order: the requisites of the edges of type 'Cursar' in state
    'Aprobada', of those of type 'Cursar' in state 'Regular', and of
    those of type 'Promoción/Rendir' in state 'Aprobada'.  An edge with
    any other type or state is in none of the lists. *)
Theorem correlativas_por_tipo : forall rows m,
  fila (correlativas rows m) = m
  /\ cursarAprobada (correlativas rows m) = requisitos rows m "Cursar" "Aprobada"
  /\ cursarRegular (correlativas rows m) = requisitos rows m "Cursar" "Regular"
  /\ rendirAprobada (correlativas rows m)
     = requisitos rows m "Promoción/Rendir" "Aprobada".
Proof.
  intros rows m. unfold correlativas.
  destruct (clasificar_fold
              (filter (fun c => (id_materia_principal c =? id_materia m)%Z) rows)
              (mkMateriaPlan m [] [] [])) as (Hf & Ha & Hr & Hp).
  assert (Hff : forall P : Correlatividad -> bool,
            filter P (filter (fun c => (id_materia_principal c =? id_materia m)%Z) rows)
            = filter (fun c => (id_materia_principal c =? id_materia m)%Z && P c) rows).
  { intros P. apply filter_filter. }
  rewrite Hf, Ha, Hr, Hp, !Hff. cbn [fila cursarAprobada cursarRegular rendirAprobada app].
  unfold requisitos. split; [reflexivity|].
  repeat split; f_equal; apply filter_ext; intros c; rewrite andb_assoc; reflexivity.
Qed.

Lemma fila_correlativas : forall rows m, fila (correlativas rows m) = m.
Proof.
  intros rows m. unfold correlativas.
  destruct (clasificar_fold
              (filter (fun c => (id_materia_principal c =? id_materia m)%Z) rows)
              (mkMateriaPlan m [] [] [])) as [Hf _].
  exact Hf.
Qed.

Lemma In_keys_get : forall {A} k (o : objeto A),
  In k (map fst o) -> exists v, obj_get k o = Some v.
Proof.
  intros A k o Hk. destruct (obj_get k o) as [v|] eqn:E; [eauto|].
  apply obj_get_None in E. contradiction.
Qed.

(** X27.  The totals of the report add up.  In a plan that
    [fetchPlanData] returns, the total of each year that the report
    prints is the sum of the yearly hours of the subjects listed under
    that year, and the total of the career is the sum of the totals of
    the years. *)
Theorem plan_totales : forall idCarrera e w p w',
  fetchPlanData idCarrera e w = (Ok (Some p), w') ->
  totalHorasCarrera p = suma (map snd (grupos p))
  /\ Forall (fun g => snd g
                      = suma (map (fun mp => horasAnualesNum (fila mp)) (snd (fst g))))
            (grupos p).
Proof.
  intros idCarrera e w p w' H.
  apply fetchPlanData_inv in H. cbv zeta in H.
  destruct H as (_ & _ & Hk & Hd & Hm & Ht & Hc). split.
  - rewrite Hc. unfold grupos, anios. rewrite map_map. cbn [snd].
    rewrite suma_order_by, <- Hk. rewrite get_keys; [reflexivity|].
    rewrite Hk. assumption.
  - apply Forall_forall. intros g Hg. unfold grupos in Hg.
    apply in_map_iff in Hg. destruct Hg as [anio [<- Ha]]. cbn [fst snd].
    unfold anios in Ha. apply In_order_by in Ha.
    rewrite Hm, Ht.
    destruct (filter (del_año anio) (select_materias idCarrera (durable w)))
      as [|m ms]; [reflexivity|].
    cbn [or_zero]. rewrite map_map. f_equal. apply map_ext.
    intros x. rewrite fila_correlativas. reflexivity.
Qed.

(** The totals of the plan of career 10 add up. *)
Lemma plan_totales_witness :
  totalHorasCarrera Ejemplo.plan_sistemas
  = suma (map snd (grupos Ejemplo.plan_sistemas))
  /\ Forall (fun g => snd g
                      = suma (map (fun mp => horasAnualesNum (fila mp)) (snd (fst g))))
            (grupos Ejemplo.plan_sistemas).
Proof.
  apply (plan_totales 10 Ejemplo.entorno (mkWorld Ejemplo.db Ejemplo.db false 0)
                      Ejemplo.plan_sistemas
                      (mkWorld Ejemplo.db Ejemplo.db false 3)).
  vm_compute. reflexivity.
Defined.

(** X28.  The years of the report.  In a plan that [fetchPlanData]
    returns, the years of the report are without repetition and are
    exactly the names of the years of the active subjects of the
    career; under each year the report lists, in the order of the query
    and each with its prerequisite lists, exactly the active subjects of
    the career with that year. *)
Theorem plan_agrupa : forall idCarrera e w p w',
  fetchPlanData idCarrera e w = (Ok (Some p), w') ->
  NoDup (anios p)
  /\ (forall anio,
        In anio (anios p)
        <-> exists m, In m (select_materias idCarrera (durable w))
                      /\ string_of_Z (año m) = anio)
  /\ Forall (fun g =>
               snd (fst g)
               = map (correlativas
                        (select_correlatividades
                           (map id_materia (select_materias idCarrera (durable w)))
                           (durable w)))
                     (filter (del_año (fst (fst g)))
                             (select_materias idCarrera (durable w))))
            (grupos p).
Proof.
  intros idCarrera e w p w' H.
  set (materias := select_materias idCarrera (durable w)).
  set (rows := select_correlatividades (map id_materia materias) (durable w)).
  apply fetchPlanData_inv in H. cbv zeta in H. fold materias in H. fold rows in H.
  destruct H as (_ & _ & Hk & Hd & Hm & Ht & Hc).
  assert (Hkeys : forall anio, In anio (map fst (materiasPorAnio p))
                    <-> exists m, In m materias /\ string_of_Z (año m) = anio).
  { intros anio. split.
    - intros Hi. apply In_keys_get in Hi. destruct Hi as [v Hv].
      rewrite Hm in Hv.
      destruct (filter (del_año anio) materias) as [|m ms] eqn:Hf; [discriminate|].
      assert (Hin : In m (filter (del_año anio) materias)) by (rewrite Hf; left; reflexivity).
      apply filter_In in Hin. destruct Hin as [Hin Hy].
      exists m. split; [assumption|]. apply String.eqb_eq. exact Hy.
    - intros [m [Hin Hy]].
      assert (Hf : In m (filter (del_año anio) materias)).
      { apply filter_In. split; [assumption|]. apply String.eqb_eq. exact Hy. }
      destruct (obj_get anio (materiasPorAnio p)) as [v|] eqn:Hv.
      + destruct (in_dec String.string_dec anio (map fst (materiasPorAnio p)))
          as [Hi|Hi]; [assumption|].
        apply obj_get_None in Hi. congruence.
      + rewrite Hm in Hv.
        destruct (filter (del_año anio) materias); [contradiction|discriminate]. }
  split; [|split].
  - unfold anios. apply NoDup_order_by. assumption.
  - intros anio. unfold anios. rewrite In_order_by. apply Hkeys.
  - apply Forall_forall. intros g Hg. unfold grupos in Hg.
    apply in_map_iff in Hg. destruct Hg as [anio [<- Ha]]. cbn [fst snd].
    rewrite Hm. destruct (filter (del_año anio) materias); reflexivity.
Qed.

(** The plan of career 10 has the years 1 and 2, once each. *)
Lemma plan_agrupa_witness :
  NoDup (anios Ejemplo.plan_sistemas)
  /\ Forall (fun g => snd (fst g)
               = map (correlativas
                        (select_correlatividades
                           (map id_materia (select_materias 10 Ejemplo.db)) Ejemplo.db))
                     (filter (del_año (fst (fst g))) (select_materias 10 Ejemplo.db)))
            (grupos Ejemplo.plan_sistemas).
Proof.
  assert (H : fetchPlanData 10 Ejemplo.entorno (mkWorld Ejemplo.db Ejemplo.db false 0)
              = (Ok (Some Ejemplo.plan_sistemas),
                 mkWorld Ejemplo.db Ejemplo.db false 3))
    by (vm_compute; reflexivity).
  split.
  - exact (proj1 (plan_agrupa 10 _ _ _ _ H)).
  - exact (proj2 (proj2 (plan_agrupa 10 _ _ _ _ H))).
Defined.

End PlanProofs.

(* ----------------------------------------------------------------- *)
(** *** The name of the downloaded file *)

Lemma palabra_no_espacio : forall c,
  Plan.es_palabra c = true -> JS.is_space c = false.
Proof.
  intros c H. apply not_true_is_false. intros Hs.
  unfold Plan.es_palabra, JS.is_lower, JS.is_upper, JS.is_digit, Plan.guion_bajo in H.
  unfold JS.is_space in Hs.
  rewrite !orb_true_iff, !andb_true_iff, !N.leb_le, !N.eqb_eq in *. lia.
Qed.

Lemma limpiar_palabras : forall nombre,
  Forall (fun c => Plan.es_palabra c = true) nombre -> Plan.limpiar nombre = nombre.
Proof.
  intros nombre H. unfold Plan.limpiar.
  induction H as [|c l Hc Hl IH]; cbn; [reflexivity|].
  rewrite (palabra_no_espacio c Hc), Hc, IH. reflexivity.
Qed.

Lemma limpiar_Forall : forall nombre,
  Forall (fun c => Plan.es_palabra c = true) (Plan.limpiar nombre).
Proof.
  intros nombre. unfold Plan.limpiar. apply Forall_forall.
  intros c Hc. apply filter_In in Hc. apply Hc.
Qed.

(** X29.  The name of the downloaded file.  Whatever the name of the
    career, every code unit of the file name is an ASCII letter, a
    digit, an underscore or a full stop, so the name holds no quote, no
    separator of paths and no line break; what the career contributes
    is never longer than its name, cleaning it twice changes nothing,
    and a name made of letters, digits and underscores is kept as it
    is. *)
Theorem nombreArchivo_seguro : forall nombre,
  Forall (fun c => Plan.es_palabra c = true \/ c = punto) (Plan.nombreArchivo nombre)
  /\ (List.length (Plan.limpiar nombre) <= List.length nombre)%nat
  /\ Plan.limpiar (Plan.limpiar nombre) = Plan.limpiar nombre
  /\ (Forall (fun c => Plan.es_palabra c = true) nombre ->
      Plan.nombreArchivo nombre
      = JS.units "Plan_Estudio_" ++ nombre ++ JS.units "_IES6.pdf").
Proof.
  intros nombre. split; [|split; [|split]].
  - unfold Plan.nombreArchivo. apply Forall_app. split; [|apply Forall_app; split].
    + cbn. repeat constructor.
    + eapply Forall_impl; [|apply limpiar_Forall]. cbn. auto.
    + cbn. repeat (constructor; [first [left; reflexivity | right; reflexivity]|]).
      constructor.
  - unfold Plan.limpiar.
    rewrite <- (length_map (fun c => if JS.is_space c then Plan.guion_bajo else c) nombre).
    apply filter_length_le.
  - apply limpiar_palabras. apply limpiar_Forall.
  - intros H. unfold Plan.nombreArchivo. rewrite limpiar_palabras by assumption.
    reflexivity.
Qed.
